(** * Attendance system: the session recorder and the analytics aggregator

    A shallow embedding of [enhanced_attendance_api.js] (the Express
    handlers [POST /api/attendance/save], [POST /api/students/enroll] and
    [GET /api/attendance/analytics]) together with the PostgreSQL schema the
    handlers run against ([users], [students], [attendance_sessions],
    [attendance_records]).

    - JavaScript values are an inductive type with the language's own
      truthiness, property access and iteration rules.
    - The database is a record of tables (lists of rows, in heap order) with
      the two [SERIAL] sequences; a client connection carries the working
      copy of an open transaction.
    - [await]ed database calls live in a state-and-exception monad, so that
      [try]/[catch]/[finally] read as in the handler.
    - SQL queries are compositions of relational operators (joins with
      three-valued [ON] predicates, [WHERE], [GROUP BY], aggregates,
      [HAVING], [ORDER BY]). *)

From Stdlib Require Import ZArith QArith Lia.
From stdpp Require Import base option list sorting strings pretty.

Local Open Scope Z_scope.
Set Warnings "-register-all".

(* ===================================================================== *)
(** * JavaScript values *)
(* ===================================================================== *)

(** What [express.json()] hands to a handler: parsed JSON, plus [undefined]
    for what a property access on a missing key yields.  Numbers are exact
    rationals (a JSON literal is a decimal fraction); strings are sequences
    of 8-bit characters. *)
Inductive value :=
| VUndefined
| VNull
| VBool (b : bool)
| VNum (q : Q)
| VStr (s : string)
| VArr (elems : list value)
| VObj (props : list (string * value)).

(** Exceptions a handler can see. *)
Inductive error :=
| TypeError                (* property of undefined/null, not iterable *)
| ConnectionError          (* the driver could not reach the database *)
| InvalidInput             (* a parameter is not valid text for its column type *)
| StringTooLong            (* value too long for type character varying(n) *)
| NotNullViolation
| ForeignKeyViolation
| UniqueViolation
| DivisionByZero.

Inductive result (A : Type) :=
| Ok (a : A)
| Err (e : error).
Arguments Ok {A} a.
Arguments Err {A} e.

(** [ToBoolean]: the falsy values are [undefined], [null], [false], [0]
    and the empty string; every array and every object is truthy. *)
Definition to_boolean (v : value) : bool :=
  match v with
  | VUndefined | VNull => false
  | VBool b => b
  | VNum q => negb (Qeq_bool q 0)
  | VStr s => negb (String.eqb s "")
  | VArr _ | VObj _ => true
  end.

Fixpoint assoc (k : string) (props : list (string * value)) : value :=
  match props with
  | [] => VUndefined
  | (k', v) :: rest => if String.eqb k k' then v else assoc k rest
  end.

Definition js_number_of_nat (n : nat) : value := VNum (inject_Z (Z.of_nat n)).

(** [v.k] for the property names the handlers use (own data properties and
    [length]).  Reading a property of [undefined] or [null] throws. *)
Definition get_prop (v : value) (k : string) : result value :=
  match v with
  | VUndefined | VNull => Err TypeError
  | VObj props => Ok (assoc k props)
  | VArr elems =>
      Ok (if String.eqb k "length" then js_number_of_nat (length elems) else VUndefined)
  | VStr s =>
      Ok (if String.eqb k "length" then js_number_of_nat (String.length s) else VUndefined)
  | VBool _ | VNum _ => Ok VUndefined
  end.

(** A destructuring default ([section = 'S33']) replaces [undefined] only. *)
Definition with_default (d : value) (v : value) : value :=
  match v with
  | VUndefined => d
  | _ => v
  end.

Fixpoint chars (s : string) : list value :=
  match s with
  | EmptyString => []
  | String c rest => VStr (String c EmptyString) :: chars rest
  end.

(** The elements [for (const x of v)] visits.  Arrays and strings are
    iterable; anything else throws when the loop starts. *)
Definition js_iter (v : value) : result (list value) :=
  match v with
  | VArr elems => Ok elems
  | VStr s => Ok (chars s)
  | _ => Err TypeError
  end.

(* ===================================================================== *)
(** * The database driver *)
(* ===================================================================== *)

(** How a JavaScript value bound to a query parameter becomes a column
    value is decided by node-postgres and PostgreSQL's input functions, not
    by this repository, so it is an interface.  [None] is SQL [NULL].
    The laws are the part of the behaviour the handlers rely on. *)
Class PgDriver := {
  (** the text sent for a parameter ([prepareValue]) *)
  to_text : value -> option string;
  (** [INTEGER] *)
  to_integer : value -> result (option Z);
  (** [DECIMAL(4,3)], as its unscaled integer: thousandths *)
  to_decimal_4_3 : value -> result (option Z);
  (** [TIMESTAMP], as an instant *)
  to_timestamp : value -> result (option Z);
  (** [JSONB], given the value that was [JSON.stringify]ed *)
  to_jsonb : value -> result (option value);

  to_text_undefined : to_text VUndefined = None;
  to_text_null : to_text VNull = None;
  to_text_string s : to_text (VStr s) = Some s;
  to_integer_number z :
    to_integer (VNum (inject_Z z)) =
      if bool_decide (-2147483648 <= z <= 2147483647) then Ok (Some z) else Err InvalidInput;
}.

Fixpoint spaces_only (s : string) : bool :=
  match s with
  | EmptyString => true
  | String c rest => Ascii.eqb c Ascii.Space && spaces_only rest
  end.

(** Assignment to a [VARCHAR(n)] column: longer text is an error unless the
    excess is spaces only, which is cut off. *)
Definition varchar (n : nat) (t : option string) : result (option string) :=
  match t with
  | None => Ok None
  | Some s =>
      if (String.length s <=? n)%nat then Ok (Some s)
      else if spaces_only (String.substring n (String.length s - n) s)
           then Ok (Some (String.substring 0 n s))
           else Err StringTooLong
  end.

Definition not_null {A} (c : option A) : result A :=
  match c with
  | Some a => Ok a
  | None => Err NotNullViolation
  end.

(* ===================================================================== *)
(** * The schema *)
(* ===================================================================== *)

(** Dates are day numbers, timestamps are instants.  Columns that only
    carry a schema default and are never named by the handlers
    ([created_at], [is_active], [email], [last_login]) are left out. *)

Record user_row := {
  u_user_id : Z;                      (* SERIAL PRIMARY KEY *)
  u_username : string;                (* VARCHAR(50) UNIQUE NOT NULL *)
  u_password_hash : string;           (* VARCHAR(255) NOT NULL *)
  u_role : option string;             (* VARCHAR(20) DEFAULT 'teacher' *)
  u_first_name : option string;
  u_last_name : option string;
}.

Record student_row := {
  st_student_id : string;             (* VARCHAR(50) PRIMARY KEY *)
  st_full_name : string;              (* VARCHAR(255) NOT NULL *)
  st_face_embedding : option value;   (* JSONB *)
  st_section : option string;         (* VARCHAR(10) DEFAULT 'S33' *)
  st_enrollment_date : option Z;      (* TIMESTAMP DEFAULT CURRENT_TIMESTAMP *)
}.

Record session_row := {
  s_session_id : Z;                   (* SERIAL PRIMARY KEY *)
  s_teacher_id : option Z;            (* INTEGER REFERENCES users(user_id) *)
  s_subject : string;                 (* VARCHAR(100) NOT NULL *)
  s_section : string;                 (* VARCHAR(10) NOT NULL *)
  s_session_date : Z;                 (* DATE NOT NULL *)
  s_session_type : option string;     (* VARCHAR(20) DEFAULT 'offline' *)
  s_start_time : option Z;            (* TIMESTAMP *)
  s_end_time : option Z;              (* TIMESTAMP *)
  s_total_duration : option Z;        (* INTEGER *)
  s_total_students : option Z;        (* INTEGER DEFAULT 0 *)
}.

Record record_row := {
  ar_record_id : Z;                   (* SERIAL PRIMARY KEY *)
  ar_session_id : option Z;           (* INTEGER REFERENCES attendance_sessions ON DELETE CASCADE *)
  ar_student_id : option string;      (* VARCHAR(50) REFERENCES students(student_id) *)
  ar_status : option string;          (* VARCHAR(20) DEFAULT 'absent' *)
  ar_detection_count : option Z;      (* INTEGER DEFAULT 0 *)
  ar_confidence_score : option Z;     (* DECIMAL(4,3) DEFAULT 0.000, in thousandths *)
  ar_first_detection_time : option Z; (* TIMESTAMP *)
  ar_last_detection_time : option Z;  (* TIMESTAMP *)
}.

Record Tables := {
  users : list user_row;
  students : list student_row;
  attendance_sessions : list session_row;
  attendance_records : list record_row;
}.

(** The database and one client connection to it.  [committed] is what
    every connection sees; [txn] is the working copy between [BEGIN] and
    [COMMIT]/[ROLLBACK].  Sequences are not transactional: a value handed
    out by [nextval] is not given back on rollback.  [faults] is the
    environment: one entry per database call from now on, [true] where the
    call fails for a reason outside the program (an empty plan: none). *)
Record World := {
  committed : Tables;
  txn : option Tables;
  session_id_seq : Z;
  record_id_seq : Z;
  faults : list bool;
}.

Definition working (w : World) : Tables :=
  match txn w with
  | Some t => t
  | None => committed w
  end.

Definition set_working (t : Tables) (w : World) : World :=
  match txn w with
  | Some _ =>
      {| committed := committed w; txn := Some t;
         session_id_seq := session_id_seq w; record_id_seq := record_id_seq w;
         faults := faults w |}
  | None =>
      {| committed := t; txn := None;
         session_id_seq := session_id_seq w; record_id_seq := record_id_seq w;
         faults := faults w |}
  end.

Definition add_student (r : student_row) (t : Tables) : Tables :=
  {| users := users t; students := students t ++ [r];
     attendance_sessions := attendance_sessions t;
     attendance_records := attendance_records t |}.

Definition add_session (r : session_row) (t : Tables) : Tables :=
  {| users := users t; students := students t;
     attendance_sessions := attendance_sessions t ++ [r];
     attendance_records := attendance_records t |}.

Definition add_record (r : record_row) (t : Tables) : Tables :=
  {| users := users t; students := students t;
     attendance_sessions := attendance_sessions t;
     attendance_records := attendance_records t ++ [r] |}.

Definition add_records (rs : list record_row) (t : Tables) : Tables :=
  {| users := users t; students := students t;
     attendance_sessions := attendance_sessions t;
     attendance_records := attendance_records t ++ rs |}.

(* ===================================================================== *)
(** * Awaited calls: state and exceptions *)
(* ===================================================================== *)

Definition M (A : Type) : Type := World -> result A * World.

#[export] Instance result_ret : MRet result := fun A a => Ok a.
#[export] Instance result_bind : MBind result := fun A B f r =>
  match r with
  | Ok a => f a
  | Err e => Err e
  end.

#[export] Instance result_fmap : FMap result := fun A B f r =>
  match r with
  | Ok a => Ok (f a)
  | Err e => Err e
  end.

#[export] Instance M_ret : MRet M := fun A a w => (Ok a, w).
#[export] Instance M_bind : MBind M := fun A B f m w =>
  match m w with
  | (Ok a, w') => f a w'
  | (Err e, w') => (Err e, w')
  end.

Definition throw {A} (e : error) : M A := fun w => (Err e, w).

(** A synchronous computation that may throw. *)
Definition lift {A} (r : result A) : M A := fun w => (r, w).

(** [try { body } catch (error) { handler }] *)
Definition try_catch {A} (body : M A) (handler : error -> M A) : M A := fun w =>
  match body w with
  | (Ok a, w') => (Ok a, w')
  | (Err e, w') => handler e w'
  end.

(** [try { body } finally { cleanup }], for a cleanup that cannot throw. *)
Definition try_finally {A} (body : M A) (cleanup : World -> World) : M A := fun w =>
  let '(r, w') := body w in (r, cleanup w').

(** [for (const x of xs) { await body(x) }] *)
Fixpoint for_of {A} (xs : list A) (body : A -> M unit) : M unit :=
  match xs with
  | [] => mret tt
  | x :: rest => body x ≫= fun _ => for_of rest body
  end.

Definition with_faults (f : list bool) (w : World) : World :=
  {| committed := committed w; txn := txn w;
     session_id_seq := session_id_seq w; record_id_seq := record_id_seq w;
     faults := f |}.

(** One round trip to the database: the environment decides whether it
    gets there, the statement decides the rest. *)
Definition db_call {A} (stmt : M A) : M A := fun w =>
  match faults w with
  | true :: plan => (Err ConnectionError, with_faults plan w)
  | false :: plan => stmt (with_faults plan w)
  | [] => stmt w
  end.

(** [pool.connect()]: a connection with no transaction open. *)
Definition pool_connect : M unit :=
  db_call (fun w =>
    (Ok tt, {| committed := committed w; txn := None;
               session_id_seq := session_id_seq w; record_id_seq := record_id_seq w;
               faults := faults w |})).

(** [client.release()] *)
Definition release (w : World) : World := w.

Definition sql_begin : M unit :=
  db_call (fun w =>
    (Ok tt, {| committed := committed w; txn := Some (working w);
               session_id_seq := session_id_seq w; record_id_seq := record_id_seq w;
               faults := faults w |})).

Definition sql_commit : M unit :=
  db_call (fun w =>
    (Ok tt, {| committed := working w; txn := None;
               session_id_seq := session_id_seq w; record_id_seq := record_id_seq w;
               faults := faults w |})).

Definition sql_rollback : M unit :=
  db_call (fun w =>
    (Ok tt, {| committed := committed w; txn := None;
               session_id_seq := session_id_seq w; record_id_seq := record_id_seq w;
               faults := faults w |})).

Definition has_user (t : Tables) (id : Z) : bool :=
  existsb (fun u => u_user_id u =? id) (users t).
Definition has_student (t : Tables) (id : string) : bool :=
  existsb (fun st => String.eqb (st_student_id st) id) (students t).
Definition has_session (t : Tables) (id : Z) : bool :=
  existsb (fun s => s_session_id s =? id) (attendance_sessions t).
Definition has_record (t : Tables) (id : Z) : bool :=
  existsb (fun ar => ar_record_id ar =? id) (attendance_records t).

(** A nullable foreign key: [NULL] references nothing and is accepted. *)
Definition references {A} (exists_ : A -> bool) (c : option A) : bool :=
  match c with
  | Some a => exists_ a
  | None => true
  end.

Section Statements.
Context `{PgDriver}.

(** The row [INSERT INTO attendance_sessions (...) VALUES ($1, ..., $9)]
    builds from its parameters, before [session_id] gets its default.
    [$4] is [new Date().toISOString().split('T')[0]], always a date: it is
    passed as the day number. *)
Definition session_values (p1 p2 p3 : value) (p4 : Z) (p5 p6 p7 p8 p9 : value)
  : result (Z -> session_row) :=
  teacher_id ← to_integer p1;
  subject ← varchar 100 (to_text p2) ≫= not_null;
  section ← varchar 10 (to_text p3) ≫= not_null;
  session_type ← varchar 20 (to_text p5);
  start_time ← to_timestamp p6;
  end_time ← to_timestamp p7;
  total_duration ← to_integer p8;
  total_students ← to_integer p9;
  mret (fun session_id =>
    {| s_session_id := session_id; s_teacher_id := teacher_id;
       s_subject := subject; s_section := section; s_session_date := p4;
       s_session_type := session_type; s_start_time := start_time;
       s_end_time := end_time; s_total_duration := total_duration;
       s_total_students := total_students |}).

Definition next_session_id (w : World) : Z * World :=
  (session_id_seq w,
   {| committed := committed w; txn := txn w;
      session_id_seq := session_id_seq w + 1; record_id_seq := record_id_seq w;
      faults := faults w |}).

Definition next_record_id (w : World) : Z * World :=
  (record_id_seq w,
   {| committed := committed w; txn := txn w;
      session_id_seq := session_id_seq w; record_id_seq := record_id_seq w + 1;
      faults := faults w |}).

(** [INSERT INTO attendance_sessions ... RETURNING session_id] *)
Definition insert_attendance_session
    (p1 p2 p3 : value) (p4 : Z) (p5 p6 p7 p8 p9 : value) : M Z :=
  db_call (fun w =>
    match session_values p1 p2 p3 p4 p5 p6 p7 p8 p9 with
    | Err e => (Err e, w)
    | Ok values =>
        let '(id, w1) := next_session_id w in
        let row := values id in
        if has_session (working w1) id then (Err UniqueViolation, w1)
        else if negb (references (has_user (working w1)) (s_teacher_id row))
             then (Err ForeignKeyViolation, w1)
             else (Ok id, set_working (add_session row (working w1)) w1)
    end).

(** The row [INSERT INTO attendance_records (...) VALUES ($1, ..., $7)]
    builds; [$1] is the [session_id] the session insert returned. *)
Definition record_values (p1 : Z) (p2 p3 p4 p5 p6 p7 : value)
  : result (Z -> record_row) :=
  student_id ← varchar 50 (to_text p2);
  status ← varchar 20 (to_text p3);
  detection_count ← to_integer p4;
  confidence_score ← to_decimal_4_3 p5;
  first_detection_time ← to_timestamp p6;
  last_detection_time ← to_timestamp p7;
  mret (fun record_id =>
    {| ar_record_id := record_id; ar_session_id := Some p1;
       ar_student_id := student_id; ar_status := status;
       ar_detection_count := detection_count;
       ar_confidence_score := confidence_score;
       ar_first_detection_time := first_detection_time;
       ar_last_detection_time := last_detection_time |}).

(** [INSERT INTO attendance_records ...] *)
Definition insert_attendance_record (p1 : Z) (p2 p3 p4 p5 p6 p7 : value) : M unit :=
  db_call (fun w =>
    match record_values p1 p2 p3 p4 p5 p6 p7 with
    | Err e => (Err e, w)
    | Ok values =>
        let '(id, w1) := next_record_id w in
        let row := values id in
        if has_record (working w1) id then (Err UniqueViolation, w1)
        else if negb (references (has_session (working w1)) (ar_session_id row))
             then (Err ForeignKeyViolation, w1)
        else if negb (references (has_student (working w1)) (ar_student_id row))
             then (Err ForeignKeyViolation, w1)
             else (Ok tt, set_working (add_record row (working w1)) w1)
    end).

End Statements.

(* ===================================================================== *)
(** * The handlers *)
(* ===================================================================== *)

(** [req.user] is the token's payload, put there by [authenticateToken];
    [req.body] is the parsed JSON body. *)
Record request := {
  user : value;
  body : value;
}.

(** [res.json(body)] or [res.status(code).json({ error })]. *)
Inductive response (A : Type) :=
| Json (payload : A)
| Status (code : Z) (error_message : string).
Arguments Json {A} payload.
Arguments Status {A} code error_message.

(** The outermost [try { ... } catch (error) { res.status(500).json(...) }]
    of a handler. *)
Definition or_500 {A} (message : string) (handler : M (response A))
  : World -> response A * World := fun w =>
  match handler w with
  | (Ok r, w') => (r, w')
  | (Err _, w') => (Status 500 message, w')
  end.

Record save_body := {
  message : string;
  sessionId : Z;
}.

Section Handlers.
Context `{PgDriver}.

(** What one element of [attendanceRecords] is turned into: its six
    properties, bound to [$2..$7]. *)
Definition record_of (sessionId : Z) (record : value) : result (Z -> record_row) :=
  studentId ← get_prop record "studentId";
  status ← get_prop record "status";
  detectionCount ← get_prop record "detectionCount";
  confidenceScore ← get_prop record "confidenceScore";
  firstDetectionTime ← get_prop record "firstDetectionTime";
  lastDetectionTime ← get_prop record "lastDetectionTime";
  record_values sessionId studentId status detectionCount confidenceScore
    firstDetectionTime lastDetectionTime.

(** What the request is turned into for the session insert: [$1..$9]. *)
Definition session_of (today : Z) (req : request)
    (sessionData attendanceRecords subject section sessionType : value)
  : result (Z -> session_row) :=
  userId ← get_prop (user req) "userId";
  startTime ← get_prop sessionData "startTime";
  endTime ← get_prop sessionData "endTime";
  duration ← get_prop sessionData "duration";
  length ← get_prop attendanceRecords "length";
  session_values userId subject section today sessionType startTime endTime
    duration length.

(** The loop body of [POST /api/attendance/save]. *)
Definition save_record (sessionId : Z) (record : value) : M unit :=
  studentId ← lift (get_prop record "studentId");
  status ← lift (get_prop record "status");
  detectionCount ← lift (get_prop record "detectionCount");
  confidenceScore ← lift (get_prop record "confidenceScore");
  firstDetectionTime ← lift (get_prop record "firstDetectionTime");
  lastDetectionTime ← lift (get_prop record "lastDetectionTime");
  insert_attendance_record sessionId studentId status detectionCount
    confidenceScore firstDetectionTime lastDetectionTime.

(** The transaction of [POST /api/attendance/save]: from [BEGIN] to
    [COMMIT], inside the inner [try]. *)
Definition save_transaction (today : Z) (req : request)
    (sessionData attendanceRecords subject section sessionType : value)
  : M (response save_body) :=
  _ ← sql_begin;
  userId ← lift (get_prop (user req) "userId");
  startTime ← lift (get_prop sessionData "startTime");
  endTime ← lift (get_prop sessionData "endTime");
  duration ← lift (get_prop sessionData "duration");
  length ← lift (get_prop attendanceRecords "length");
  sessionId ← insert_attendance_session userId subject section today
                 sessionType startTime endTime duration length;
  records ← lift (js_iter attendanceRecords);
  _ ← for_of records (save_record sessionId);
  _ ← sql_commit;
  mret (Json {| message := "Attendance saved successfully"; sessionId := sessionId |}).

(** [app.post('/api/attendance/save', authenticateToken, ...)].
    [today] is the UTC date of [new Date()]. *)
Definition attendance_save (today : Z) (req : request)
  : World -> response save_body * World :=
  or_500 "Failed to save attendance" (
    sessionData ← lift (get_prop (body req) "sessionData");
    attendanceRecords ← lift (get_prop (body req) "attendanceRecords");
    subject ← lift (get_prop (body req) "subject");
    section ← lift (with_default (VStr "S33") <$> get_prop (body req) "section");
    sessionType ← lift (with_default (VStr "offline") <$> get_prop (body req) "sessionType");
    if negb (to_boolean sessionData) || negb (to_boolean attendanceRecords)
       || negb (to_boolean subject)
    then mret (Status 400 "Session data, attendance records, and subject required")
    else
      _ ← pool_connect;
      try_finally
        (try_catch
           (save_transaction today req sessionData attendanceRecords subject
              section sessionType)
           (fun error => _ ← sql_rollback; throw error))
        release).

End Handlers.

(* ===================================================================== *)
(** * The validation rules as the specification words them *)
(* ===================================================================== *)

(** A field of the request body; an absent key reads as [undefined]. *)
Definition field (req : request) (k : string) : value :=
  match get_prop (body req) k with
  | Ok v => v
  | Err _ => VUndefined
  end.





(* ===================================================================== *)
(** * SQL: three-valued logic and relational operators *)
(* ===================================================================== *)

(** A nullable column is an [option]; a condition is [Some true],
    [Some false] or unknown ([None]).  A row passes [ON], [WHERE],
    [HAVING] or [CASE WHEN] only when the condition is [Some true]. *)
Definition sql_eq {A} `{EqDecision A} (a b : option A) : option bool :=
  match a, b with
  | Some x, Some y => Some (bool_decide (x = y))
  | _, _ => None
  end.

Definition sql_ge (a b : option Z) : option bool :=
  match a, b with
  | Some x, Some y => Some (y <=? x)
  | _, _ => None
  end.

Definition holds (c : option bool) : bool :=
  match c with
  | Some true => true
  | _ => false
  end.

(** [l JOIN r ON on] *)
Definition inner_join {A B} (on : A -> B -> option bool) (l : list A) (r : list B)
  : list (A * B) :=
  flat_map (fun a => map (fun b => (a, b)) (List.filter (fun b => holds (on a b)) r)) l.

(** [l LEFT JOIN r ON on]: a left row without a match is kept once, with
    the right side all [NULL]. *)
Definition left_join {A B} (on : A -> B -> option bool) (l : list A) (r : list B)
  : list (A * option B) :=
  flat_map (fun a =>
    match List.filter (fun b => holds (on a b)) r with
    | [] => [(a, None)]
    | matches => map (fun b => (a, Some b)) matches
    end) l.

(** [WHERE cond] *)
Definition where_ {R} (cond : R -> option bool) (rows : list R) : list R :=
  List.filter (fun row => holds (cond row)) rows.

Fixpoint distinct {K} (eqb : K -> K -> bool) (ks : list K) : list K :=
  match ks with
  | [] => []
  | k :: rest => k :: List.filter (fun k' => negb (eqb k k')) (distinct eqb rest)
  end.

(** [GROUP BY key]: one group per distinct key value, holding the rows
    with that key.  (The order of the groups is the order in which the
    keys first occur; SQL leaves it open.) *)
Definition group_by {K R} (eqb : K -> K -> bool) (key : R -> K) (rows : list R)
  : list (K * list R) :=
  map (fun k => (k, List.filter (fun row => eqb k (key row)) rows))
      (distinct eqb (map key rows)).

(** [COUNT( * )] *)
Definition count_star {R} (group : list R) : Z := Z.of_nat (length group).

(** [COUNT(expr)]: the rows where [expr] is not [NULL]. *)
Definition count {R A} (expr : R -> option A) (group : list R) : Z :=
  Z.of_nat (length (List.filter (fun row => bool_decide (is_Some (expr row))) group)).

(** The sum of the non-[NULL] values of [expr]. *)
Definition sum {R} (expr : R -> option Z) (group : list R) : Z :=
  fold_right (fun row acc => default 0 (expr row) + acc) 0 group.

(** [AVG(expr)] over the non-[NULL] values, [NULL] when there is none.
    [expr] is given in units of [1/scale] (1 for an integer, 1000 for a
    [DECIMAL(_,3)]); the result is the exact quotient, where PostgreSQL
    keeps sixteen or more significant digits of it. *)
Definition avg {R} (scale : positive) (expr : R -> option Z) (group : list R)
  : option Q :=
  if count expr group =? 0 then None
  else Some (sum expr group # (scale * Z.to_pos (count expr group))).

(** [a / b] on [numeric]: the exact quotient (see [avg]). *)
Definition numeric_div (a b : Z) : result Q :=
  if b =? 0 then Err DivisionByZero else Ok (a # Z.to_pos b).

Definition Qlt_bool (x y : Q) : bool := negb (Qle_bool y x).

(** The order of [ORDER BY key ASC], on rows. *)
Definition asc_Z {R} (key : R -> Z) : relation R := fun a b => key a <= key b.
Definition asc_Q {R} (key : R -> Q) : relation R := fun a b => (key a <= key b)%Q.

#[export] Instance asc_Z_dec {R} (key : R -> Z) (a b : R) : Decision (asc_Z key a b).
Proof. unfold asc_Z. apply _. Defined.

#[export] Instance asc_Q_dec {R} (key : R -> Q) (a b : R) : Decision (asc_Q key a b).
Proof. unfold asc_Q, Qle. apply _. Defined.

(** [ORDER BY key ASC]: some sorted arrangement of the rows (SQL leaves
    the order of rows with equal keys open). *)
Definition order_by_Z {R} (key : R -> Z) (rows : list R) : list R :=
  merge_sort (asc_Z key) rows.

Definition order_by_Q {R} (key : R -> Q) (rows : list R) : list R :=
  merge_sort (asc_Q key) rows.

(** [mapM] in [result], for per-group expressions that can raise. *)
Fixpoint traverse {A B} (f : A -> result B) (l : list A) : result (list B) :=
  match l with
  | [] => Ok []
  | a :: rest =>
      b ← f a;
      bs ← traverse f rest;
      mret (b :: bs)
  end.

(** [pool.query(sql)] for a [SELECT]: it runs on a connection of its own
    and reads what is committed. *)
Definition pool_query {A} (select : Tables -> result A) : M A :=
  db_call (fun w => (select (committed w), w)).

(* ===================================================================== *)
(** * The analytics queries *)
(* ===================================================================== *)

Record trend_row := {
  t_session_date : Z;
  t_total_sessions : Z;
  t_attendance_rate : option Q;
}.

Record engagement_row := {
  e_section : string;
  e_avg_engagement : option Q;
  e_present_count : Z;
  e_total_count : Z;
}.

Record risk_row := {
  r_full_name : string;
  r_student_id : string;
  r_total_sessions : Z;
  r_attended_sessions : Z;
  r_attendance_percentage : Q;
}.

(** [ar.status = 'present'], for a record that may be the [NULL] side of a
    left join. *)
Definition status_is_present (ar : option record_row) : option bool :=
  sql_eq (ar ≫= ar_status) (Some "present"%string).

(** [CASE WHEN ar.status = 'present' THEN 1 ELSE 0 END * 100] *)
Definition present_times_100 (ar : option record_row) : option Z :=
  Some ((if holds (status_is_present ar) then 1 else 0) * 100).

(** [CASE WHEN ar.status = 'present' THEN 1 END] *)
Definition present_or_null (ar : option record_row) : option Z :=
  if holds (status_is_present ar) then Some 1 else None.

(** [FROM attendance_sessions s LEFT JOIN attendance_records ar
     ON s.session_id = ar.session_id
     WHERE s.session_date >= CURRENT_DATE - INTERVAL '30 days'] *)
Definition trends_from (current_date : Z) (t : Tables)
  : list (session_row * option record_row) :=
  where_ (fun '(s, _) => sql_ge (Some (s_session_date s)) (Some (current_date - 30)))
    (left_join (fun s ar => sql_eq (Some (s_session_id s)) (ar_session_id ar))
       (attendance_sessions t) (attendance_records t)).

(** The query behind [trendsResult]. *)
Definition trends_query (current_date : Z) (t : Tables) : list trend_row :=
  order_by_Z t_session_date
    (map (fun '(session_date, group) =>
            {| t_session_date := session_date;
               t_total_sessions := count_star group;
               t_attendance_rate := avg 1 (fun '(_, ar) => present_times_100 ar) group |})
         (group_by Z.eqb (fun '(s, _) => s_session_date s)
            (trends_from current_date t))).

(** [FROM attendance_sessions s JOIN attendance_records ar
     ON s.session_id = ar.session_id
     WHERE s.session_date >= CURRENT_DATE - INTERVAL '7 days'] *)
Definition engagement_from (current_date : Z) (t : Tables)
  : list (session_row * record_row) :=
  where_ (fun '(s, _) => sql_ge (Some (s_session_date s)) (Some (current_date - 7)))
    (inner_join (fun s ar => sql_eq (Some (s_session_id s)) (ar_session_id ar))
       (attendance_sessions t) (attendance_records t)).

(** The query behind [engagementResult]. *)
Definition engagement_query (current_date : Z) (t : Tables) : list engagement_row :=
  map (fun '(section, group) =>
         {| e_section := section;
            e_avg_engagement := avg 1000 (fun '(_, ar) => ar_confidence_score ar) group;
            e_present_count := count (fun '(_, ar) => present_or_null (Some ar)) group;
            e_total_count := count_star group |})
      (group_by String.eqb (fun '(s, _) => s_section s)
         (engagement_from current_date t)).

(** [FROM students st
     LEFT JOIN attendance_records ar ON st.student_id = ar.student_id
     LEFT JOIN attendance_sessions s ON ar.session_id = s.session_id
     WHERE s.session_date >= CURRENT_DATE - INTERVAL '30 days'] *)
Definition risk_from (current_date : Z) (t : Tables)
  : list (student_row * option record_row * option session_row) :=
  where_ (fun '(_, _, s) => sql_ge (s_session_date <$> s) (Some (current_date - 30)))
    (left_join (fun '(_, ar) s => sql_eq (ar ≫= ar_session_id) (Some (s_session_id s)))
       (left_join (fun st ar => sql_eq (Some (st_student_id st)) (ar_student_id ar))
          (students t) (attendance_records t))
       (attendance_sessions t)).

(** [COUNT(CASE WHEN ar.status = 'present' THEN 1 END) * 100.0 / COUNT( * )] *)
Definition attendance_percentage
    (group : list (student_row * option record_row * option session_row)) : result Q :=
  numeric_div (count (fun '(_, ar, _) => present_or_null ar) group * 100)
              (count_star group).

(** One group of the risk query: [HAVING ... < 75], then the select list. *)
Definition risk_group
    (g : (string * string) * list (student_row * option record_row * option session_row))
  : result (list risk_row) :=
  let '((student_id, full_name), group) := g in
  having ← attendance_percentage group;
  if Qlt_bool having 75 then
    percentage ← attendance_percentage group;
    mret [ {| r_full_name := full_name;
              r_student_id := student_id;
              r_total_sessions := count_star group;
              r_attended_sessions := count (fun '(_, ar, _) => present_or_null ar) group;
              r_attendance_percentage := percentage |} ]
  else mret [].

Definition pair_eqb (a b : string * string) : bool :=
  String.eqb (fst a) (fst b) && String.eqb (snd a) (snd b).

(** The query behind [riskStudentsResult]. *)
Definition risk_students_query (current_date : Z) (t : Tables) : result (list risk_row) :=
  rows ← traverse risk_group
            (group_by pair_eqb (fun '(st, _, _) => (st_student_id st, st_full_name st))
               (risk_from current_date t));
  mret (order_by_Q r_attendance_percentage (concat rows)).

Record analytics_body := {
  trends : list trend_row;
  engagement : list engagement_row;
  riskStudents : list risk_row;
}.

(** [app.get('/api/attendance/analytics', authenticateToken, ...)].
    [current_date] is the database's [CURRENT_DATE]. *)
Definition attendance_analytics (current_date : Z)
  : World -> response analytics_body * World :=
  or_500 "Failed to fetch analytics" (
    trendsResult ← pool_query (fun t => Ok (trends_query current_date t));
    engagementResult ← pool_query (fun t => Ok (engagement_query current_date t));
    riskStudentsResult ← pool_query (risk_students_query current_date);
    mret (Json {| trends := trendsResult;
                  engagement := engagementResult;
                  riskStudents := riskStudentsResult |})).

(* ===================================================================== *)
(** * The analytics as the specification words them *)
(* ===================================================================== *)

(** "in the last [days] days": dated no more than [days] days before the
    database's current date.  (A session is dated when it is saved, so no
    date lies further ahead than a difference of time zones.) *)
Definition in_last_days (days current_date : Z) (s : session_row) : bool :=
  current_date - days <=? s_session_date s.

(** The record is one of the session's. *)
Definition belongs_to (ar : record_row) (s : session_row) : bool :=
  bool_decide (ar_session_id ar = Some (s_session_id s)).

Definition is_present (ar : record_row) : bool :=
  bool_decide (ar_status ar = Some "present"%string).

Definition present_count (rs : list record_row) : Z :=
  Z.of_nat (length (List.filter is_present rs)).

Definition total_count (rs : list record_row) : Z := Z.of_nat (length rs).

(** The confidence scores there are, in thousandths. *)
Definition scores (rs : list record_row) : list Z := omap ar_confidence_score rs.

(** Their mean, when there is one. *)
Definition mean_confidence (rs : list record_row) : option Q :=
  match scores rs with
  | [] => None
  | _ => Some (foldr Z.add 0 (scores rs) # (1000 * Pos.of_nat (length (scores rs))))
  end.

(** Engagement: the records of a section's sessions of the last 7 days. *)
Definition section_records (current_date : Z) (t : Tables) (section : string)
  : list record_row :=
  List.filter
    (fun ar => existsb (fun s => belongs_to ar s && String.eqb (s_section s) section
                                 && in_last_days 7 current_date s)
                 (attendance_sessions t))
    (attendance_records t).

(** At risk: the records of a student in sessions of the last 30 days. *)
Definition student_records (current_date : Z) (t : Tables) (st : student_row)
  : list record_row :=
  List.filter
    (fun ar => bool_decide (ar_student_id ar = Some (st_student_id st))
               && existsb (fun s => belongs_to ar s && in_last_days 30 current_date s)
                    (attendance_sessions t))
    (attendance_records t).

(** [100 * present_count / total_count] *)
Definition percentage (rs : list record_row) : Q :=
  present_count rs * 100 # Z.to_pos (total_count rs).

Definition at_risk (st : student_row) (rs : list record_row) : risk_row :=
  {| r_full_name := st_full_name st;
     r_student_id := st_student_id st;
     r_total_sessions := total_count rs;
     r_attended_sessions := present_count rs;
     r_attendance_percentage := percentage rs |}.

(** Trend: "the count of distinct Sessions" on a date. *)
Definition sessions_on (date : Z) (t : Tables) : list session_row :=
  List.filter (fun s => s_session_date s =? date) (attendance_sessions t).

(** The rows the trend query joins for a date: a session with its
    records, or with [None] when it has none. *)
Definition joined_on (current_date date : Z) (t : Tables)
  : list (session_row * option record_row) :=
  List.filter (fun '(s, _) => s_session_date s =? date) (trends_from current_date t).

(** [100] for a present record, [0] for any other row. *)
Definition rate_points (rows : list (session_row * option record_row)) : Z :=
  sum (fun '(_, ar) => present_times_100 ar) rows.

(** No record of the table belongs to the session. *)
Definition has_no_records (s : session_row) (t : Tables) : bool :=
  forallb (fun ar => negb (belongs_to ar s)) (attendance_records t).

(** A table of sessions with one row taken out. *)
Definition with_sessions (sessions : list session_row) (t : Tables) : Tables :=
  {| users := users t; students := students t;
     attendance_sessions := sessions;
     attendance_records := attendance_records t |}.

(* ===================================================================== *)
(** * Enrollment, and the API as a transition system *)
(* ===================================================================== *)

Record enrolled_student := {
  enrolled_student_id : string;
  enrolled_full_name : string;
  enrolled_enrollment_date : option Z;
}.

Record enroll_body := {
  enroll_message : string;
  student : enrolled_student;
}.

Section Enrollment.
Context `{PgDriver}.

(** [SELECT student_id FROM students WHERE student_id = $1] *)
Definition select_student (p1 : value) (t : Tables) : result (list string) :=
  Ok (map st_student_id
        (where_ (fun st => sql_eq (Some (st_student_id st)) (to_text p1)) (students t))).

Definition student_values (p1 p2 p3 p4 : value) (now : Z) : result student_row :=
  student_id ← varchar 50 (to_text p1) ≫= not_null;
  full_name ← varchar 255 (to_text p2) ≫= not_null;
  face_embedding ← to_jsonb p3;
  section ← varchar 10 (to_text p4);
  mret {| st_student_id := student_id; st_full_name := full_name;
          st_face_embedding := face_embedding; st_section := section;
          st_enrollment_date := Some now |}.

(** [INSERT INTO students (student_id, full_name, face_embedding, section,
    enrollment_date) VALUES ($1, $2, $3, $4, NOW()) RETURNING ...], sent
    through [pool.query]: a statement that commits on its own. *)
Definition insert_student (p1 p2 p3 p4 : value) (now : Z) : M enrolled_student :=
  db_call (fun w =>
    match student_values p1 p2 p3 p4 now with
    | Err e => (Err e, w)
    | Ok row =>
        if has_student (committed w) (st_student_id row) then (Err UniqueViolation, w)
        else (Ok {| enrolled_student_id := st_student_id row;
                    enrolled_full_name := st_full_name row;
                    enrolled_enrollment_date := st_enrollment_date row |},
              {| committed := add_student row (committed w); txn := txn w;
                 session_id_seq := session_id_seq w; record_id_seq := record_id_seq w;
                 faults := faults w |})
    end).

(** [app.post('/api/students/enroll', authenticateToken, ...)].
    [now] is the database's [NOW()]. *)
Definition students_enroll (now : Z) (req : request)
  : World -> response enroll_body * World :=
  or_500 "Failed to enroll student" (
    studentId ← lift (get_prop (body req) "studentId");
    fullName ← lift (get_prop (body req) "fullName");
    faceEmbedding ← lift (get_prop (body req) "faceEmbedding");
    section ← lift (with_default (VStr "S33") <$> get_prop (body req) "section");
    if negb (to_boolean studentId) || negb (to_boolean fullName)
       || negb (to_boolean faceEmbedding)
    then mret (Status 400 "Student ID, name, and face embedding required")
    else
      existingStudent ← pool_query (select_student studentId);
      if (0 <? length existingStudent)%nat
      then mret (Status 400 "Student already enrolled")
      else
        result ← insert_student studentId fullName faceEmbedding section now;
        mret (Json {| enroll_message := "Student enrolled successfully";
                      student := result |})).




End Enrollment.

(* ===================================================================== *)
(** * Integrity constraints and what a session owns *)
(* ===================================================================== *)

(** [PRIMARY KEY (session_id)] on [attendance_sessions]. *)
Fixpoint unique_session_ids (sessions : list session_row) : bool :=
  match sessions with
  | [] => true
  | s :: rest =>
      negb (existsb (fun s' => s_session_id s' =? s_session_id s) rest)
      && unique_session_ids rest
  end.

(** [PRIMARY KEY (student_id)] on [students]. *)
Fixpoint unique_student_ids (sts : list student_row) : bool :=
  match sts with
  | [] => true
  | st :: rest =>
      negb (existsb (fun st' => String.eqb (st_student_id st') (st_student_id st)) rest)
      && unique_student_ids rest
  end.

(** [attendance_records.session_id REFERENCES attendance_sessions]. *)
Definition fk_records_sessions (t : Tables) : bool :=
  forallb (fun ar => references (has_session t) (ar_session_id ar)) (attendance_records t).

(** The sequences are ahead of every key in use, as they are when keys
    only ever come from the [SERIAL] default. *)
Definition sequences_ahead (w : World) : bool :=
  forallb (fun s => s_session_id s <? session_id_seq w) (attendance_sessions (committed w))
  && forallb (fun ar => ar_record_id ar <? record_id_seq w) (attendance_records (committed w)).



(* ===================================================================== *)
(** * Authentication, login and the student list *)
(* ===================================================================== *)

(** [jsonwebtoken] and [bcryptjs] are libraries, with the secret fixed by
    the environment: an interface.  [jwt_verify] gives the payload of a
    token that verifies, [bcrypt_compare] throws on arguments it does not
    accept. *)
Class Crypto := {
  jwt_verify : string -> option value;
  jwt_sign : value -> string;
  bcrypt_compare : value -> string -> result bool;
}.

(** [s.split(' ')]: the pieces between single spaces, empty pieces
    included. *)
Fixpoint split_spaces (s : string) : list string :=
  match s with
  | EmptyString => [EmptyString]
  | String c rest =>
      if Ascii.eqb c Ascii.Space then EmptyString :: split_spaces rest
      else match split_spaces rest with
           | piece :: pieces => String c piece :: pieces
           | [] => [String c EmptyString]
           end
  end.

(** [authHeader && authHeader.split(' ')[1]], for a header that is absent
    ([None]) or a string; the result is [undefined] ([None]) or a string. *)
Definition header_token (authHeader : option string) : option string :=
  match authHeader with
  | None => None
  | Some EmptyString => Some EmptyString
  | Some header => nth_error (split_spaces header) 1
  end.

Inductive auth_outcome :=
| Rejected (code : Z) (error_message : string)
| Next (user : value).

(** [authenticateToken]: [req.headers['authorization']] in, either a
    response or [next()] with [req.user] set. *)
Definition authenticateToken `{Crypto} (authHeader : option string) : auth_outcome :=
  match header_token authHeader with
  | None | Some EmptyString => Rejected 401 "Access token required"
  | Some token =>
      match jwt_verify token with
      | None => Rejected 403 "Invalid token"
      | Some user => Next user
      end
  end.

(** [app.METHOD(path, authenticateToken, handler)] *)
Definition authenticated `{Crypto} {A} (authHeader : option string) (body : value)
    (handler : request -> World -> response A * World)
  : World -> response A * World :=
  match authenticateToken authHeader with
  | Rejected code error_message => fun w => (Status code error_message, w)
  | Next user => handler {| user := user; body := body |}
  end.

Record login_user := {
  id : Z;
  username : string;
  role : option string;
  firstName : option string;
  lastName : option string;
}.

Record login_body := {
  token : string;
  logged_in : login_user;
}.

Definition nullable_string (c : option string) : value :=
  match c with
  | Some s => VStr s
  | None => VNull
  end.

(** The payload [jwt.sign] is given. *)
Definition token_payload (u : user_row) : value :=
  VObj [("userId", VNum (inject_Z (u_user_id u)));
        ("username", VStr (u_username u));
        ("role", nullable_string (u_role u))]%string.

Record enrolled_row := {
  el_student_id : string;
  el_full_name : string;
  el_enrollment_date : option Z;
  el_has_face_data : bool;
  el_section : option string;
}.

(** The order of [ORDER BY key DESC] on a nullable key: PostgreSQL puts
    [NULL] first when descending. *)
Definition desc_nulls_first {R} (key : R -> option Z) : relation R := fun a b =>
  match key a, key b with
  | None, _ => True
  | Some _, None => False
  | Some x, Some y => y <= x
  end.

#[export] Instance desc_nulls_first_dec {R} (key : R -> option Z) (a b : R)
  : Decision (desc_nulls_first key a b).
Proof. unfold desc_nulls_first. destruct (key a), (key b); apply _. Defined.

(** [SELECT student_id, full_name, enrollment_date,
     face_embedding IS NOT NULL as has_face_data, section
     FROM students ORDER BY enrollment_date DESC] *)
Definition enrolled_query (t : Tables) : list enrolled_row :=
  merge_sort (desc_nulls_first el_enrollment_date)
    (map (fun st =>
            {| el_student_id := st_student_id st;
               el_full_name := st_full_name st;
               el_enrollment_date := st_enrollment_date st;
               el_has_face_data := bool_decide (is_Some (st_face_embedding st));
               el_section := st_section st |})
         (students t)).

(** [app.get('/api/students/enrolled', authenticateToken, ...)], the
    handler. *)
Definition students_enrolled : World -> response (list enrolled_row) * World :=
  or_500 "Failed to fetch students" (
    result ← pool_query (fun t => Ok (enrolled_query t));
    mret (Json result)).

Section Login.
Context `{PgDriver} `{Crypto}.

(** [SELECT * FROM users WHERE username = $1] *)
Definition select_user (p1 : value) (t : Tables) : result (list user_row) :=
  Ok (where_ (fun u => sql_eq (Some (u_username u)) (to_text p1)) (users t)).

(** [app.post('/api/auth/login', ...)] *)
Definition auth_login (req_body : value) : World -> response login_body * World :=
  or_500 "Internal server error" (
    username ← lift (get_prop req_body "username");
    password ← lift (get_prop req_body "password");
    if negb (to_boolean username) || negb (to_boolean password)
    then mret (Status 400 "Username and password required")
    else
      userResult ← pool_query (select_user username);
      match userResult with
      | [] => mret (Status 401 "Invalid credentials")
      | user :: _ =>
          validPassword ← lift (bcrypt_compare password (u_password_hash user));
          if negb validPassword
          then mret (Status 401 "Invalid credentials")
          else
            mret (Json {| token := jwt_sign (token_payload user);
                          logged_in :=
                            {| id := u_user_id user;
                               username := u_username user;
                               role := u_role user;
                               firstName := u_first_name user;
                               lastName := u_last_name user |} |})
      end).

(** A request to the API, with the clock readings its handler takes. *)
Inductive http_request :=
| LoginRequest (body : value)
| EnrolledRequest (authHeader : option string)
| EnrollRequest (authHeader : option string) (body : value) (now : Z)
| SaveRequest (authHeader : option string) (body : value) (today : Z)
| AnalyticsRequest (authHeader : option string) (current_date : Z).

(** The database after the request is served. *)
Definition serve (w : World) (r : http_request) : World :=
  match r with
  | LoginRequest body => snd (auth_login body w)
  | EnrolledRequest authHeader =>
      snd (authenticated authHeader VUndefined (fun _ => students_enrolled) w)
  | EnrollRequest authHeader body now =>
      snd (authenticated authHeader body (students_enroll now) w)
  | SaveRequest authHeader body today =>
      snd (authenticated authHeader body (attendance_save today) w)
  | AnalyticsRequest authHeader current_date =>
      snd (authenticated authHeader VUndefined
             (fun _ => attendance_analytics current_date) w)
  end.

Definition serve_all (w : World) (requests : list http_request) : World :=
  fold_left serve requests w.

End Login.

(** The other foreign keys of the schema. *)
Definition fk_records_students (t : Tables) : bool :=
  forallb (fun ar => references (has_student t) (ar_student_id ar)) (attendance_records t).

Definition fk_sessions_users (t : Tables) : bool :=
  forallb (fun s => references (has_user t) (s_teacher_id s)) (attendance_sessions t).

(** Keys and references are as the schema declares them, and the
    sequences are ahead. *)
Definition integrity (w : World) : bool :=
  unique_student_ids (students (committed w))
  && unique_session_ids (attendance_sessions (committed w))
  && fk_records_sessions (committed w)
  && fk_records_students (committed w)
  && fk_sessions_users (committed w)
  && sequences_ahead w.

(* ===================================================================== *)
(** * A driver and a database to run the handlers on *)
(* ===================================================================== *)

Module Sample.

(** A driver for the values the examples bind: strings, booleans, [null],
    [undefined], whole numbers, scores with a fraction, and timestamps as
    [Date.prototype.toISOString] prints them.  It is stricter than
    PostgreSQL elsewhere: other timestamp or number spellings are rejected,
    and a fraction, an array or an object bound as text becomes [NULL]. *)

Definition whole (q : Q) : option Z :=
  if Qnum q mod Zpos (Qden q) =? 0 then Some (Qnum q / Zpos (Qden q)) else None.

Definition text (v : value) : option string :=
  match v with
  | VStr s => Some s
  | VBool true => Some "true"%string
  | VBool false => Some "false"%string
  | VNum q => pretty <$> whole q
  | _ => None
  end.

Definition int4 (z : Z) : result (option Z) :=
  if bool_decide (-2147483648 <= z <= 2147483647) then Ok (Some z) else Err InvalidInput.

Definition digit (c : Ascii.ascii) : option Z :=
  let n := Z.of_nat (Ascii.nat_of_ascii c) in
  if (48 <=? n) && (n <=? 57) then Some (n - 48) else None.

Fixpoint digits (s : string) (acc : Z) : option Z :=
  match s with
  | EmptyString => Some acc
  | String c rest =>
      match digit c with
      | Some d => digits rest (10 * acc + d)
      | None => None
      end
  end.

Definition number (s : string) : option Z :=
  match s with
  | EmptyString => None
  | _ => digits s 0
  end.

Definition signed (s : string) : option Z :=
  match s with
  | String c rest =>
      if Ascii.eqb c (Ascii.ascii_of_nat 45) (* - *) then Z.opp <$> number rest
      else number s
  | EmptyString => None
  end.

Definition integer (v : value) : result (option Z) :=
  match v with
  | VUndefined | VNull => Ok None
  | VNum q => match whole q with Some z => int4 z | None => Err InvalidInput end
  | VStr s => match signed s with Some z => int4 z | None => Err InvalidInput end
  | _ => Err InvalidInput
  end.

(** Rounding to three places, half away from zero; four digits in all. *)
Definition decimal_4_3 (v : value) : result (option Z) :=
  match v with
  | VUndefined | VNull => Ok None
  | VNum q =>
      let n := Qnum q * 1000 in
      let d := Zpos (Qden q) in
      let r := if 0 <=? n then (2 * n + d) / (2 * d) else - ((2 * - n + d) / (2 * d)) in
      if Z.abs r <? 10000 then Ok (Some r) else Err InvalidInput
  | _ => Err InvalidInput
  end.

Definition leap_year (y : Z) : bool :=
  ((y mod 4 =? 0) && negb (y mod 100 =? 0)) || (y mod 400 =? 0).

Definition days_in_month (y m : Z) : Z :=
  if m =? 2 then (if leap_year y then 29 else 28)
  else if (m =? 4) || (m =? 6) || (m =? 9) || (m =? 11) then 30 else 31.

(** Days since 1970-01-01 of a civil date. *)
Definition days_from_civil (y m d : Z) : Z :=
  let y' := if m <=? 2 then y - 1 else y in
  let era := y' / 400 in
  let yoe := y' - era * 400 in
  let mp := (m + 9) mod 12 in
  let doy := (153 * mp + 2) / 5 + d - 1 in
  let doe := yoe * 365 + yoe / 4 - yoe / 100 + doy in
  era * 146097 + doe - 719468.

Definition field (s : string) (pos len : nat) : option Z :=
  number (String.substring pos len s).

Definition separator (s : string) (pos : nat) (c : string) : bool :=
  String.eqb (String.substring pos 1 s) c.

(** [YYYY-MM-DDTHH:MM:SS.sssZ], in milliseconds since the epoch.  The
    column is [TIMESTAMP] without time zone: the fields are taken as
    written. *)
Definition iso_instant (s : string) : option Z :=
  y ← field s 0 4; mo ← field s 5 2; d ← field s 8 2;
  h ← field s 11 2; mi ← field s 14 2; sec ← field s 17 2; ms ← field s 20 3;
  if (String.length s =? 24)%nat
     && separator s 4 "-" && separator s 7 "-" && separator s 10 "T"
     && separator s 13 ":" && separator s 16 ":" && separator s 19 "."
     && separator s 23 "Z"
     && (1 <=? mo) && (mo <=? 12) && (1 <=? d) && (d <=? days_in_month y mo)
     && (h <=? 23) && (mi <=? 59) && (sec <=? 59)
  then Some ((((days_from_civil y mo d * 24 + h) * 60 + mi) * 60 + sec) * 1000 + ms)
  else None.

Definition timestamp (v : value) : result (option Z) :=
  match v with
  | VUndefined | VNull => Ok None
  | VStr s => match iso_instant s with Some t => Ok (Some t) | None => Err InvalidInput end
  | _ => Err InvalidInput
  end.

Definition jsonb (v : value) : result (option value) :=
  match v with
  | VUndefined => Ok None
  | _ => Ok (Some v)
  end.

(** The rows [CREATE TABLE ... ; INSERT ...] of the schema file leave in a
    fresh database, on day [today] at instant [now] (milliseconds). *)
Definition today : Z := 20000.
Definition now : Z := today * 86400000 + 43200000.

Definition seed_users : list user_row :=
  [ {| u_user_id := 1; u_username := "teacher";
       u_password_hash := "$2a$10$rQZ8kN4K0yHxGqFcHvdJ5.Wq7gQZ8KyFgFYpGqHvFcHvdJ5Wq7gQZ8K";
       u_role := Some "teacher"%string; u_first_name := Some "Demo"%string;
       u_last_name := Some "Teacher"%string |};
    {| u_user_id := 2; u_username := "admin";
       u_password_hash := "$2a$10$rQZ8kN4K0yHxGqFcHvdJ5.Wq7gQZ8KyFgFYpGqHvFcHvdJ5Wq7gQZ8K";
       u_role := Some "admin"%string; u_first_name := Some "Demo"%string;
       u_last_name := Some "Admin"%string |} ].

Definition seed_student (id name section : string) : student_row :=
  {| st_student_id := id; st_full_name := name; st_face_embedding := None;
     st_section := Some section; st_enrollment_date := Some now |}.

Definition seed_students : list student_row :=
  [ seed_student "STU001" "John Doe" "S33";
    seed_student "STU002" "Jane Smith" "S33";
    seed_student "STU003" "Mike Johnson" "S34";
    seed_student "STU004" "Sarah Wilson" "S34";
    seed_student "STU005" "David Brown" "S35" ].

Definition minutes (n : Z) : Z := n * 60000.

Definition seed_sessions : list session_row :=
  [ {| s_session_id := 1; s_teacher_id := Some 1; s_subject := "Computer Science";
       s_section := "S33"; s_session_date := today;
       s_session_type := Some "offline"%string;
       s_start_time := Some (now - minutes 120); s_end_time := Some (now - minutes 60);
       s_total_duration := Some 60; s_total_students := Some 5 |} ].

Definition seed_record (id : Z) (student status : string) (detections score : Z)
    (first last : option Z) : record_row :=
  {| ar_record_id := id; ar_session_id := Some 1; ar_student_id := Some student;
     ar_status := Some status; ar_detection_count := Some detections;
     ar_confidence_score := Some score;
     ar_first_detection_time := first; ar_last_detection_time := last |}.

Definition seed_records : list record_row :=
  [ seed_record 1 "STU001" "present" 5 850 (Some (now - minutes 120)) (Some (now - minutes 70));
    seed_record 2 "STU002" "present" 4 780 (Some (now - minutes 110)) (Some (now - minutes 75));
    seed_record 3 "STU003" "partial" 2 650 (Some (now - minutes 90)) (Some (now - minutes 85));
    seed_record 4 "STU004" "absent" 0 0 None None;
    seed_record 5 "STU005" "present" 6 920 (Some (now - minutes 115)) (Some (now - minutes 65)) ].

Definition seed : Tables :=
  {| users := seed_users; students := seed_students;
     attendance_sessions := seed_sessions; attendance_records := seed_records |}.

Definition world (t : Tables) (plan : list bool) : World :=
  {| committed := t; txn := None;
     session_id_seq := 1 + Z.of_nat (length (attendance_sessions t));
     record_id_seq := 1 + Z.of_nat (length (attendance_records t));
     faults := plan |}.

(** Request bodies. *)
Definition teacher : value := VObj [("userId", VNum 1); ("username", VStr "teacher");
                                    ("role", VStr "teacher")]%string.

Definition session_data : value :=
  VObj [("startTime", VStr "2024-10-04T09:00:00.000Z");
        ("endTime", VStr "2024-10-04T10:00:00.000Z");
        ("duration", VNum 60)]%string.

Definition attendance_record (studentId status : string) (score : Q) : value :=
  VObj [("studentId", VStr studentId); ("status", VStr status);
        ("detectionCount", VNum 3); ("confidenceScore", VNum score);
        ("firstDetectionTime", VStr "2024-10-04T09:05:00.000Z");
        ("lastDetectionTime", VStr "2024-10-04T09:55:00.000Z")]%string.

Definition save_request (subject : value) (records : value) : request :=
  {| user := teacher;
     body := VObj [("sessionData", session_data); ("attendanceRecords", records);
                   ("subject", subject); ("section", VStr "S33")]%string |}.

(** Two records, both enrolled students. *)
Definition two_records : value :=
  VArr [attendance_record "STU001" "present" 0.85;
        attendance_record "STU002" "partial" 0.5].




(** A second database, for the edges of the risk query.  Five sessions:
    four inside the 30-day window (the oldest on its first day), one a day
    too old.  STU001 is present at 3 of 4 (75%), STU002 at 2 of 3, STU003
    has no record, STU004 only one that is too old, STU005 is present on
    the first day of the window and absent in the session that is too old. *)
Definition session_on (id date : Z) : session_row :=
  {| s_session_id := id; s_teacher_id := Some 1; s_subject := "Computer Science";
     s_section := "S33"; s_session_date := date;
     s_session_type := Some "offline"%string;
     s_start_time := None; s_end_time := None;
     s_total_duration := Some 60; s_total_students := None |}.

Definition record_in (id session : Z) (student status : string) : record_row :=
  {| ar_record_id := id; ar_session_id := Some session; ar_student_id := Some student;
     ar_status := Some status; ar_detection_count := Some 1;
     ar_confidence_score := Some 800;
     ar_first_detection_time := None; ar_last_detection_time := None |}.

Definition edges : Tables :=
  {| users := seed_users;
     students := seed_students;
     attendance_sessions :=
       [ session_on 1 today; session_on 2 (today - 1); session_on 3 (today - 10);
         session_on 4 (today - 30); session_on 5 (today - 31) ];
     attendance_records :=
       [ record_in 1 1 "STU001" "present"; record_in 2 2 "STU001" "present";
         record_in 3 3 "STU001" "present"; record_in 4 4 "STU001" "absent";
         record_in 5 1 "STU002" "present"; record_in 6 2 "STU002" "present";
         record_in 7 3 "STU002" "partial";
         record_in 8 5 "STU004" "absent";
         record_in 9 4 "STU005" "present"; record_in 10 5 "STU005" "absent" ] |}.

(** The seed database after a session without attendees was saved. *)
Definition empty_session : session_row := session_on 2 today.
Definition seed_and_empty_session : Tables := add_session empty_session seed.

(** Stand-ins for the token and password libraries: one token, which
    verifies to the teacher of the seed data, and one password, which the
    seed hash accepts.  A password that is not a string is an illegal
    argument. *)
Definition seed_hash : string :=
  "$2a$10$rQZ8kN4K0yHxGqFcHvdJ5.Wq7gQZ8KyFgFYpGqHvFcHvdJ5Wq7gQZ8K".

Definition verify (token : string) : option value :=
  if String.eqb token "teacher-token" then Some teacher else None.

Definition sign (payload : value) : string :=
  match get_prop payload "username" with
  | Ok (VStr name) => String.append name "-token"
  | _ => "token"
  end.

Definition compare (password : value) (hash : string) : result bool :=
  match password with
  | VStr p => Ok (String.eqb p "teach123" && String.eqb hash seed_hash)
  | _ => Err TypeError
  end.

Definition login_request : value :=
  VObj [("username", VStr "teacher"); ("password", VStr "teach123")]%string.

Definition enroll_request (studentId : string) : value :=
  VObj [("studentId", VStr studentId); ("fullName", VStr "Ada Lovelace");
        ("faceEmbedding", VArr [VNum 0.25; VNum 0.5])]%string.

End Sample.

(* ===================================================================== *)
(** * Properties *)
(* ===================================================================== *)

Lemma sample_integer_number z :
  Sample.integer (VNum (inject_Z z)) =
    if bool_decide (-2147483648 <= z <= 2147483647) then Ok (Some z) else Err InvalidInput.
Proof.
  unfold Sample.integer, Sample.whole, inject_Z; simpl.
  rewrite Z.mod_1_r, Z.div_1_r. reflexivity.
Qed.

#[export] Instance sample_driver : PgDriver := {|
  to_text := Sample.text;
  to_integer := Sample.integer;
  to_decimal_4_3 := Sample.decimal_4_3;
  to_timestamp := Sample.timestamp;
  to_jsonb := Sample.jsonb;
  to_text_undefined := eq_refl;
  to_text_null := eq_refl;
  to_text_string := fun _ => eq_refl;
  to_integer_number := sample_integer_number;
|}.

(** ** The statements of the save transaction *)

Section SaveProperties.
Context `{PgDriver}.

Lemma has_student_add_session row t id :
  has_student (add_session row t) id = has_student t id.
Proof. reflexivity. Qed.

Lemma has_student_add_records rows t id :
  has_student (add_records rows t) id = has_student t id.
Proof. reflexivity. Qed.

Lemma add_record_add_records row rows t :
  add_record row (add_records rows t) = add_records (rows ++ [row]) t.
Proof. unfold add_record, add_records; simpl. by rewrite <- app_assoc. Qed.

Lemma add_records_nil t : add_records [] t = t.
Proof. destruct t; unfold add_records; simpl. by rewrite app_nil_r. Qed.


Lemma has_session_add_records rows t id :
  has_session (add_records rows t) id = has_session t id.
Proof. reflexivity. Qed.

(** Inside a transaction a statement leaves what is committed alone. *)
Lemma insert_attendance_session_spec p1 p2 p3 p4 p5 p6 p7 p8 p9 w t r w' :
  txn w = Some t ->
  insert_attendance_session p1 p2 p3 p4 p5 p6 p7 p8 p9 w = (r, w') ->
  committed w' = committed w /\ record_id_seq w' = record_id_seq w /\
  match r with
  | Ok id =>
      exists values,
        session_values p1 p2 p3 p4 p5 p6 p7 p8 p9 = Ok values /\
        id = session_id_seq w /\ session_id_seq w' = id + 1 /\
        has_session t id = false /\
        references (has_user t) (s_teacher_id (values id)) = true /\
        txn w' = Some (add_session (values id) t)
  | Err _ =>
      txn w' = Some t /\ session_id_seq w <= session_id_seq w' <= session_id_seq w + 1
  end.
Proof.
  intros Htxn. unfold insert_attendance_session, db_call.
  destruct (faults w) as [|[] plan]; simpl;
    destruct (session_values p1 p2 p3 p4 p5 p6 p7 p8 p9) as [values|e]; simpl;
    unfold working, set_working; simpl; rewrite ?Htxn; simpl;
    repeat match goal with
           | |- context [if ?c then _ else _] => destruct c eqn:?; simpl
           end;
    intros [= <- <-]; simpl; rewrite ?Htxn;
    repeat split; try lia; try reflexivity.
  all: exists values; repeat split; try done.
  all: by apply negb_false_iff.
Qed.

Lemma insert_attendance_record_spec p1 p2 p3 p4 p5 p6 p7 w t r w' :
  txn w = Some t ->
  insert_attendance_record p1 p2 p3 p4 p5 p6 p7 w = (r, w') ->
  committed w' = committed w /\ session_id_seq w' = session_id_seq w /\
  match r with
  | Ok _ =>
      exists values,
        record_values p1 p2 p3 p4 p5 p6 p7 = Ok values /\
        record_id_seq w' = record_id_seq w + 1 /\
        has_record t (record_id_seq w) = false /\
        has_session t p1 = true /\
        references (has_student t) (ar_student_id (values (record_id_seq w))) = true /\
        txn w' = Some (add_record (values (record_id_seq w)) t)
  | Err _ =>
      txn w' = Some t /\ record_id_seq w <= record_id_seq w' <= record_id_seq w + 1
  end.
Proof.
  intros Htxn. unfold insert_attendance_record, db_call.
  destruct (faults w) as [|[] plan]; simpl;
    destruct (record_values p1 p2 p3 p4 p5 p6 p7) as [values|e] eqn:Hvalues; simpl;
    unfold working, set_working; simpl; rewrite ?Htxn; simpl;
    repeat match goal with
           | |- context [if ?c then _ else _] => destruct c eqn:?; simpl
           end;
    intros [= <- <-]; simpl; rewrite ?Htxn;
    repeat split; try lia; try reflexivity.
  all: exists values; repeat split; try done.
  all: try by apply negb_false_iff.
  all: revert Hvalues; unfold record_values;
    repeat match goal with
           | |- context [mbind _ ?m] => destruct m; simpl; try discriminate
           end;
    intros [= <-]; simpl in *; by apply negb_false_iff.
Qed.

End SaveProperties.

Section SaveLoop.
Context `{PgDriver}.

(** [row] is what the loop body stored for [record]. *)
Definition stored (t : Tables) (sessionId : Z) (record : value) (row : record_row) : Prop :=
  exists values,
    record_of sessionId record = Ok values /\
    row = values (ar_record_id row) /\
    ar_session_id row = Some sessionId /\
    references (has_student t) (ar_student_id row) = true.

Lemma record_values_session_id p1 p2 p3 p4 p5 p6 p7 values id :
  record_values p1 p2 p3 p4 p5 p6 p7 = Ok values ->
  ar_session_id (values id) = Some p1 /\ ar_record_id (values id) = id.
Proof.
  unfold record_values.
  repeat match goal with
         | |- context [mbind _ ?m] => destruct m; simpl; try discriminate
         end.
  by intros [= <-].
Qed.

Lemma save_record_spec sessionId record w t r w' :
  txn w = Some t ->
  save_record sessionId record w = (r, w') ->
  committed w' = committed w /\ session_id_seq w' = session_id_seq w /\
  match r with
  | Ok _ =>
      exists row,
        stored t sessionId record row /\
        ar_record_id row = record_id_seq w /\
        record_id_seq w' = record_id_seq w + 1 /\
        has_record t (record_id_seq w) = false /\
        txn w' = Some (add_record row t)
  | Err _ =>
      txn w' = Some t /\ record_id_seq w <= record_id_seq w' <= record_id_seq w + 1
  end.
Proof.
  intros Htxn. unfold save_record, stored, record_of.
  unfold mbind at 1 2 3 4 5 6, M_bind, lift.
  repeat match goal with
         | |- context [get_prop record ?k] =>
             destruct (get_prop record k) as [?|?]; simpl;
             [|intros [= <- <-]; repeat split; try done; lia]
         end.
  intros Hins.
  destruct (insert_attendance_record_spec _ _ _ _ _ _ _ _ _ _ _ Htxn Hins)
    as (Hc & Hs & Hr).
  split; [done|]. split; [done|].
  destruct r as [[]|e]; [|done].
  destruct Hr as (values & Hvalues & Hseq & Hfresh & _ & Hfk & Htxn').
  destruct (record_values_session_id _ _ _ _ _ _ _ _ (record_id_seq w) Hvalues)
    as [Hsid Hid].
  exists (values (record_id_seq w)). repeat split; try done.
  exists values. rewrite Hid. repeat split; done.
Qed.

(** The loop: all rows or an exception, and nothing committed either way. *)
Lemma save_records_spec sessionId records : forall w t r w',
  txn w = Some t ->
  for_of records (save_record sessionId) w = (r, w') ->
  committed w' = committed w /\ session_id_seq w' = session_id_seq w /\
  match r with
  | Ok _ =>
      exists rows,
        Forall2 (stored t sessionId) records rows /\
        Forall (fun row => record_id_seq w <= ar_record_id row < record_id_seq w') rows /\
        record_id_seq w' = record_id_seq w + Z.of_nat (length rows) /\
        txn w' = Some (add_records rows t)
  | Err _ => exists t', txn w' = Some t' /\ record_id_seq w <= record_id_seq w'
  end.
Proof.
  induction records as [|record records IH]; intros w t r w' Htxn; simpl.
  - intros [= <- <-]. repeat split; try done.
    exists []. rewrite add_records_nil. repeat split; try done; simpl; lia.
  - unfold mbind, M_bind.
    destruct (save_record sessionId record w) as [[[]|e] w1] eqn:Hrec.
    + destruct (save_record_spec _ _ _ _ _ _ Htxn Hrec)
        as (Hc & Hs & row & Hstored & Hid & Hseq & Hfresh & Htxn1).
      intros Hloop.
      destruct (IH _ _ _ _ Htxn1 Hloop) as (Hc' & Hs' & Hr).
      split; [congruence|]. split; [congruence|].
      destruct r as [[]|e].
      * destruct Hr as (rows & Hrows & Hids & Hseq' & Htxn').
        exists (row :: rows). repeat split.
        -- constructor; [done|].
           eapply Forall2_impl; [exact Hrows|].
           intros x y (values & ? & ? & ? & ?). by exists values.
        -- constructor; [lia|].
           eapply Forall_impl; [exact Hids|]. simpl. lia.
        -- simpl length. lia.
        -- rewrite Htxn'. f_equal. unfold add_records, add_record; simpl.
           by rewrite <- app_assoc.
      * destruct Hr as (t' & ? & ?). exists t'. split; [done|lia].
    + intros [= <- <-].
      destruct (save_record_spec _ _ _ _ _ _ Htxn Hrec) as (Hc & Hs & Ht & Hseq).
      repeat split; try done. exists t. split; [done|lia].
Qed.

End SaveLoop.

(** ** The save handler, case by case *)

Lemma pool_connect_spec w r w' :
  pool_connect w = (r, w') ->
  committed w' = committed w /\ session_id_seq w' = session_id_seq w /\
  record_id_seq w' = record_id_seq w /\
  match r with Ok _ => txn w' = None | Err _ => True end.
Proof.
  unfold pool_connect, db_call.
  destruct (faults w) as [|[] plan]; intros [= <- <-]; done.
Qed.

Lemma sql_begin_spec w r w' :
  txn w = None ->
  sql_begin w = (r, w') ->
  committed w' = committed w /\ session_id_seq w' = session_id_seq w /\
  record_id_seq w' = record_id_seq w /\
  match r with Ok _ => txn w' = Some (committed w) | Err _ => True end.
Proof.
  intros Htxn. unfold sql_begin, db_call, working.
  destruct (faults w) as [|[] plan]; simpl; rewrite ?Htxn; intros [= <- <-]; done.
Qed.

Lemma sql_commit_spec w t r w' :
  txn w = Some t ->
  sql_commit w = (r, w') ->
  session_id_seq w' = session_id_seq w /\ record_id_seq w' = record_id_seq w /\
  match r with
  | Ok _ => committed w' = t /\ txn w' = None
  | Err _ => committed w' = committed w
  end.
Proof.
  intros Htxn. unfold sql_commit, db_call, working.
  destruct (faults w) as [|[] plan]; simpl; rewrite ?Htxn; intros [= <- <-]; done.
Qed.

Lemma sql_rollback_spec w r w' :
  sql_rollback w = (r, w') ->
  committed w' = committed w /\ session_id_seq w' = session_id_seq w /\
  record_id_seq w' = record_id_seq w.
Proof.
  unfold sql_rollback, db_call.
  destruct (faults w) as [|[] plan]; intros [= <- <-]; done.
Qed.

Lemma get_prop_total v k k' x :
  get_prop v k = Ok x -> exists y, get_prop v k' = Ok y.
Proof. destruct v; simpl; try discriminate; eauto. Qed.

Lemma get_prop_error v k e : get_prop v k = Err e -> e = TypeError.
Proof. destruct v; simpl; congruence. Qed.

Section SaveOutcome.
Context `{PgDriver}.

(** What [POST /api/attendance/save] can do to a database. *)
Inductive save_outcome (today : Z) (req : request) (w : World)
  : response save_body -> World -> Prop :=
| save_no_body :
    get_prop (body req) "sessionData" = Err TypeError ->
    save_outcome today req w (Status 500 "Failed to save attendance") w
| save_rejected sessionData attendanceRecords subject :
    get_prop (body req) "sessionData" = Ok sessionData ->
    get_prop (body req) "attendanceRecords" = Ok attendanceRecords ->
    get_prop (body req) "subject" = Ok subject ->
    to_boolean sessionData && to_boolean attendanceRecords && to_boolean subject = false ->
    save_outcome today req w
      (Status 400 "Session data, attendance records, and subject required") w
| save_failed sessionData attendanceRecords subject w' :
    get_prop (body req) "sessionData" = Ok sessionData ->
    get_prop (body req) "attendanceRecords" = Ok attendanceRecords ->
    get_prop (body req) "subject" = Ok subject ->
    to_boolean sessionData && to_boolean attendanceRecords && to_boolean subject = true ->
    committed w' = committed w ->
    session_id_seq w <= session_id_seq w' ->
    record_id_seq w <= record_id_seq w' ->
    save_outcome today req w (Status 500 "Failed to save attendance") w'
| save_committed sessionData attendanceRecords subject section sessionType
    values records rows w' :
    get_prop (body req) "sessionData" = Ok sessionData ->
    get_prop (body req) "attendanceRecords" = Ok attendanceRecords ->
    get_prop (body req) "subject" = Ok subject ->
    with_default (VStr "S33") <$> get_prop (body req) "section" = Ok section ->
    with_default (VStr "offline") <$> get_prop (body req) "sessionType" = Ok sessionType ->
    to_boolean sessionData && to_boolean attendanceRecords && to_boolean subject = true ->
    session_of today req sessionData attendanceRecords subject section sessionType
      = Ok values ->
    has_session (committed w) (session_id_seq w) = false ->
    references (has_user (committed w)) (s_teacher_id (values (session_id_seq w))) = true ->
    js_iter attendanceRecords = Ok records ->
    Forall2 (stored (committed w) (session_id_seq w)) records rows ->
    Forall (fun row => record_id_seq w <= ar_record_id row < record_id_seq w') rows ->
    committed w' =
      add_records rows (add_session (values (session_id_seq w)) (committed w)) ->
    txn w' = None ->
    session_id_seq w' = session_id_seq w + 1 ->
    record_id_seq w' = record_id_seq w + Z.of_nat (length rows) ->
    save_outcome today req w
      (Json {| message := "Attendance saved successfully";
               sessionId := session_id_seq w |}) w'.

(** The transaction, run on a connection with no transaction open. *)
Lemma save_transaction_spec today req sessionData attendanceRecords subject section
    sessionType w r w' :
  txn w = None ->
  save_transaction today req sessionData attendanceRecords subject section sessionType w
    = (r, w') ->
  match r with
  | Ok res =>
      exists values records rows,
        res = Json {| message := "Attendance saved successfully";
                      sessionId := session_id_seq w |} /\
        session_of today req sessionData attendanceRecords subject section sessionType
          = Ok values /\
        has_session (committed w) (session_id_seq w) = false /\
        references (has_user (committed w)) (s_teacher_id (values (session_id_seq w)))
          = true /\
        js_iter attendanceRecords = Ok records /\
        Forall2 (stored (committed w) (session_id_seq w)) records rows /\
        Forall (fun row => record_id_seq w <= ar_record_id row < record_id_seq w') rows /\
        committed w' =
          add_records rows (add_session (values (session_id_seq w)) (committed w)) /\
        txn w' = None /\
        session_id_seq w' = session_id_seq w + 1 /\
        record_id_seq w' = record_id_seq w + Z.of_nat (length rows)
  | Err _ =>
      committed w' = committed w /\
      session_id_seq w <= session_id_seq w' /\ record_id_seq w <= record_id_seq w'
  end.
Proof.
  intros Htxn. unfold save_transaction, session_of.
  unfold mbind at 1, M_bind.
  destruct (sql_begin w) as [[[]|e] w1] eqn:Hbegin;
    destruct (sql_begin_spec _ _ _ Htxn Hbegin) as (Hc1 & Hs1 & Hr1 & Htxn1);
    [|intros [= <- <-]; repeat split; (done || lia)].
  unfold mbind at 1 2 3 4 5, M_bind, lift.
  repeat match goal with
         | |- context [get_prop ?v ?k] =>
             destruct (get_prop v k) as [?|?]; simpl;
             [|intros [= <- <-]; repeat split; (done || lia)]
         end.
  unfold mbind at 1, M_bind.
  match goal with
  | |- context [insert_attendance_session ?a ?b ?c ?d ?e ?f ?g ?h ?i w1] =>
      destruct (insert_attendance_session a b c d e f g h i w1) as [[sid|e'] w2] eqn:Hins;
      destruct (insert_attendance_session_spec _ _ _ _ _ _ _ _ _ _ _ _ _ Htxn1 Hins)
        as (Hc2 & Hr2 & Hres)
  end; [|intros [= <- <-]; destruct Hres; repeat split; (congruence || lia)].
  destruct Hres as (values & Hvalues & -> & Hs2 & Hfresh & Hfk & Htxn2).
  unfold mbind at 1, M_bind, lift.
  destruct (js_iter attendanceRecords) as [records|e'];
    [|intros [= <- <-]; repeat split; (congruence || lia)].
  unfold mbind at 1, M_bind.
  destruct (for_of records (save_record (session_id_seq w1)) w2) as [[[]|e'] w3] eqn:Hloop;
    destruct (save_records_spec _ _ _ _ _ _ Htxn2 Hloop) as (Hc3 & Hs3 & Hres3);
    [|intros [= <- <-]; destruct Hres3 as (? & ? & ?); repeat split; (congruence || lia)].
  destruct Hres3 as (rows & Hrows & Hids & Hr3 & Htxn3).
  unfold mbind at 1, M_bind.
  destruct (sql_commit w3) as [[[]|e'] w4] eqn:Hcommit;
    destruct (sql_commit_spec _ _ _ _ Htxn3 Hcommit) as (Hs4 & Hr4 & Hres4);
    [|intros [= <- <-]; repeat split; (congruence || lia)].
  destruct Hres4 as [Hc4 Htxn4].
  intros [= <- <-]. rewrite Hs1 in Hs2, Hfresh, Hfk, Hrows, Hc4 |- *.
  exists values, records, rows.
  repeat split; try done; try lia.
  - eapply Forall_impl; [exact Hids|]. simpl. lia.
Qed.

End SaveOutcome.

Section SaveHandler.
Context `{PgDriver}.

Lemma attendance_save_outcome today req w res w' :
  attendance_save today req w = (res, w') -> save_outcome today req w res w'.
Proof.
  unfold attendance_save, or_500.
  destruct (get_prop (body req) "sessionData") as [sessionData|e] eqn:HsessionData.
  2:{ rewrite (get_prop_error _ _ _ HsessionData) in HsessionData; simpl.
      intros [= <- <-]. by apply save_no_body. }
  destruct (get_prop_total _ _ "attendanceRecords" _ HsessionData)
    as [attendanceRecords HattendanceRecords].
  destruct (get_prop_total _ _ "subject" _ HsessionData) as [subject Hsubject].
  destruct (get_prop_total _ _ "section" _ HsessionData) as [section Hsection].
  destruct (get_prop_total _ _ "sessionType" _ HsessionData)
    as [sessionType HsessionType].
  unfold lift. rewrite HattendanceRecords, Hsubject, Hsection, HsessionType.
  unfold mbind, M_bind. cbn [fmap result_fmap].
  destruct (to_boolean sessionData && to_boolean attendanceRecords && to_boolean subject)
    eqn:Htruthy.
  2: { replace (negb (to_boolean sessionData) || negb (to_boolean attendanceRecords)
                || negb (to_boolean subject)) with true
         by (destruct (to_boolean sessionData), (to_boolean attendanceRecords),
               (to_boolean subject); done).
       intros [= <- <-]. by eapply save_rejected. }
  replace (negb (to_boolean sessionData) || negb (to_boolean attendanceRecords)
           || negb (to_boolean subject)) with false
    by (destruct (to_boolean sessionData), (to_boolean attendanceRecords),
          (to_boolean subject); done).
  destruct (pool_connect w) as [[[]|e] w1] eqn:Hconnect;
    destruct (pool_connect_spec _ _ _ Hconnect) as (Hc1 & Hs1 & Hr1 & Htxn1);
    [|intros [= <- <-]; eapply save_failed; (done || lia)].
  unfold try_finally, try_catch, release.
  destruct (save_transaction today req sessionData attendanceRecords subject
              (with_default (VStr "S33") section)
              (with_default (VStr "offline") sessionType) w1) as [[res'|e] w2] eqn:Htx;
    pose proof (save_transaction_spec _ _ _ _ _ _ _ _ _ _ Htxn1 Htx) as Hspec.
  - intros [= <- <-].
    destruct Hspec as (values & records & rows & -> & Hvalues & Hfresh & Hfk & Hiter
                       & Hrows & Hids & Hc2 & Htxn2 & Hs2 & Hr2).
    rewrite Hs1. rewrite Hc1, Hs1 in *. rewrite Hr1 in *.
    eapply save_committed; try done.
    + by rewrite Hsection.
    + by rewrite HsessionType.
  - destruct Hspec as (Hc2 & Hs2 & Hr2).
    unfold throw.
    destruct (sql_rollback w2) as [[[]|e'] w3] eqn:Hrollback;
      destruct (sql_rollback_spec _ _ _ Hrollback) as (Hc3 & Hs3 & Hr3);
      intros [= <- <-];
      eapply save_failed; (done || congruence || lia).
Qed.

End SaveHandler.
Section SaveFacts.
Context `{PgDriver}.

Lemma varchar_fits n s : (String.length s <= n)%nat -> varchar n (Some s) = Ok (Some s).
Proof. intros Hn. unfold varchar. by rewrite (proj2 (Nat.leb_le _ _) Hn). Qed.

Lemma session_of_fields today req sessionData attendanceRecords subject section
    sessionType values id :
  session_of today req sessionData attendanceRecords subject section sessionType
    = Ok values ->
  s_session_id (values id) = id /\ s_session_date (values id) = today /\
  exists length,
    get_prop attendanceRecords "length" = Ok length /\
    to_integer length = Ok (s_total_students (values id)).
Proof.
  unfold session_of, session_values.
  repeat match goal with
         | |- context [mbind _ ?m] =>
             let E := fresh "E" in destruct m eqn:E; simpl; try discriminate
         end.
  intros [= <-]; simpl. repeat split. eexists; split; [reflexivity|done].
Qed.



End SaveFacts.

Lemma Forall2_In_l {A B} (P : A -> B -> Prop) l k x :
  Forall2 P l k -> In x l -> exists y, In y k /\ P x y.
Proof.
  induction 1 as [|a b l k Hab _ IH]; simpl; [done|].
  intros [<-|Hin]; [eauto|].
  destruct (IH Hin) as (y & ? & ?). eauto.
Qed.

(** ** C1: the save transaction is all or nothing *)



(** ** What the other handlers leave alone *)

Lemma pool_query_spec {A} (select : Tables -> result A) w r w' :
  pool_query select w = (r, w') ->
  committed w' = committed w /\ session_id_seq w' = session_id_seq w /\
  record_id_seq w' = record_id_seq w /\
  (r = Err ConnectionError \/ r = select (committed w)).
Proof.
  unfold pool_query, db_call.
  destruct (faults w) as [|[] plan]; intros [= <- <-]; simpl; auto.
Qed.

Lemma attendance_analytics_reads current_date w res w' :
  attendance_analytics current_date w = (res, w') ->
  committed w' = committed w /\ session_id_seq w' = session_id_seq w /\
  record_id_seq w' = record_id_seq w.
Proof.
  unfold attendance_analytics, or_500, mbind, M_bind.
  destruct (pool_query _ w) as [[?|?] w1] eqn:Hq1;
    destruct (pool_query_spec _ _ _ _ Hq1) as (? & ? & ? & _); simpl;
    [|by intros [= <- <-]].
  destruct (pool_query _ w1) as [[?|?] w2] eqn:Hq2;
    destruct (pool_query_spec _ _ _ _ Hq2) as (? & ? & ? & _); simpl;
    [|intros [= <- <-]; repeat split; congruence].
  destruct (pool_query _ w2) as [[?|?] w3] eqn:Hq3;
    destruct (pool_query_spec _ _ _ _ Hq3) as (? & ? & ? & _); simpl;
    intros [= <- <-]; repeat split; congruence.
Qed.

Section OtherHandlers.
Context `{PgDriver}.

Lemma insert_student_spec p1 p2 p3 p4 now w r w' :
  insert_student p1 p2 p3 p4 now w = (r, w') ->
  session_id_seq w' = session_id_seq w /\ record_id_seq w' = record_id_seq w /\
  (committed w' = committed w \/
   exists row, has_student (committed w) (st_student_id row) = false /\
               committed w' = add_student row (committed w)).
Proof.
  unfold insert_student, db_call.
  destruct (faults w) as [|[] plan]; simpl;
    destruct (student_values p1 p2 p3 p4 now) as [row|e]; simpl;
    try destruct (has_student (committed w) (st_student_id row)) eqn:Hnew;
    intros [= <- <-]; simpl; repeat split; eauto.
Qed.

Lemma students_enroll_spec now req w res w' :
  students_enroll now req w = (res, w') ->
  session_id_seq w' = session_id_seq w /\ record_id_seq w' = record_id_seq w /\
  (committed w' = committed w \/
   exists row, has_student (committed w) (st_student_id row) = false /\
               committed w' = add_student row (committed w)).
Proof.
  unfold students_enroll, or_500, lift, mbind, M_bind.
  repeat match goal with
         | |- context [get_prop ?v ?k] =>
             destruct (get_prop v k) as [?|?]; simpl;
             [|by intros [= <- <-]; repeat split; auto]
         end.
  match goal with
  | |- context [if ?c then _ else _] =>
      destruct c; simpl; [by intros [= <- <-]; repeat split; auto|]
  end.
  destruct (pool_query _ w) as [[existing|?] w1] eqn:Hq1;
    destruct (pool_query_spec _ _ _ _ Hq1) as (Hc1 & Hs1 & Hr1 & _); simpl;
    [|by intros [= <- <-]; repeat split; auto].
  destruct (0 <? length existing)%nat; simpl;
    [by intros [= <- <-]; repeat split; auto|].
  destruct (insert_student _ _ _ _ _ w1) as [[?|?] w2] eqn:Hq2;
    destruct (insert_student_spec _ _ _ _ _ _ _ _ Hq2) as (Hs2 & Hr2 & Hc2); simpl;
    intros [= <- <-]; rewrite Hc1, Hs1, Hr1 in *; repeat split; auto.
Qed.

End OtherHandlers.

(** ** C2: [total_students] and the records of a session *)









Section TotalStudents.
Context `{PgDriver}.

Lemma stored_session_id t id records rows :
  Forall2 (stored t id) records rows ->
  Forall (fun row => ar_session_id row = Some id) rows.
Proof.
  induction 1 as [|? ? ? ? (values & ? & ? & ? & ?)]; constructor; done.
Qed.



End TotalStudents.



(** ** When the save handler succeeds *)


Section SaveSucceeds.
Context `{PgDriver}.









End SaveSucceeds.

(** ** C9: saving twice *)

Section SaveTwice.
Context `{PgDriver}.




End SaveTwice.



(** ** C5, C6: what the validation guard looks at *)


Section Validation.
Context `{PgDriver}.


End Validation.




Section Status.
Context `{PgDriver}.

Lemma varchar_too_long n s :
  (n < String.length s)%nat ->
  spaces_only (String.substring n (String.length s - n) s) = false ->
  varchar n (Some s) = Err StringTooLong.
Proof.
  intros Hn Hspaces. unfold varchar.
  rewrite (proj2 (Nat.leb_gt _ _) Hn). by rewrite Hspaces.
Qed.


End Status.




(** ** Relational operators *)

Lemma NoDup_List_filter {A} (p : A -> bool) (l : list A) :
  NoDup l -> NoDup (List.filter p l).
Proof.
  induction 1 as [|x l Hx _ IH]; simpl; [constructor|].
  destruct (p x); [|done]. constructor; [|done].
  rewrite list_elem_of_In, filter_In. rewrite list_elem_of_In in Hx. tauto.
Qed.

Section Distinct.
Context {K : Type} (eqb : K -> K -> bool).
Hypothesis eqb_eq : forall a b, eqb a b = true <-> a = b.

Lemma In_distinct ks k : In k (distinct eqb ks) <-> In k ks.
Proof.
  induction ks as [|k0 ks IH]; simpl; [done|].
  rewrite filter_In, IH. split.
  - intros [?|[? _]]; auto.
  - intros [?|Hin]; [by left|].
    destruct (eqb k0 k) eqn:Hk; [left; by apply eqb_eq|right; by split].
Qed.

Lemma NoDup_distinct ks : NoDup (distinct eqb ks).
Proof.
  induction ks as [|k0 ks IH]; simpl; constructor.
  - rewrite list_elem_of_In, filter_In. intros [_ Hk].
    apply negb_true_iff in Hk. by rewrite (proj2 (eqb_eq k0 k0)) in Hk.
  - by apply NoDup_List_filter.
Qed.

Context {R : Type} (key : R -> K).

(** A group of [GROUP BY] is the set of rows with one key, and is not
    empty; no key has two groups. *)
Lemma In_group_by rows k group :
  In (k, group) (group_by eqb key rows) <->
  In k (map key rows) /\ group = List.filter (fun row => eqb k (key row)) rows.
Proof.
  unfold group_by. rewrite in_map_iff. split.
  - intros (k' & [= <- <-] & Hin). by rewrite In_distinct in Hin.
  - intros [Hin ->]. exists k. by rewrite In_distinct.
Qed.

Lemma group_by_keys rows : map fst (group_by eqb key rows) = distinct eqb (map key rows).
Proof. unfold group_by. rewrite map_map; simpl. apply map_id. Qed.

Lemma NoDup_group_by rows : NoDup (map fst (group_by eqb key rows)).
Proof. rewrite group_by_keys. apply NoDup_distinct. Qed.

Lemma group_by_nonempty rows k group :
  In (k, group) (group_by eqb key rows) -> group <> [].
Proof.
  rewrite In_group_by, in_map_iff. intros [(row & <- & Hin) ->] Hnil.
  assert (In row (List.filter (fun row' => eqb (key row) (key row')) rows)) as Hrow.
  { apply filter_In. split; [done|]. by apply eqb_eq. }
  by rewrite Hnil in Hrow.
Qed.

End Distinct.

Lemma filter_disjoint_or {A} (p q : A -> bool) (l : list A) :
  (forall x, In x l -> p x = true -> q x = true -> False) ->
  List.filter (fun x => p x || q x) l ≡ₚ List.filter p l ++ List.filter q l.
Proof.
  induction l as [|x l IH]; intros Hdisjoint; simpl; [done|].
  assert (List.filter (fun x => p x || q x) l ≡ₚ List.filter p l ++ List.filter q l) as IH'.
  { apply IH. intros y Hy. apply Hdisjoint. by right. }
  destruct (p x) eqn:Hp, (q x) eqn:Hq; simpl.
  - exfalso. apply (Hdisjoint x); [by left|done|done].
  - by rewrite IH'.
  - rewrite IH'. apply Permutation_middle.
  - done.
Qed.

Lemma filter_ext_in_list {A} (p q : A -> bool) (l : list A) :
  (forall x, In x l -> p x = q x) -> List.filter p l = List.filter q l.
Proof.
  induction l as [|x l IH]; intros Hpq; simpl; [done|].
  rewrite (Hpq x) by (by left). rewrite IH; [done|].
  intros y Hy. apply Hpq. by right.
Qed.

Lemma filter_none {A} (p : A -> bool) (l : list A) :
  (forall x, In x l -> p x = false) -> List.filter p l = [].
Proof.
  induction l as [|x l IH]; intros Hp; simpl; [done|].
  rewrite (Hp x) by (by left). apply IH. intros y Hy. apply Hp. by right.
Qed.

Lemma filter_filter_and {A} (p q : A -> bool) (l : list A) :
  List.filter p (List.filter q l) = List.filter (fun x => q x && p x) l.
Proof.
  induction l as [|x l IH]; simpl; [done|].
  destruct (q x); simpl; [destruct (p x)|]; by rewrite IH.
Qed.

Lemma filter_flat_map {A B} (p : B -> bool) (f : A -> list B) (l : list A) :
  List.filter p (flat_map f l) = flat_map (fun a => List.filter p (f a)) l.
Proof.
  induction l as [|a l IH]; simpl; [done|]. by rewrite List.filter_app, IH.
Qed.

Lemma filter_map_comm {A B} (p : B -> bool) (f : A -> B) (l : list A) :
  List.filter p (map f l) = map f (List.filter (fun a => p (f a)) l).
Proof.
  induction l as [|a l IH]; simpl; [done|]. destruct (p (f a)); simpl; by rewrite IH.
Qed.

(** Aggregates do not depend on the order of the rows. *)
Lemma count_star_perm {R} (g g' : list R) : g ≡ₚ g' -> count_star g = count_star g'.
Proof. intros Hperm. unfold count_star. by rewrite Hperm. Qed.

Lemma filter_perm {A} (p : A -> bool) (l l' : list A) :
  l ≡ₚ l' -> List.filter p l ≡ₚ List.filter p l'.
Proof.
  induction 1 as [|x l l' _ IH|x y l|l l' l'' _ IH1 _ IH2]; simpl.
  - done.
  - destruct (p x); by rewrite IH.
  - destruct (p x), (p y); try done. apply perm_swap.
  - by rewrite IH1.
Qed.

Lemma count_perm {R A} (expr : R -> option A) (g g' : list R) :
  g ≡ₚ g' -> count expr g = count expr g'.
Proof. intros Hperm. unfold count. by rewrite (filter_perm _ _ _ Hperm). Qed.

Lemma sum_perm {R} (expr : R -> option Z) (g g' : list R) :
  g ≡ₚ g' -> sum expr g = sum expr g'.
Proof.
  unfold sum. induction 1 as [|x l l' _ IH|x y l|l l' l'' _ IH1 _ IH2]; simpl; lia.
Qed.

Lemma avg_perm {R} scale (expr : R -> option Z) (g g' : list R) :
  g ≡ₚ g' -> avg scale expr g = avg scale expr g'.
Proof.
  intros Hperm. unfold avg.
  by rewrite (count_perm _ _ _ Hperm), (sum_perm _ _ _ Hperm).
Qed.

Lemma count_map {R R' A} (f : R -> R') (expr : R' -> option A) (g : list R) :
  count expr (map f g) = count (fun row => expr (f row)) g.
Proof.
  unfold count. rewrite filter_map_comm. by rewrite length_map.
Qed.

Lemma sum_map {R R'} (f : R -> R') (expr : R' -> option Z) (g : list R) :
  sum expr (map f g) = sum (fun row => expr (f row)) g.
Proof. unfold sum. induction g as [|row g IH]; simpl; [done|]. by rewrite IH. Qed.

Lemma avg_map {R R'} scale (f : R -> R') (expr : R' -> option Z) (g : list R) :
  avg scale expr (map f g) = avg scale (fun row => expr (f row)) g.
Proof. unfold avg. by rewrite count_map, sum_map. Qed.

Lemma count_star_map {R R'} (f : R -> R') (g : list R) :
  count_star (map f g) = count_star g.
Proof. unfold count_star. by rewrite length_map. Qed.

Lemma count_ext {R A B} (e : R -> option A) (e' : R -> option B) (g : list R) :
  (forall row, is_Some (e row) <-> is_Some (e' row)) -> count e g = count e' g.
Proof.
  intros He. unfold count. f_equal. f_equal. apply filter_ext_in_list.
  intros row _. apply bool_decide_ext, He.
Qed.

Lemma sum_ext {R} (e e' : R -> option Z) (g : list R) :
  (forall row, e row = e' row) -> sum e g = sum e' g.
Proof. intros He. unfold sum. induction g; simpl; [done|]. by rewrite He, IHg. Qed.

(** ** Joins on a primary key *)

Lemma holds_session_eq s ar :
  holds (sql_eq (Some (s_session_id s)) (ar_session_id ar)) = belongs_to ar s.
Proof.
  unfold belongs_to. destruct (ar_session_id ar) as [id|]; simpl.
  - do 2 case_bool_decide; congruence.
  - done.
Qed.

Lemma existsb_false_forall {A} (p : A -> bool) (l : list A) x :
  existsb p l = false -> In x l -> p x = false.
Proof.
  intros Hnone Hin. destruct (p x) eqn:Hp; [|done].
  rewrite <- Hnone. symmetry. apply existsb_exists. eauto.
Qed.

(** With unique session ids a record belongs to one session at most, so
    going through the sessions and collecting their records visits every
    record of a selected session once. *)
Lemma records_by_session (ok : session_row -> bool) (records : list record_row) :
  forall sessions,
    unique_session_ids sessions = true ->
    flat_map (fun s => if ok s then List.filter (fun ar => belongs_to ar s) records else [])
      sessions
    ≡ₚ List.filter (fun ar => existsb (fun s => belongs_to ar s && ok s) sessions) records.
Proof.
  induction sessions as [|s sessions IH]; simpl; intros Hunique.
  - by rewrite filter_none.
  - apply andb_prop in Hunique as [Hs Hunique]. apply negb_true_iff in Hs.
    rewrite filter_disjoint_or.
    + rewrite (IH Hunique). apply Permutation_app; [|done].
      destruct (ok s) eqn:Hok.
      * by rewrite (filter_ext_in_list (fun ar => belongs_to ar s && true)
                      (fun ar => belongs_to ar s)) by (intros; apply andb_true_r).
      * by rewrite filter_none by (intros; apply andb_false_r).
    + intros ar _ Hhere Hthere.
      apply andb_prop in Hhere as [Hhere _].
      apply existsb_exists in Hthere as (s' & Hin & Hs').
      apply andb_prop in Hs' as [Hs' _].
      unfold belongs_to in *. apply bool_decide_eq_true in Hhere, Hs'.
      rewrite Hhere in Hs'. injection Hs' as Hid.
      pose proof (existsb_false_forall _ _ s' Hs Hin) as Hne. simpl in Hne.
      apply Z.eqb_neq in Hne. congruence.
Qed.

Lemma filter_join_left {A B} (p : A * B -> bool) (pa : A -> bool) (f : A -> list B)
    (l : list A) :
  (forall a b, p (a, b) = pa a) ->
  map snd (List.filter p (flat_map (fun a => map (fun b => (a, b)) (f a)) l))
  = flat_map (fun a => if pa a then f a else []) l.
Proof.
  intros Hp. induction l as [|a l IH]; simpl; [done|].
  rewrite List.filter_app, map_app, IH. f_equal.
  rewrite filter_map_comm.
  destruct (pa a) eqn:Hpa.
  - rewrite (filter_ext_in_list _ (fun _ => true)) by (intros b _; by rewrite Hp).
    rewrite map_map; simpl. rewrite map_id.
    clear. induction (f a); simpl; congruence.
  - rewrite filter_none by (intros b _; by rewrite Hp). done.
Qed.

Lemma count_snd {A R B} (e : R -> option B) (g : list (A * R)) :
  count (fun '(_, row) => e row) g = count e (map snd g).
Proof.
  rewrite count_map. unfold count. f_equal. f_equal.
  apply filter_ext_in_list. by intros [a row] _.
Qed.

Lemma sum_snd {A R} (e : R -> option Z) (g : list (A * R)) :
  sum (fun '(_, row) => e row) g = sum e (map snd g).
Proof.
  rewrite sum_map. unfold sum. induction g as [|[a row] g IH]; simpl; [done|].
  by rewrite IH.
Qed.

Lemma avg_snd {A R} scale (e : R -> option Z) (g : list (A * R)) :
  avg scale e (map snd g) = avg scale (fun '(_, row) => e row) g.
Proof. unfold avg. by rewrite count_snd, sum_snd. Qed.

(** The aggregates of the queries, on plain lists of records. *)
Lemma count_present rs : count (fun ar => present_or_null (Some ar)) rs = present_count rs.
Proof.
  unfold count, present_count. f_equal. f_equal. apply filter_ext_in_list.
  intros ar _. unfold present_or_null, status_is_present, is_present; simpl.
  destruct (ar_status ar) as [status|]; simpl.
  - destruct (decide (status = "present"%string)) as [->|Hne]; [done|].
    rewrite (bool_decide_eq_false_2 (status = _)) by done; simpl.
    by rewrite (bool_decide_eq_false_2 (Some status = _)) by congruence.
  - done.
Qed.

Lemma count_scores rs : count ar_confidence_score rs = Z.of_nat (length (scores rs)).
Proof.
  unfold count, scores. f_equal.
  induction rs as [|ar rs IH]; simpl; [done|].
  destruct (ar_confidence_score ar); simpl; by rewrite IH.
Qed.

Lemma sum_scores rs : sum ar_confidence_score rs = foldr Z.add 0 (scores rs).
Proof.
  unfold sum, scores. induction rs as [|ar rs IH]; simpl; [done|].
  destruct (ar_confidence_score ar); simpl; by rewrite IH.
Qed.

Lemma avg_scores rs : avg 1000 ar_confidence_score rs = mean_confidence rs.
Proof.
  unfold avg, mean_confidence. rewrite count_scores, sum_scores.
  destruct (scores rs) as [|z zs] eqn:Hscores; simpl length; [done|].
  rewrite (proj2 (Z.eqb_neq _ _)) by lia.
  do 3 f_equal. rewrite Nat2Z.inj_succ, <- Zpos_P_of_succ_nat. simpl.
  by rewrite Pos.of_nat_succ.
Qed.

(** ** C7: engagement *)

Lemma string_eqb_eq (a b : string) : String.eqb a b = true <-> a = b.
Proof. apply String.eqb_eq. Qed.

(** The group of a section holds the section's records of the last 7
    days, each once. *)
Lemma engagement_group current_date t section :
  unique_session_ids (attendance_sessions t) = true ->
  map snd (List.filter (fun row => String.eqb section ((fun '(s, _) => s_section s) row))
             (engagement_from current_date t))
  ≡ₚ section_records current_date t section.
Proof.
  intros Hunique. unfold engagement_from, where_, inner_join, section_records.
  rewrite filter_filter_and.
  rewrite (filter_join_left _
             (fun s => in_last_days 7 current_date s && String.eqb section (s_section s)))
    by (intros s _; unfold in_last_days; simpl; by destruct (_ <=? _)).
  rewrite (flat_map_ext _
             (fun s => if in_last_days 7 current_date s && String.eqb section (s_section s)
                       then List.filter (fun ar => belongs_to ar s) (attendance_records t)
                       else [])).
  2: { intros s. destruct (_ && _); [|done].
       apply filter_ext_in_list. intros ar _. apply holds_session_eq. }
  rewrite records_by_session by done.
  assert (forall l ar,
             existsb (fun s => belongs_to ar s
                               && (in_last_days 7 current_date s
                                   && String.eqb section (s_section s))) l
             = existsb (fun s => belongs_to ar s && String.eqb (s_section s) section
                                 && in_last_days 7 current_date s) l) as Hext.
  { intros l ar. induction l as [|s l IH]; simpl; [done|].
    rewrite IH. f_equal. rewrite (String.eqb_sym section).
    by destruct (belongs_to ar s), (in_last_days 7 current_date s),
         (s_section s =? section)%string. }
  by rewrite (filter_ext_in_list _ _ _ (fun ar _ => Hext _ ar)).
Qed.

Lemma engagement_sections current_date t section :
  unique_session_ids (attendance_sessions t) = true ->
  In section (map (fun '(s, _) => s_section s) (engagement_from current_date t)) <->
  section_records current_date t section <> [].
Proof.
  intros Hunique. pose proof (engagement_group current_date t section Hunique) as Hperm.
  split.
  - intros Hin Hnil.
    apply in_map_iff in Hin as (row & Hkey & Hin).
    assert (In (snd row)
              (map snd (List.filter
                          (fun row => String.eqb section ((fun '(s, _) => s_section s) row))
                          (engagement_from current_date t)))) as Hrow.
    { apply in_map, filter_In. split; [done|]. rewrite Hkey. apply String.eqb_refl. }
    apply (Permutation_in _ Hperm) in Hrow. by rewrite Hnil in Hrow.
  - intros Hsome.
    destruct (List.filter (fun row => String.eqb section ((fun '(s, _) => s_section s) row))
                (engagement_from current_date t)) as [|row rows] eqn:Hgroup.
    + simpl in Hperm. by apply Permutation_nil in Hperm.
    + assert (In row (row :: rows)) as Hin by (by left).
      rewrite <- Hgroup in Hin. apply filter_In in Hin as [Hin Hkey].
      apply in_map_iff. exists row. split; [|done].
      symmetry. by apply String.eqb_eq.
Qed.

(** C7.  With unique session ids, the engagement query returns one row
    per section that has records in sessions of the last 7 days, and in it
    [total_count] is the number of those records, [present_count] the
    number of them with status 'present', and [avg_engagement] the mean of
    their confidence scores ([NULL] scores left out, as [AVG] does). *)
Theorem engagement_by_section current_date t :
  unique_session_ids (attendance_sessions t) = true ->
  NoDup (map e_section (engagement_query current_date t)) /\
  (forall section,
      section_records current_date t section <> [] <->
      exists row, In row (engagement_query current_date t) /\ e_section row = section) /\
  (forall row,
      In row (engagement_query current_date t) ->
      e_avg_engagement row
        = mean_confidence (section_records current_date t (e_section row)) /\
      e_present_count row = present_count (section_records current_date t (e_section row)) /\
      e_total_count row = total_count (section_records current_date t (e_section row))).
Proof.
  intros Hunique. unfold engagement_query. repeat split.
  - rewrite map_map.
    rewrite (map_ext _ fst) by (by intros [section group]).
    apply NoDup_group_by, string_eqb_eq.
  - intros Hsome. apply (engagement_sections _ _ _ Hunique) in Hsome.
    eexists. split.
    + apply in_map_iff. eexists (section, _). split; [reflexivity|].
      apply (In_group_by _ string_eqb_eq). by split.
    + done.
  - intros (row & Hin & <-).
    apply in_map_iff in Hin as ([section group] & <- & Hin). simpl.
    apply (In_group_by _ string_eqb_eq) in Hin as [Hin _].
    by apply (engagement_sections _ _ _ Hunique).
  - apply in_map_iff in H as ([section group] & <- & Hin). simpl.
    apply (In_group_by _ string_eqb_eq) in Hin as [_ ->].
    rewrite <- avg_snd, (avg_perm _ _ _ _ (engagement_group _ _ _ Hunique)).
    apply avg_scores.
  - apply in_map_iff in H as ([section group] & <- & Hin). simpl.
    apply (In_group_by _ string_eqb_eq) in Hin as [_ ->].
    rewrite (count_snd (fun ar => present_or_null (Some ar))).
    rewrite (count_perm _ _ _ (engagement_group _ _ _ Hunique)).
    apply count_present.
  - apply in_map_iff in H as ([section group] & <- & Hin). simpl.
    apply (In_group_by _ string_eqb_eq) in Hin as [_ ->].
    rewrite <- (count_star_map snd).
    by rewrite (count_star_perm _ _ (engagement_group _ _ _ Hunique)).
Qed.

(** The seed database is the scenario of five records, three present, one
    partial and one absent, in one session of section S33 held today. *)
Lemma engagement_by_section_witness :
  exists row,
    In row (engagement_query Sample.today Sample.seed) /\
    e_section row = "S33"%string /\
    e_present_count row = 3 /\ e_total_count row = 5 /\
    e_avg_engagement row = Some (3200 # 5000).
Proof.
  destruct (engagement_by_section Sample.today Sample.seed eq_refl)
    as (_ & Hsections & Hrows).
  destruct (proj1 (Hsections "S33"%string)) as (row & Hin & Hsection); [done|].
  exists row. destruct (Hrows row Hin) as (Havg & Hpresent & Htotal).
  rewrite Hsection in Havg, Hpresent, Htotal.
  repeat split; done.
Defined.

(** ** C4: students at risk *)

Lemma flat_map_flat_map {A B C} (f : A -> list B) (g : B -> list C) (l : list A) :
  flat_map g (flat_map f l) = flat_map (fun a => flat_map g (f a)) l.
Proof. induction l as [|a l IH]; simpl; [done|]. by rewrite flat_map_app, IH. Qed.

Lemma flat_map_map {A B C} (f : A -> B) (g : B -> list C) (l : list A) :
  flat_map g (map f l) = flat_map (fun a => g (f a)) l.
Proof. induction l as [|a l IH]; simpl; [done|]. by rewrite IH. Qed.

Lemma flat_map_nil {A B} (f : A -> list B) (l : list A) :
  (forall a, In a l -> f a = []) -> flat_map f l = [].
Proof.
  induction l as [|a l IH]; simpl; intros Hf; [done|].
  rewrite Hf by (by left). apply IH. intros b Hb. apply Hf. by right.
Qed.

Lemma holds_student_eq st ar :
  holds (sql_eq (Some (st_student_id st)) (ar_student_id ar))
  = bool_decide (ar_student_id ar = Some (st_student_id st)).
Proof.
  destruct (ar_student_id ar) as [id|]; simpl; [|done].
  do 2 case_bool_decide; congruence.
Qed.

Lemma holds_record_session_eq (ar : record_row) s :
  holds (sql_eq (Some ar ≫= ar_session_id) (Some (s_session_id s))) = belongs_to ar s.
Proof.
  unfold belongs_to. simpl. destruct (ar_session_id ar) as [id|]; simpl; [|done].
  do 2 case_bool_decide; congruence.
Qed.

(** With unique session ids, a record has one session at most. *)
Lemma one_session_at_most (p : session_row -> bool) (ar : record_row) :
  forall sessions,
    unique_session_ids sessions = true ->
    length (List.filter (fun s => belongs_to ar s && p s) sessions)
    = if existsb (fun s => belongs_to ar s && p s) sessions then 1%nat else 0%nat.
Proof.
  induction sessions as [|s sessions IH]; simpl; intros Hunique; [done|].
  apply andb_prop in Hunique as [Hs Hunique]. apply negb_true_iff in Hs.
  destruct (belongs_to ar s && p s) eqn:Hhere; simpl; [|by apply IH].
  rewrite filter_none; [done|].
  intros s' Hin. apply andb_false_iff. left.
  apply andb_prop in Hhere as [Hhere _].
  unfold belongs_to in *. apply bool_decide_eq_true in Hhere.
  apply bool_decide_eq_false. rewrite Hhere. intros [= Hid].
  pose proof (existsb_false_forall _ _ s' Hs Hin) as Hne. simpl in Hne.
  apply Z.eqb_neq in Hne. congruence.
Qed.

(** The rows the risk query keeps for one student. *)
Definition risk_rows (current_date : Z) (t : Tables) (st : student_row)
  : list (student_row * option record_row * option session_row) :=
  flat_map
    (fun ar =>
       map (fun s => (st, Some ar, Some s))
         (List.filter (fun s => belongs_to ar s && in_last_days 30 current_date s)
            (attendance_sessions t)))
    (List.filter (fun ar => bool_decide (ar_student_id ar = Some (st_student_id st)))
       (attendance_records t)).

Lemma risk_from_rows current_date t :
  risk_from current_date t = flat_map (risk_rows current_date t) (students t).
Proof.
  unfold risk_from, where_, left_join.
  rewrite flat_map_flat_map, filter_flat_map. apply flat_map_ext. intros st.
  unfold risk_rows.
  rewrite (filter_ext_in_list _ (fun ar => bool_decide (ar_student_id ar
                                                         = Some (st_student_id st))))
    by (intros; apply holds_student_eq).
  destruct (List.filter _ (attendance_records t)) as [|ar0 ars] eqn:Hmine.
  { simpl. rewrite app_nil_r.
    rewrite (filter_none (fun _ => false)) by done. done. }
  rewrite flat_map_map, filter_flat_map. apply flat_map_ext. intros ar.
  rewrite (filter_ext_in_list _ (fun s => belongs_to ar s))
    by (intros; apply holds_record_session_eq).
  rewrite <- filter_filter_and.
  destruct (List.filter (fun s => belongs_to ar s) (attendance_sessions t)) as [|s0 ss];
    [done|].
  rewrite filter_map_comm. f_equal.
  apply filter_ext_in_list. intros s _. unfold in_last_days. simpl.
  by destruct (_ <=? _).
Qed.

Lemma risk_rows_student current_date t st row :
  In row (risk_rows current_date t st) -> fst (fst row) = st.
Proof.
  unfold risk_rows. rewrite in_flat_map. intros (ar & _ & Hin).
  apply in_map_iff in Hin as (s & <- & _). done.
Qed.

Lemma risk_rows_records current_date t st :
  unique_session_ids (attendance_sessions t) = true ->
  map (fun row => snd (fst row)) (risk_rows current_date t st)
  = map Some (student_records current_date t st).
Proof.
  intros Hunique. unfold risk_rows, student_records.
  rewrite <- filter_filter_and.
  induction (List.filter _ (attendance_records t)) as [|ar ars IH]; simpl; [done|].
  rewrite map_app, IH, map_map; simpl.
  pose proof (one_session_at_most (in_last_days 30 current_date) ar _ Hunique) as Hone.
  destruct (existsb _ (attendance_sessions t)); simpl;
    destruct (List.filter _ (attendance_sessions t)) as [|s [|s' ss]]; simpl in *;
    try discriminate; done.
Qed.

Definition student_key (st : student_row) : string * string :=
  (st_student_id st, st_full_name st).

Lemma pair_eqb_eq a b : pair_eqb a b = true <-> a = b.
Proof.
  destruct a as [a1 a2], b as [b1 b2]. unfold pair_eqb; simpl.
  rewrite andb_true_iff, !String.eqb_eq. split; [by intros [-> ->]|by intros [= -> ->]].
Qed.

Lemma unique_student_ids_inj sts st st' :
  unique_student_ids sts = true -> In st sts -> In st' sts ->
  st_student_id st = st_student_id st' -> st = st'.
Proof.
  induction sts as [|st0 sts IH]; simpl; [done|]. intros Hunique Hst Hst' Hid.
  apply andb_prop in Hunique as [Hnew Hunique]. apply negb_true_iff in Hnew.
  destruct Hst as [->|Hst], Hst' as [->|Hst']; auto.
  - pose proof (existsb_false_forall _ _ st' Hnew Hst') as Hne. simpl in Hne.
    apply String.eqb_neq in Hne. congruence.
  - pose proof (existsb_false_forall _ _ st Hnew Hst) as Hne. simpl in Hne.
    apply String.eqb_neq in Hne. congruence.
Qed.

Lemma flat_map_ext_In {A B} (f g : A -> list B) (l : list A) :
  (forall a, In a l -> f a = g a) -> flat_map f l = flat_map g l.
Proof.
  induction l as [|a l IH]; simpl; intros Hfg; [done|].
  rewrite Hfg by (by left). rewrite IH; [done|]. intros b Hb. apply Hfg. by right.
Qed.

Lemma filter_all {A} (p : A -> bool) (l : list A) :
  (forall x, In x l -> p x = true) -> List.filter p l = l.
Proof.
  induction l as [|x l IH]; simpl; intros Hp; [done|].
  rewrite Hp by (by left). rewrite IH; [done|]. intros y Hy. apply Hp. by right.
Qed.

(** In a table with unique student ids, selecting by id selects one row. *)
Lemma one_student {X} (f : student_row -> list X) : forall sts st,
  unique_student_ids sts = true -> In st sts ->
  flat_map (fun st' => if String.eqb (st_student_id st) (st_student_id st')
                       then f st' else []) sts
  = f st.
Proof.
  induction sts as [|st0 sts IH]; simpl; intros st Hunique Hst; [done|].
  apply andb_prop in Hunique as [Hnew Hunique]. apply negb_true_iff in Hnew.
  destruct Hst as [->|Hst].
  - rewrite String.eqb_refl, flat_map_nil; [by rewrite app_nil_r|].
    intros st' Hst'. pose proof (existsb_false_forall _ _ st' Hnew Hst') as Hne.
    simpl in Hne. by rewrite String.eqb_sym, Hne.
  - pose proof (existsb_false_forall _ _ st Hnew Hst) as Hne. simpl in Hne.
    rewrite Hne. simpl. by apply IH.
Qed.

(** With unique student ids, the group of a student's key is the rows of
    that student. *)
Lemma risk_group_rows current_date t st :
  unique_student_ids (students t) = true -> In st (students t) ->
  List.filter
    (fun row => pair_eqb (student_key st)
                  ((fun '(st', _, _) => (st_student_id st', st_full_name st')) row))
    (risk_from current_date t)
  = risk_rows current_date t st.
Proof.
  intros Hunique Hst. rewrite risk_from_rows, filter_flat_map.
  rewrite <- (one_student (risk_rows current_date t) (students t) st Hunique Hst).
  apply flat_map_ext_In. intros st' Hst'.
  destruct (String.eqb (st_student_id st) (st_student_id st')) eqn:Hid.
  - apply String.eqb_eq in Hid.
    rewrite <- (unique_student_ids_inj _ _ _ Hunique Hst Hst' Hid).
    apply filter_all. intros [[st0 ar] s] Hin.
    apply risk_rows_student in Hin. simpl in Hin. subst. by apply pair_eqb_eq.
  - apply filter_none. intros [[st0 ar] s] Hin.
    apply risk_rows_student in Hin. simpl in Hin. subst.
    unfold pair_eqb, student_key; simpl. by rewrite Hid.
Qed.

(** The aggregates of a student's group. *)
Lemma risk_rows_total current_date t st :
  unique_session_ids (attendance_sessions t) = true ->
  count_star (risk_rows current_date t st)
  = total_count (student_records current_date t st).
Proof.
  intros Hunique. unfold count_star, total_count.
  rewrite <- (length_map (fun row => snd (fst row))), risk_rows_records by done.
  by rewrite length_map.
Qed.

Lemma risk_rows_present current_date t st :
  unique_session_ids (attendance_sessions t) = true ->
  count (fun '(_, ar, _) => present_or_null ar) (risk_rows current_date t st)
  = present_count (student_records current_date t st).
Proof.
  intros Hunique. rewrite <- count_present.
  rewrite <- (count_map Some present_or_null).
  rewrite <- risk_rows_records by done. rewrite count_map.
  unfold count. f_equal. f_equal. apply filter_ext_in_list. by intros [[st' ar] s] _.
Qed.

Lemma risk_rows_nonempty current_date t st :
  unique_session_ids (attendance_sessions t) = true ->
  risk_rows current_date t st <> [] <-> student_records current_date t st <> [].
Proof.
  intros Hunique. pose proof (risk_rows_records current_date t st Hunique) as Hmap.
  split; intros Hsome Hnil; rewrite Hnil in Hmap; simpl in Hmap.
  - by destruct (risk_rows current_date t st).
  - by destruct (student_records current_date t st).
Qed.

(** The keys of the groups are the keys of the students with rows. *)
Lemma risk_keys current_date t k :
  In k (map (fun '(st, _, _) => (st_student_id st, st_full_name st))
          (risk_from current_date t)) <->
  exists st, In st (students t) /\ student_key st = k /\ risk_rows current_date t st <> [].
Proof.
  rewrite risk_from_rows, in_map_iff. split.
  - intros ([[st ar] s] & <- & Hin). apply in_flat_map in Hin as (st' & Hst' & Hin).
    pose proof (risk_rows_student _ _ _ _ Hin) as Hst. simpl in Hst. subst.
    exists st'. repeat split; [done|]. intros Hnil. by rewrite Hnil in Hin.
  - intros (st & Hst & <- & Hsome).
    destruct (risk_rows current_date t st) as [|row rows] eqn:Hrows; [done|].
    exists row. split.
    + assert (In row (risk_rows current_date t st)) as Hin by (rewrite Hrows; by left).
      apply risk_rows_student in Hin. destruct row as [[st' ar] s]. simpl in Hin. by subst.
    + apply in_flat_map. exists st. split; [done|]. rewrite Hrows. by left.
Qed.

Lemma traverse_ok {A B} (f : A -> result B) (g : A -> B) (l : list A) :
  (forall a, In a l -> f a = Ok (g a)) -> traverse f l = Ok (map g l).
Proof.
  induction l as [|a l IH]; simpl; intros Hf; [done|].
  rewrite Hf by (by left). simpl. rewrite IH; [done|]. intros b Hb. apply Hf. by right.
Qed.

Lemma Qlt_bool_iff x y : Qlt_bool x y = true <-> (x < y)%Q.
Proof.
  unfold Qlt_bool. rewrite negb_true_iff, <- not_true_iff_false, Qle_bool_iff.
  split; [apply Qnot_le_lt|apply Qlt_not_le].
Qed.

#[export] Instance asc_Q_total {R} (key : R -> Q) : Total (asc_Q key).
Proof. intros a b. unfold asc_Q, Qle. lia. Qed.

(** What the risk query makes of a student with records in the window:
    the division is defined, and the row is kept below 75. *)
Lemma risk_group_student current_date t st :
  unique_session_ids (attendance_sessions t) = true ->
  student_records current_date t st <> [] ->
  risk_group (student_key st, risk_rows current_date t st)
  = Ok (if Qlt_bool (percentage (student_records current_date t st)) 75
        then [at_risk st (student_records current_date t st)] else []).
Proof.
  intros Hunique Hsome. unfold risk_group, student_key, attendance_percentage.
  rewrite risk_rows_total, risk_rows_present by done.
  unfold numeric_div.
  destruct (total_count (student_records current_date t st) =? 0) eqn:Hzero.
  { apply Z.eqb_eq in Hzero. unfold total_count in Hzero.
    destruct (student_records current_date t st); [done|simpl in Hzero; lia]. }
  simpl. fold (percentage (student_records current_date t st)).
  by destruct (Qlt_bool _ 75).
Qed.

(** C4.  With unique student ids and unique session ids, the risk query
    never fails (no group is empty, so the division is defined) and
    returns, in ascending order of [attendance_percentage] and with no
    student twice, exactly one row for each student who has at least one
    record in a session of the last 30 days and whose
    [100 * present / total] over those records is strictly below 75. *)
Theorem risk_students_below_75 current_date t :
  unique_student_ids (students t) = true ->
  unique_session_ids (attendance_sessions t) = true ->
  exists rows,
    risk_students_query current_date t = Ok rows /\
    Sorted (asc_Q r_attendance_percentage) rows /\
    NoDup (map r_student_id rows) /\
    forall row,
      In row rows <->
      exists st,
        In st (students t) /\
        student_records current_date t st <> [] /\
        (percentage (student_records current_date t st) < 75)%Q /\
        row = at_risk st (student_records current_date t st).
Proof.
  intros Hstudents Hsessions. unfold risk_students_query.
  set (groups := group_by pair_eqb _ (risk_from current_date t)).
  assert (forall k group,
             In (k, group) groups <->
             exists st, In st (students t) /\ student_records current_date t st <> [] /\
                        k = student_key st /\ group = risk_rows current_date t st)
    as Hgroups.
  { intros k group. unfold groups. rewrite (In_group_by _ pair_eqb_eq), risk_keys. split.
    - intros [(st & Hst & <- & Hsome) ->]. exists st. repeat split; try done.
      + by apply risk_rows_nonempty.
      + by apply risk_group_rows.
    - intros (st & Hst & Hsome & -> & ->). split.
      + exists st. repeat split; try done. by apply risk_rows_nonempty.
      + symmetry. by apply risk_group_rows. }
  set (select := fun g : (string * string) * list (student_row * option record_row
                                                   * option session_row) =>
                   match risk_group g with Ok rows => rows | Err _ => [] end).
  rewrite (traverse_ok _ select).
  2: { intros [k group] Hin. apply Hgroups in Hin as (st & _ & Hsome & -> & ->).
       unfold select. by rewrite risk_group_student. }
  simpl. eexists. split; [reflexivity|].
  assert (forall row,
             In row (concat (map select groups)) <->
             exists st,
               In st (students t) /\
               student_records current_date t st <> [] /\
               (percentage (student_records current_date t st) < 75)%Q /\
               row = at_risk st (student_records current_date t st)) as Hrows.
  { intros row. rewrite in_concat. split.
    - intros (rows & Hrows & Hrow).
      apply in_map_iff in Hrows as ([k group] & <- & Hin).
      apply Hgroups in Hin as (st & Hst & Hsome & -> & ->).
      unfold select in Hrow. rewrite risk_group_student in Hrow by done.
      destruct (Qlt_bool _ 75) eqn:Hlt; [|done].
      destruct Hrow as [<-|[]]. exists st. repeat split; try done.
      by apply Qlt_bool_iff.
    - intros (st & Hst & Hsome & Hlt & ->).
      exists [at_risk st (student_records current_date t st)]. split; [|by left].
      apply in_map_iff.
      exists (student_key st, risk_rows current_date t st). split.
      + unfold select. rewrite risk_group_student by done.
        by rewrite (proj2 (Qlt_bool_iff _ _) Hlt).
      + apply Hgroups. exists st. by repeat split. }
  split; [apply Sorted_merge_sort, _|]. split.
  - unfold order_by_Q. rewrite merge_sort_Permutation.
    assert (NoDup (map fst groups)) as Hkeys by apply NoDup_group_by, pair_eqb_eq.
    assert (forall k k', In k (map fst groups) -> In k' (map fst groups) ->
                         fst k = fst k' -> k = k') as Hinj.
    { intros k k' Hk Hk' Hid.
      apply in_map_iff in Hk as ([? group] & <- & Hin).
      apply in_map_iff in Hk' as ([? group'] & <- & Hin').
      apply Hgroups in Hin as (st & Hst & _ & -> & _).
      apply Hgroups in Hin' as (st' & Hst' & _ & -> & _). simpl in *.
      by rewrite (unique_student_ids_inj _ _ _ Hstudents Hst Hst' Hid). }
    assert (forall g, In g groups ->
                      map r_student_id (select g) = [] \/
                      map r_student_id (select g) = [fst (fst g)]) as Hselect.
    { intros [k group] Hin. apply Hgroups in Hin as (st & _ & Hsome & -> & ->).
      unfold select. rewrite risk_group_student by done.
      destruct (Qlt_bool _ 75); auto. }
    clearbody groups select. clear Hgroups Hrows.
    induction groups as [|g groups IH]; simpl; [constructor|].
    rewrite map_app. simpl in Hkeys. apply NoDup_cons in Hkeys as [Hnew Hkeys].
    assert (NoDup (map r_student_id (concat (map select groups)))) as Hrest.
    { apply IH; [done| |].
      - intros k k' Hk Hk'. apply Hinj; by right.
      - intros g' Hg'. apply Hselect. by right. }
    destruct (Hselect g) as [->| ->]; [by left|done|]. simpl. constructor; [|done].
    intros Hdup. apply Hnew. apply list_elem_of_In.
    apply list_elem_of_In, in_map_iff in Hdup as (row & Hid & Hrow).
    apply in_concat in Hrow as (rows & Hrows & Hrow).
    apply in_map_iff in Hrows as (g' & <- & Hg').
    assert (fst g = fst g') as ->; [|by apply in_map].
    apply Hinj; [by left|right; by apply in_map|].
    destruct (Hselect g') as [Hnone|Hone]; [by right| |].
    + apply (in_map r_student_id) in Hrow. by rewrite Hnone in Hrow.
    + apply (in_map r_student_id) in Hrow. rewrite Hone in Hrow.
      destruct Hrow as [Hsame|[]]. congruence.
  - intros row. rewrite <- Hrows. unfold order_by_Q.
    rewrite <- !list_elem_of_In. by rewrite merge_sort_Permutation.
Qed.

(** On the database of edge cases the theorem applies. *)
Lemma risk_students_below_75_witness :
  exists rows,
    risk_students_query Sample.today Sample.edges = Ok rows /\
    Sorted (asc_Q r_attendance_percentage) rows /\
    NoDup (map r_student_id rows) /\
    forall row,
      In row rows <->
      exists st,
        In st (students Sample.edges) /\
        student_records Sample.today Sample.edges st <> [] /\
        (percentage (student_records Sample.today Sample.edges st) < 75)%Q /\
        row = at_risk st (student_records Sample.today Sample.edges st).
Proof. apply risk_students_below_75; reflexivity. Defined.

(** There, only STU002 is at risk: 75% is not below 75, and records in
    sessions older than 30 days do not count. *)
Example risk_students_edges :
  risk_students_query Sample.today Sample.edges
  = Ok [ {| r_full_name := "Jane Smith"; r_student_id := "STU002";
            r_total_sessions := 3; r_attended_sessions := 2;
            r_attendance_percentage := 200 # 3 |} ].
Proof. reflexivity. Qed.

(** ** C8: the analytics response *)

Lemma traverse_defined {A B} (f : A -> result B) (l : list A) :
  (forall a, In a l -> exists b, f a = Ok b) -> exists bs, traverse f l = Ok bs.
Proof.
  induction l as [|a l IH]; simpl; intros Hf; [by eauto|].
  destruct (Hf a) as [b ->]; [by left|]. simpl.
  destruct IH as [bs ->]; [intros; apply Hf; by right|]. simpl. eauto.
Qed.

(** No group is empty, so the division of the risk query is defined. *)
Lemma risk_students_query_defined current_date t :
  exists rows, risk_students_query current_date t = Ok rows.
Proof.
  unfold risk_students_query.
  destruct (traverse_defined risk_group
              (group_by pair_eqb (fun '(st, _, _) => (st_student_id st, st_full_name st))
                 (risk_from current_date t))) as [rows ->]; [|simpl; by eauto].
  intros [[id name] group] Hin. apply (group_by_nonempty _ pair_eqb_eq) in Hin.
  unfold risk_group, attendance_percentage, numeric_div, count_star.
  destruct group as [|row group]; [done|]. simpl length.
  rewrite (proj2 (Z.eqb_neq _ 0)) by lia. simpl.
  destruct (Qlt_bool _ 75); simpl; eauto.
Qed.

(** C8.  The analytics response is the three result sets together when
    none of the three queries fails, and otherwise status 500 with an
    error message and no result set at all.  The queries themselves are
    total, so a query fails only when the environment fails it. *)
Theorem analytics_all_or_nothing current_date w :
  exists riskStudents,
    risk_students_query current_date (committed w) = Ok riskStudents /\
    fst (attendance_analytics current_date w)
    = if nth 0 (faults w) false || nth 1 (faults w) false || nth 2 (faults w) false
      then Status 500 "Failed to fetch analytics"
      else Json {| trends := trends_query current_date (committed w);
                   engagement := engagement_query current_date (committed w);
                   riskStudents := riskStudents |}.
Proof.
  destruct (risk_students_query_defined current_date (committed w)) as [rows Hrows].
  exists rows. split; [done|].
  unfold attendance_analytics, or_500, pool_query, db_call, mbind, M_bind.
  destruct w as [t tx sseq rseq plan]; simpl in *.
  destruct plan as [|[] [|[] [|[] plan]]]; simpl; rewrite ?Hrows; done.
Qed.

(** ** C3, C10: the rows behind the trend *)

Lemma holds_in_last_30 current_date s :
  holds (sql_ge (Some (s_session_date s)) (Some (current_date - 30)))
  = in_last_days 30 current_date s.
Proof. unfold in_last_days; simpl. by destruct (_ <=? _). Qed.

(** The trend query reads total_sessions and attendance_rate off the
    joined rows of the date: their number, and the mean of their points. *)
Lemma trends_query_rows current_date t row :
  In row (trends_query current_date t) <->
  exists date,
    joined_on current_date date t <> [] /\
    row = {| t_session_date := date;
             t_total_sessions := Z.of_nat (length (joined_on current_date date t));
             t_attendance_rate :=
               Some (rate_points (joined_on current_date date t)
                     # Pos.of_nat (length (joined_on current_date date t))) |}.
Proof.
  assert (forall date,
             List.filter (fun row => Z.eqb date ((fun '(s, _) => s_session_date s) row))
               (trends_from current_date t)
             = joined_on current_date date t) as Hgroup.
  { intros date. unfold joined_on. apply filter_ext_in_list.
    intros [s ar] _. apply Z.eqb_sym. }
  assert (forall rows : list (session_row * option record_row),
             rows <> [] ->
             avg 1 (fun '(_, ar) => present_times_100 ar) rows
             = Some (rate_points rows # Pos.of_nat (length rows))) as Havg.
  { intros rows Hsome. unfold avg, rate_points.
    assert (count (fun '(_, ar) => present_times_100 ar) rows = Z.of_nat (length rows))
      as ->.
    { unfold count. f_equal. f_equal. apply filter_all. by intros [s ar] _. }
    destruct rows as [|r rows]; [done|]. simpl length.
    rewrite (proj2 (Z.eqb_neq _ 0)) by lia.
    do 2 f_equal. rewrite Pos.mul_1_l, Nat2Z.inj_succ, <- Zpos_P_of_succ_nat. simpl.
    by rewrite Pos.of_nat_succ. }
  unfold trends_query, order_by_Z.
  rewrite <- list_elem_of_In, merge_sort_Permutation, list_elem_of_In, in_map_iff. split.
  - intros ([date group] & <- & Hin).
    pose proof (group_by_nonempty _ Z.eqb_eq _ _ _ _ Hin) as Hsome.
    apply (In_group_by _ Z.eqb_eq) in Hin as [_ ->]. rewrite Hgroup in *.
    exists date. split; [done|]. by rewrite Havg.
  - intros (date & Hsome & ->).
    exists (date, joined_on current_date date t). split.
    + by rewrite Havg.
    + apply (In_group_by _ Z.eqb_eq). split; [|by rewrite Hgroup].
      destruct (joined_on current_date date t) as [|[s ar] rows] eqn:Hrows; [done|].
      assert (In (s, ar) (joined_on current_date date t)) as Hin
          by (rewrite Hrows; by left).
      apply filter_In in Hin as [Hin Hdate]. apply Z.eqb_eq in Hdate.
      apply in_map_iff. by exists (s, ar).
Qed.

(** A session none of whose records is in the table joins as one row,
    with [NULL] on the record side, in the left join and as no row in the
    inner join. *)
Lemma left_join_no_records (s : session_row) (records : list record_row) :
  (forall ar, In ar records -> belongs_to ar s = false) ->
  left_join (fun s ar => sql_eq (Some (s_session_id s)) (ar_session_id ar)) [s] records
  = [(s, None)].
Proof.
  intros Hnone. unfold left_join. cbn [flat_map].
  rewrite filter_none; [done|]. intros ar Hin. rewrite holds_session_eq. by apply Hnone.
Qed.

Lemma inner_join_no_records (s : session_row) (records : list record_row) :
  (forall ar, In ar records -> belongs_to ar s = false) ->
  inner_join (fun s ar => sql_eq (Some (s_session_id s)) (ar_session_id ar)) [s] records
  = [].
Proof.
  intros Hnone. unfold inner_join. cbn [flat_map].
  rewrite filter_none; [done|]. intros ar Hin. rewrite holds_session_eq. by apply Hnone.
Qed.

Lemma left_join_app {A B} (on : A -> B -> option bool) l l' r :
  left_join on (l ++ l') r = left_join on l r ++ left_join on l' r.
Proof. unfold left_join. apply flat_map_app. Qed.

Lemma inner_join_app {A B} (on : A -> B -> option bool) l l' r :
  inner_join on (l ++ l') r = inner_join on l r ++ inner_join on l' r.
Proof. unfold inner_join. apply flat_map_app. Qed.

Lemma trends_from_without current_date t before s after :
  attendance_sessions t = before ++ s :: after ->
  (forall ar, In ar (attendance_records t) -> belongs_to ar s = false) ->
  in_last_days 30 current_date s = true ->
  exists rows rows',
    trends_from current_date t = rows ++ (s, None) :: rows' /\
    trends_from current_date (with_sessions (before ++ after) t) = rows ++ rows'.
Proof.
  intros Hsessions Hnone Hwindow. unfold trends_from, where_; simpl.
  rewrite Hsessions.
  change (s :: after) with ([s] ++ after).
  rewrite !left_join_app, !List.filter_app, left_join_no_records by done. simpl.
  unfold in_last_days in Hwindow. rewrite Hwindow. eauto.
Qed.

(** C10.  Take a session in the 30-day window to which no record
    belongs.  The left join of the trend query keeps it as a row with a
    [NULL] record; its date has a trend row, in which the session counts
    one toward [total_sessions] and adds nothing to the points that
    [attendance_rate] averages, while it is one more row to average over.
    The engagement query, an inner join, returns what it returns without
    the session. *)
Theorem session_without_records current_date t before s after :
  attendance_sessions t = before ++ s :: after ->
  has_no_records s t = true ->
  in_last_days 30 current_date s = true ->
  In (s, None) (trends_from current_date t) /\
  (exists row,
      In row (trends_query current_date t) /\
      t_session_date row = s_session_date s /\
      t_total_sessions row
      = 1 + Z.of_nat (length (joined_on current_date (s_session_date s)
                                (with_sessions (before ++ after) t))) /\
      t_attendance_rate row
      = Some (rate_points (joined_on current_date (s_session_date s)
                             (with_sessions (before ++ after) t))
              # Pos.of_nat (1 + length (joined_on current_date (s_session_date s)
                                           (with_sessions (before ++ after) t))))) /\
  (forall engagement_date,
      engagement_query engagement_date t
      = engagement_query engagement_date (with_sessions (before ++ after) t)).
Proof.
  intros Hsessions Hnone Hwindow.
  assert (forall ar, In ar (attendance_records t) -> belongs_to ar s = false) as Hnone'.
  { intros ar Har. unfold has_no_records in Hnone. rewrite forallb_forall in Hnone.
    by apply negb_true_iff, Hnone. }
  clear Hnone. rename Hnone' into Hnone.
  destruct (trends_from_without _ _ _ _ _ Hsessions Hnone Hwindow)
    as (rows & rows' & Hwith & Hwithout).
  assert (joined_on current_date (s_session_date s) t
          = List.filter (fun '(s', _) => s_session_date s' =? s_session_date s) rows
            ++ (s, None)
               :: List.filter (fun '(s', _) => s_session_date s' =? s_session_date s) rows')
    as Hjoined.
  { unfold joined_on. rewrite Hwith, List.filter_app. simpl. by rewrite Z.eqb_refl. }
  assert (joined_on current_date (s_session_date s) (with_sessions (before ++ after) t)
          = List.filter (fun '(s', _) => s_session_date s' =? s_session_date s) rows
            ++ List.filter (fun '(s', _) => s_session_date s' =? s_session_date s) rows')
    as Hjoined0.
  { unfold joined_on. by rewrite Hwithout, List.filter_app. }
  split; [|split].
  - rewrite Hwith. apply in_app_iff. right. by left.
  - eexists. split.
    + apply trends_query_rows. exists (s_session_date s). split; [|reflexivity].
      rewrite Hjoined. by destruct (List.filter _ rows).
    + simpl. rewrite Hjoined, Hjoined0. split; [done|]. split.
      * rewrite !length_app. simpl length. lia.
      * do 2 f_equal.
        -- unfold rate_points, sum. rewrite !foldr_app. simpl.
           by rewrite Z.mul_0_l, Z.add_0_l.
        -- f_equal. rewrite !length_app. simpl length. lia.
  - intros engagement_date. unfold engagement_query, engagement_from, where_; simpl.
    rewrite Hsessions. change (s :: after) with ([s] ++ after).
    by rewrite !inner_join_app, inner_join_no_records by done.
Qed.

(** The seed database with a second session today that has no records:
    today's trend row counts six rows, the five records and the session
    alone, and averages 300 points over them; engagement is as without. *)
Lemma session_without_records_witness :
  In (Sample.empty_session, None)
    (trends_from Sample.today Sample.seed_and_empty_session) /\
  (exists row,
      In row (trends_query Sample.today Sample.seed_and_empty_session) /\
      t_session_date row = Sample.today /\
      t_total_sessions row = 6 /\
      t_attendance_rate row = Some (300 # 6)) /\
  (forall engagement_date,
      engagement_query engagement_date Sample.seed_and_empty_session
      = engagement_query engagement_date Sample.seed).
Proof.
  apply (session_without_records Sample.today Sample.seed_and_empty_session
           Sample.seed_sessions Sample.empty_session []); reflexivity.
Defined.

(** The trend rows come in ascending order of date. *)
#[export] Instance asc_Z_total {R} (key : R -> Z) : Total (asc_Z key).
Proof. intros a b. unfold asc_Z. lia. Qed.

(** C3.  What the trend query returns, and where it leaves the claim: the
    rows are in ascending order of date and [attendance_rate] is the mean,
    over the rows joined for the date, of 100 for a present record and 0
    otherwise; but [total_sessions] is the number of those joined rows,
    one per record, not the number of sessions.  On the seed database of
    the schema file, one session with five records, it is 5. *)
Theorem trends_total_sessions_counts_rows :
  (forall current_date t, Sorted (asc_Z t_session_date) (trends_query current_date t)) /\
  (forall current_date t row,
      In row (trends_query current_date t) ->
      t_total_sessions row
      = Z.of_nat (length (joined_on current_date (t_session_date row) t)) /\
      t_attendance_rate row
      = Some (rate_points (joined_on current_date (t_session_date row) t)
              # Pos.of_nat (length (joined_on current_date (t_session_date row) t)))) /\
  trends_query Sample.today Sample.seed
  = [ {| t_session_date := Sample.today; t_total_sessions := 5;
         t_attendance_rate := Some (300 # 5) |} ] /\
  length (sessions_on Sample.today Sample.seed) = 1%nat.
Proof.
  split; [|split; [|split; reflexivity]].
  - intros current_date t. apply Sorted_merge_sort, _.
  - intros current_date t row Hin.
    apply trends_query_rows in Hin as (date & _ & ->). done.
Qed.

(* ===================================================================== *)
(** * Further properties of the API *)
(* ===================================================================== *)

#[export] Instance sample_crypto : Crypto := {|
  jwt_verify := Sample.verify;
  jwt_sign := Sample.sign;
  bcrypt_compare := Sample.compare;
|}.

(** ** The authorization header *)

Fixpoint no_space (s : string) : bool :=
  match s with
  | EmptyString => true
  | String c rest => negb (Ascii.eqb c Ascii.Space) && no_space rest
  end.

Lemma split_spaces_no_space s : no_space s = true -> split_spaces s = [s].
Proof.
  induction s as [|c s IH]; simpl; [done|]. intros Hs.
  apply andb_prop in Hs as [Hc Hs]. apply negb_true_iff in Hc.
  by rewrite Hc, (IH Hs).
Qed.

Lemma split_spaces_app a b :
  no_space a = true ->
  split_spaces (String.append a (String Ascii.Space b)) = a :: split_spaces b.
Proof.
  induction a as [|c a IH]; simpl; [done|]. intros Ha.
  apply andb_prop in Ha as [Hc Ha]. apply negb_true_iff in Hc.
  by rewrite Hc, (IH Ha).
Qed.

(** The token is the second piece of the header; what it is given as
    first piece is not looked at. *)
Definition verdict `{Crypto} (token : string) : auth_outcome :=
  match token with
  | EmptyString => Rejected 401 "Access token required"
  | _ =>
      match jwt_verify token with
      | None => Rejected 403 "Invalid token"
      | Some user => Next user
      end
  end.

(** X1.  [authenticateToken] takes the second space-separated piece of
    the header as the token, whatever the first piece is ("Bearer" is not
    required) and whatever follows the second; a header that is absent or
    has no space in it is answered with 401, as is an empty second piece,
    without the token library being asked; any other token is answered
    with 403 unless it verifies. *)
Theorem authenticateToken_second_piece `{Crypto} scheme token rest :
  no_space scheme = true -> no_space token = true ->
  authenticateToken (Some (String.append scheme (String Ascii.Space token)))
  = verdict token /\
  authenticateToken
    (Some (String.append scheme
             (String Ascii.Space (String.append token (String Ascii.Space rest)))))
  = verdict token /\
  authenticateToken (Some scheme) = Rejected 401 "Access token required" /\
  authenticateToken None = Rejected 401 "Access token required".
Proof.
  intros Hscheme Htoken.
  assert (forall tail, header_token (Some (String.append scheme (String Ascii.Space tail)))
                       = nth_error (split_spaces tail) 0) as Hheader.
  { intros tail. unfold header_token.
    destruct (String.append scheme (String Ascii.Space tail)) eqn:Happ.
    - by destruct scheme.
    - rewrite <- Happ. by rewrite split_spaces_app. }
  unfold authenticateToken. rewrite !Hheader. repeat split.
  - rewrite split_spaces_no_space by done. simpl. by destruct token.
  - rewrite split_spaces_app by done. simpl. by destruct token.
  - unfold header_token. destruct scheme as [|c scheme]; [done|].
    by rewrite split_spaces_no_space.
Qed.

(** "Basic teacher-token" authenticates as "Bearer teacher-token" would. *)
Lemma authenticateToken_second_piece_witness :
  authenticateToken (Some "Basic teacher-token"%string) = Next Sample.teacher /\
  authenticateToken (Some "Basic teacher-token and more"%string) = Next Sample.teacher /\
  authenticateToken (Some "Basic"%string) = Rejected 401 "Access token required" /\
  authenticateToken None = Rejected 401 "Access token required".
Proof.
  exact (authenticateToken_second_piece "Basic" "teacher-token" "and more"
           eq_refl eq_refl).
Defined.

(** ** Login *)

Lemma with_faults_same w : with_faults (faults w) w = w.
Proof. by destruct w. Qed.

(** A [SELECT] through the pool changes nothing but the environment's
    plan. *)
Lemma pool_query_cases {A} (select : Tables -> result A) w r w1 :
  pool_query select w = (r, w1) ->
  (exists plan, w1 = with_faults plan w) /\
  (r = Err ConnectionError \/ r = select (committed w)).
Proof.
  unfold pool_query, db_call.
  destruct (faults w) as [|[] plan] eqn:Hplan; intros [= <- <-]; simpl.
  - split; [|by right]. exists []. by rewrite <- Hplan, with_faults_same.
  - split; [by exists plan|by left].
  - split; [by exists plan|by right].
Qed.

Lemma pool_query_no_fault {A} (select : Tables -> result A) w :
  nth 0 (faults w) false = false ->
  exists w1, pool_query select w = (select (committed w), w1).
Proof.
  unfold pool_query, db_call. destruct (faults w) as [|[] plan]; simpl; [|done|]; eauto.
Qed.

Section LoginProperties.
Context `{PgDriver} `{Crypto}.

Lemma auth_login_cases req_body w res w' :
  auth_login req_body w = (res, w') ->
  (exists plan, w' = with_faults plan w) /\
  match res with
  | Json b =>
      exists username password user rest,
        get_prop req_body "username" = Ok username /\
        get_prop req_body "password" = Ok password /\
        select_user username (committed w) = Ok (user :: rest) /\
        bcrypt_compare password (u_password_hash user) = Ok true /\
        b = {| token := jwt_sign (token_payload user);
               logged_in := {| id := u_user_id user; username := u_username user;
                               role := u_role user; firstName := u_first_name user;
                               lastName := u_last_name user |} |}
  | Status _ _ => True
  end.
Proof.
  assert (exists plan, w = with_faults plan w) as Hsame
      by (exists (faults w); by rewrite with_faults_same).
  unfold auth_login, or_500, lift, mbind, M_bind.
  destruct (get_prop req_body "username") as [username|e]; simpl;
    [|by intros [= <- <-]].
  destruct (get_prop req_body "password") as [password|e]; simpl;
    [|by intros [= <- <-]].
  destruct (negb (to_boolean username) || negb (to_boolean password)); simpl;
    [by intros [= <- <-]|].
  destruct (pool_query (select_user username) w) as [[userResult|e] w1] eqn:Hquery;
    destruct (pool_query_cases _ _ _ _ Hquery) as [Hworld Hselect];
    [|by intros [= <- <-]].
  destruct Hselect as [?|Hselect]; [done|].
  destruct userResult as [|user rest]; simpl; [by intros [= <- <-]|].
  destruct (bcrypt_compare password (u_password_hash user)) as [[]|e] eqn:Hcompare;
    simpl; intros [= <- <-]; split; try done.
  by exists username, password, user, rest.
Qed.

End LoginProperties.

(** X2.  A login is answered with a token only if the users table has a
    row whose username is the text of the submitted username and the
    password library accepts the submitted password against the hash of
    the first such row; the token is signed over that row's id, username
    and role, and the response carries that row's id and names. *)
Theorem auth_login_token `{PgDriver} `{Crypto} req_body w b w' :
  auth_login req_body w = (Json b, w') ->
  exists name password user,
    get_prop req_body "username" = Ok name /\
    get_prop req_body "password" = Ok password /\
    In user (users (committed w)) /\
    to_text name = Some (u_username user) /\
    bcrypt_compare password (u_password_hash user) = Ok true /\
    token b = jwt_sign (token_payload user) /\
    id (logged_in b) = u_user_id user /\
    username (logged_in b) = u_username user /\
    role (logged_in b) = u_role user.
Proof.
  intros Hrun. destruct (auth_login_cases _ _ _ _ Hrun)
    as (_ & name & password & user & rest & Husername & Hpassword & Hselect
        & Hcompare & ->).
  exists name, password, user. repeat split; try done.
  - injection Hselect as Hselect.
    assert (In user (user :: rest)) as Hin by (by left).
    rewrite <- Hselect in Hin. by apply filter_In in Hin as [Hin _].
  - injection Hselect as Hselect.
    assert (In user (user :: rest)) as Hin by (by left).
    rewrite <- Hselect in Hin. apply filter_In in Hin as [_ Hmatch].
    destruct (to_text name) as [text|]; [|done]. simpl in Hmatch.
    case_bool_decide; [congruence|done].
Qed.

(** The teacher of the seed data logs in. *)
Lemma auth_login_token_witness :
  exists name password user,
    get_prop Sample.login_request "username" = Ok name /\
    get_prop Sample.login_request "password" = Ok password /\
    In user (users Sample.seed) /\
    to_text name = Some (u_username user) /\
    bcrypt_compare password (u_password_hash user) = Ok true /\
    "teacher-token"%string = jwt_sign (token_payload user) /\
    1 = u_user_id user /\
    "teacher"%string = u_username user /\
    Some "teacher"%string = u_role user.
Proof.
  exact (auth_login_token Sample.login_request (Sample.world Sample.seed [])
           {| token := "teacher-token";
              logged_in := {| id := 1; username := "teacher"; role := Some "teacher"%string;
                              firstName := Some "Demo"%string;
                              lastName := Some "Teacher"%string |} |}
           (Sample.world Sample.seed []) eq_refl).
Defined.

(** X3.  Login does not tell an unknown username from a wrong password:
    with username and password present and the query answered, both end in
    the same response, 401 "Invalid credentials". *)
Theorem auth_login_failures_alike `{PgDriver} `{Crypto} req_body w name password :
  get_prop req_body "username" = Ok name ->
  get_prop req_body "password" = Ok password ->
  to_boolean name = true -> to_boolean password = true ->
  nth 0 (faults w) false = false ->
  (select_user name (committed w) = Ok [] \/
   exists user rest,
     select_user name (committed w) = Ok (user :: rest) /\
     bcrypt_compare password (u_password_hash user) = Ok false) ->
  fst (auth_login req_body w) = Status 401 "Invalid credentials".
Proof.
  intros Husername Hpassword Htrue1 Htrue2 Hfault Hfail.
  unfold auth_login, or_500, lift, mbind, M_bind.
  rewrite Husername, Hpassword, Htrue1, Htrue2. simpl.
  destruct (pool_query_no_fault (select_user name) w Hfault) as [w1 ->].
  destruct Hfail as [->|(user & rest & -> & Hcompare)]; simpl; [done|].
  by rewrite Hcompare.
Qed.

(** An unknown user and the teacher with a wrong password. *)
Lemma auth_login_failures_alike_witness :
  fst (auth_login (VObj [("username", VStr "nobody"); ("password", VStr "x")]%string)
         (Sample.world Sample.seed []))
  = Status 401 "Invalid credentials" /\
  fst (auth_login (VObj [("username", VStr "teacher"); ("password", VStr "x")]%string)
         (Sample.world Sample.seed []))
  = Status 401 "Invalid credentials".
Proof.
  split.
  - apply (auth_login_failures_alike _ _ (VStr "nobody") (VStr "x")); try reflexivity.
    by left.
  - apply (auth_login_failures_alike _ _ (VStr "teacher") (VStr "x")); try reflexivity.
    right. by eexists _, _.
Defined.

(** ** The student list *)

#[export] Instance desc_nulls_first_total {R} (key : R -> option Z)
  : Total (desc_nulls_first key).
Proof.
  intros a b. unfold desc_nulls_first. destruct (key a), (key b); auto. lia.
Qed.

(** X4.  [GET /api/students/enrolled] answers, unless the query fails,
    with one row per enrolled student, carrying the student's id, name,
    enrollment date and section and whether a face embedding is stored
    (never the embedding), latest enrollment first and rows without a date
    before all others. *)
Theorem students_enrolled_lists_all w :
  exists rows,
    fst (students_enrolled w)
    = (if nth 0 (faults w) false then Status 500 "Failed to fetch students"
       else Json rows) /\
    rows ≡ₚ map (fun st => {| el_student_id := st_student_id st;
                               el_full_name := st_full_name st;
                               el_enrollment_date := st_enrollment_date st;
                               el_has_face_data := bool_decide (is_Some (st_face_embedding st));
                               el_section := st_section st |})
              (students (committed w)) /\
    Sorted (desc_nulls_first el_enrollment_date) rows.
Proof.
  exists (enrolled_query (committed w)). split; [|split].
  - unfold students_enrolled, or_500, pool_query, db_call, mbind, M_bind.
    destruct w as [t tx sseq rseq plan]; simpl.
    by destruct plan as [|[] plan].
  - apply merge_sort_Permutation.
  - apply Sorted_merge_sort, _.
Qed.

(** ** Enrollment *)

Section EnrollProperties.
Context `{PgDriver}.

Lemma insert_student_cases p1 p2 p3 p4 now w r w' :
  insert_student p1 p2 p3 p4 now w = (r, w') ->
  session_id_seq w' = session_id_seq w /\ record_id_seq w' = record_id_seq w /\
  match r with
  | Ok enrolled =>
      exists row,
        student_values p1 p2 p3 p4 now = Ok row /\
        has_student (committed w) (st_student_id row) = false /\
        committed w' = add_student row (committed w) /\
        enrolled = {| enrolled_student_id := st_student_id row;
                      enrolled_full_name := st_full_name row;
                      enrolled_enrollment_date := st_enrollment_date row |}
  | Err _ => committed w' = committed w
  end.
Proof.
  unfold insert_student, db_call.
  destruct (faults w) as [|[] plan]; simpl;
    destruct (student_values p1 p2 p3 p4 now) as [row|e]; simpl;
    try destruct (has_student (committed w) (st_student_id row)) eqn:Hnew;
    intros [= <- <-]; simpl; repeat split; eauto.
Qed.

Lemma students_enroll_cases now req w res w' :
  students_enroll now req w = (res, w') ->
  session_id_seq w' = session_id_seq w /\ record_id_seq w' = record_id_seq w /\
  match res with
  | Json b =>
      exists studentId fullName faceEmbedding section row,
        get_prop (body req) "studentId" = Ok studentId /\
        get_prop (body req) "fullName" = Ok fullName /\
        get_prop (body req) "faceEmbedding" = Ok faceEmbedding /\
        with_default (VStr "S33") <$> get_prop (body req) "section" = Ok section /\
        to_boolean studentId && to_boolean fullName && to_boolean faceEmbedding = true /\
        student_values studentId fullName faceEmbedding section now = Ok row /\
        has_student (committed w) (st_student_id row) = false /\
        committed w' = add_student row (committed w) /\
        b = {| enroll_message := "Student enrolled successfully";
               student := {| enrolled_student_id := st_student_id row;
                             enrolled_full_name := st_full_name row;
                             enrolled_enrollment_date := st_enrollment_date row |} |}
  | Status _ _ => committed w' = committed w
  end.
Proof.
  unfold students_enroll, or_500, lift, mbind, M_bind.
  destruct (get_prop (body req) "studentId") as [studentId|?]; simpl;
    [|by intros [= <- <-]].
  destruct (get_prop (body req) "fullName") as [fullName|?]; simpl;
    [|by intros [= <- <-]].
  destruct (get_prop (body req) "faceEmbedding") as [faceEmbedding|?]; simpl;
    [|by intros [= <- <-]].
  destruct (get_prop (body req) "section") as [section|?]; simpl;
    [|by intros [= <- <-]].
  destruct (to_boolean studentId && to_boolean fullName && to_boolean faceEmbedding)
    eqn:Htruthy.
  2: { replace (negb (to_boolean studentId) || negb (to_boolean fullName)
                || negb (to_boolean faceEmbedding)) with true
         by (destruct (to_boolean studentId), (to_boolean fullName),
               (to_boolean faceEmbedding); done).
       by intros [= <- <-]. }
  replace (negb (to_boolean studentId) || negb (to_boolean fullName)
           || negb (to_boolean faceEmbedding)) with false
    by (destruct (to_boolean studentId), (to_boolean fullName),
          (to_boolean faceEmbedding); done).
  destruct (pool_query (select_student studentId) w) as [[existing|?] w1] eqn:Hquery;
    destruct (pool_query_spec _ _ _ _ Hquery) as (Hc1 & Hs1 & Hr1 & _); simpl;
    [|by intros [= <- <-]].
  destruct (0 <? length existing)%nat; simpl; [by intros [= <- <-]|].
  destruct (insert_student _ _ _ _ _ w1) as [[enrolled|?] w2] eqn:Hinsert;
    destruct (insert_student_cases _ _ _ _ _ _ _ _ Hinsert) as (Hs2 & Hr2 & Hres); simpl;
    intros [= <- <-]; rewrite Hc1, Hs1, Hr1 in *; repeat split; try done.
  destruct Hres as (row & Hrow & Hnew & Hcommitted & ->).
  by exists studentId, fullName, faceEmbedding, (with_default (VStr "S33") section), row.
Qed.

Lemma student_values_fields p1 p2 p3 p4 now row :
  student_values p1 p2 p3 p4 now = Ok row ->
  varchar 50 (to_text p1) = Ok (Some (st_student_id row)) /\
  varchar 255 (to_text p2) = Ok (Some (st_full_name row)) /\
  to_jsonb p3 = Ok (st_face_embedding row) /\
  varchar 10 (to_text p4) = Ok (st_section row) /\
  st_enrollment_date row = Some now.
Proof.
  unfold student_values.
  destruct (varchar 50 (to_text p1)) as [[id|]|?]; simpl; try discriminate.
  destruct (varchar 255 (to_text p2)) as [[name|]|?]; simpl; try discriminate.
  destruct (to_jsonb p3) as [embedding|?]; simpl; try discriminate.
  destruct (varchar 10 (to_text p4)) as [section|?]; simpl; try discriminate.
  by intros [= <-].
Qed.

Lemma has_student_add_student row t :
  has_student (add_student row t) (st_student_id row) = true.
Proof.
  unfold has_student, add_student; simpl. rewrite existsb_app; simpl.
  by rewrite String.eqb_refl, orb_true_r.
Qed.

End EnrollProperties.

(** X5.  A successful enrollment adds exactly one student row and
    answers with its id, name and date.  The row is dated with the
    database's [NOW()], the id was not in use before and is afterwards, a
    [studentId] that is a string of at most 50 characters is stored as it
    is, and a request without a [section] key gets section 'S33' (a
    [section] of [null] is stored as [NULL]). *)
Theorem students_enroll_stores `{PgDriver} now req w b w' :
  students_enroll now req w = (Json b, w') ->
  exists row,
    committed w' = add_student row (committed w) /\
    has_student (committed w) (st_student_id row) = false /\
    has_student (committed w') (st_student_id row) = true /\
    st_enrollment_date row = Some now /\
    student b = {| enrolled_student_id := st_student_id row;
                   enrolled_full_name := st_full_name row;
                   enrolled_enrollment_date := Some now |} /\
    (forall s, get_prop (body req) "studentId" = Ok (VStr s) ->
               (String.length s <= 50)%nat -> st_student_id row = s) /\
    (get_prop (body req) "section" = Ok VUndefined -> st_section row = Some "S33"%string) /\
    (get_prop (body req) "section" = Ok VNull -> st_section row = None).
Proof.
  intros Hrun.
  destruct (students_enroll_cases _ _ _ _ _ Hrun)
    as (_ & _ & studentId & fullName & faceEmbedding & section & row & HstudentId & _ & _
        & Hsection & _ & Hrow & Hnew & Hcommitted & ->).
  destruct (student_values_fields _ _ _ _ _ _ Hrow) as (Hid & _ & _ & Hsec & Hdate).
  exists row. rewrite Hcommitted, Hdate. repeat split; try done.
  - apply has_student_add_student.
  - intros s Hs Hlen. rewrite HstudentId in Hs. injection Hs as ->.
    rewrite to_text_string, varchar_fits in Hid by done. congruence.
  - intros Hmissing. rewrite Hmissing in Hsection. injection Hsection as <-.
    rewrite to_text_string in Hsec. simpl in Hsec. congruence.
  - intros Hnull. rewrite Hnull in Hsection. injection Hsection as <-.
    rewrite to_text_null in Hsec. simpl in Hsec. congruence.
Qed.

(** A new student on the seed database. *)
Lemma students_enroll_stores_witness :
  exists row,
    committed (snd (students_enroll Sample.now
                      {| user := Sample.teacher; body := Sample.enroll_request "STU006" |}
                      (Sample.world Sample.seed [])))
    = add_student row Sample.seed /\
    has_student Sample.seed (st_student_id row) = false /\
    st_student_id row = "STU006"%string /\
    st_section row = Some "S33"%string.
Proof.
  assert (students_enroll Sample.now
            {| user := Sample.teacher; body := Sample.enroll_request "STU006" |}
            (Sample.world Sample.seed [])
          = (Json {| enroll_message := "Student enrolled successfully";
                     student := {| enrolled_student_id := "STU006";
                                   enrolled_full_name := "Ada Lovelace";
                                   enrolled_enrollment_date := Some Sample.now |} |},
             snd (students_enroll Sample.now
                    {| user := Sample.teacher; body := Sample.enroll_request "STU006" |}
                    (Sample.world Sample.seed [])))) as Hrun
    by (vm_compute; reflexivity).
  destruct (students_enroll_stores _ _ _ _ _ Hrun)
    as (row & Hcommitted & Hnew & _ & _ & _ & Hid & Hsection & _).
  exists row. repeat split; try done.
  - apply Hid; [reflexivity | simpl; lia].
  - apply Hsection. reflexivity.
Defined.

(** X6.  A student is enrolled once: after a successful enrollment the
    same request never succeeds again and never changes the tables.  When
    the text of the [studentId] has at most 50 characters and the lookup is
    answered, the second answer is 400 "Student already enrolled". *)
Theorem students_enroll_once `{PgDriver} now1 now2 req w b w1 :
  students_enroll now1 req w = (Json b, w1) ->
  committed (snd (students_enroll now2 req w1)) = committed w1 /\
  (forall b2, fst (students_enroll now2 req w1) <> Json b2) /\
  (forall studentId text,
     get_prop (body req) "studentId" = Ok studentId ->
     to_text studentId = Some text -> (String.length text <= 50)%nat ->
     nth 0 (faults w1) false = false ->
     fst (students_enroll now2 req w1) = Status 400 "Student already enrolled").
Proof.
  intros Hrun1.
  destruct (students_enroll_cases _ _ _ _ _ Hrun1)
    as (_ & _ & studentId & fullName & faceEmbedding & section & row & HstudentId
        & HfullName & HfaceEmbedding & Hsection & Htruthy & Hrow & Hnew & Hcommitted & _).
  destruct (student_values_fields _ _ _ _ _ _ Hrow) as (Hid & _).
  assert (forall b2 w2, students_enroll now2 req w1 <> (Json b2, w2)) as Hnever.
  { intros b2 w2 Hrun2.
    destruct (students_enroll_cases _ _ _ _ _ Hrun2)
      as (_ & _ & studentId2 & ? & ? & ? & row2 & HstudentId2 & _ & _ & _ & _ & Hrow2
          & Hnew2 & _).
    destruct (student_values_fields _ _ _ _ _ _ Hrow2) as (Hid2 & _).
    rewrite HstudentId in HstudentId2. injection HstudentId2 as <-.
    rewrite Hid in Hid2. injection Hid2 as Hid2.
    by rewrite <- Hid2, Hcommitted, has_student_add_student in Hnew2. }
  split; [|split].
  - destruct (students_enroll now2 req w1) as [[b2|code msg] w2] eqn:Hrun2; simpl.
    + by destruct (Hnever b2 w2).
    + by destruct (students_enroll_cases _ _ _ _ _ Hrun2) as (_ & _ & ?).
  - intros b2 Hjson.
    destruct (students_enroll now2 req w1) as [res2 w2] eqn:Hrun2; simpl in Hjson.
    subst res2. by destruct (Hnever b2 w2).
  - intros studentId' text HstudentId' Htext Hlength Hfault.
    rewrite HstudentId in HstudentId'. injection HstudentId' as <-.
    rewrite Htext, varchar_fits in Hid by done. injection Hid as Hid.
    unfold students_enroll, or_500, lift, mbind, M_bind.
    rewrite HstudentId, HfullName, HfaceEmbedding. simpl.
    destruct (get_prop (body req) "section") as [?|?]; [simpl|done].
    replace (negb (to_boolean studentId) || negb (to_boolean fullName)
             || negb (to_boolean faceEmbedding)) with false
      by (destruct (to_boolean studentId), (to_boolean fullName),
            (to_boolean faceEmbedding); done).
    destruct (pool_query_no_fault (select_student studentId) w1 Hfault) as [w2 ->].
    unfold select_student, where_. simpl.
    rewrite Hcommitted, Htext. unfold add_student; simpl.
    rewrite List.filter_app, length_map, length_app; simpl.
    rewrite <- Hid. rewrite bool_decide_eq_true_2 by done. simpl.
    replace (0 <? _)%nat with true; [done|].
    symmetry. apply Nat.ltb_lt. lia.
Qed.

(** Enrolling STU006 twice on the seed database. *)
Lemma students_enroll_once_witness :
  committed (snd (students_enroll (Sample.now + 1)
                    {| user := Sample.teacher; body := Sample.enroll_request "STU006" |}
                    (snd (students_enroll Sample.now
                            {| user := Sample.teacher;
                               body := Sample.enroll_request "STU006" |}
                            (Sample.world Sample.seed [])))))
  = committed (snd (students_enroll Sample.now
                      {| user := Sample.teacher; body := Sample.enroll_request "STU006" |}
                      (Sample.world Sample.seed []))) /\
  fst (students_enroll (Sample.now + 1)
         {| user := Sample.teacher; body := Sample.enroll_request "STU006" |}
         (snd (students_enroll Sample.now
                 {| user := Sample.teacher; body := Sample.enroll_request "STU006" |}
                 (Sample.world Sample.seed []))))
  = Status 400 "Student already enrolled".
Proof.
  assert (students_enroll Sample.now
            {| user := Sample.teacher; body := Sample.enroll_request "STU006" |}
            (Sample.world Sample.seed [])
          = (Json {| enroll_message := "Student enrolled successfully";
                     student := {| enrolled_student_id := "STU006";
                                   enrolled_full_name := "Ada Lovelace";
                                   enrolled_enrollment_date := Some Sample.now |} |},
             snd (students_enroll Sample.now
                    {| user := Sample.teacher; body := Sample.enroll_request "STU006" |}
                    (Sample.world Sample.seed [])))) as Hrun
    by (vm_compute; reflexivity).
  destruct (students_enroll_once Sample.now (Sample.now + 1) _ _ _ _ Hrun)
    as (Hsame & _ & Hagain).
  split; [exact Hsame|].
  apply (Hagain (VStr "STU006") "STU006"%string); [reflexivity|reflexivity|simpl; lia|].
  vm_compute; reflexivity.
Defined.

(** X7.  The enrollment guard is one of truthiness: with a body that is an
    object, the request is answered 400 "Student ID, name, and face
    embedding required" exactly when [studentId], [fullName] or
    [faceEmbedding] is falsy (missing, [null], [false], [0], [NaN] or the
    empty string), and then nothing reaches the database. *)
Theorem students_enroll_requires_truthy `{PgDriver} now req w studentId fullName
    faceEmbedding section :
  get_prop (body req) "studentId" = Ok studentId ->
  get_prop (body req) "fullName" = Ok fullName ->
  get_prop (body req) "faceEmbedding" = Ok faceEmbedding ->
  get_prop (body req) "section" = Ok section ->
  (fst (students_enroll now req w)
   = Status 400 "Student ID, name, and face embedding required"
   <-> to_boolean studentId = false \/ to_boolean fullName = false \/
       to_boolean faceEmbedding = false) /\
  (fst (students_enroll now req w)
   = Status 400 "Student ID, name, and face embedding required" ->
   snd (students_enroll now req w) = w).
Proof.
  intros HstudentId HfullName HfaceEmbedding Hsection.
  unfold students_enroll, or_500, lift, mbind, M_bind.
  rewrite HstudentId, HfullName, HfaceEmbedding, Hsection. simpl.
  destruct (to_boolean studentId) eqn:H1; simpl; [|by repeat split; auto].
  destruct (to_boolean fullName) eqn:H2; simpl; [|by repeat split; auto].
  destruct (to_boolean faceEmbedding) eqn:H3; simpl; [|by repeat split; auto].
  destruct (pool_query (select_student studentId) w) as [[existing|?] w1]; simpl.
  - destruct (0 <? length existing)%nat; simpl.
    + split; [split; [done|]|done]. by intros [|[|]].
    + destruct (insert_student _ _ _ _ _ w1) as [[?|?] w2]; simpl;
        (split; [split; [done|]|done]); by intros [|[|]].
  - split; [split; [done|]|done]. by intros [|[|]].
Qed.

(** An empty [studentId] is refused. *)
Lemma students_enroll_requires_truthy_witness :
  fst (students_enroll Sample.now
         {| user := Sample.teacher; body := Sample.enroll_request "" |}
         (Sample.world Sample.seed []))
  = Status 400 "Student ID, name, and face embedding required".
Proof.
  apply (students_enroll_requires_truthy Sample.now
           {| user := Sample.teacher; body := Sample.enroll_request "" |}
           (Sample.world Sample.seed []) (VStr "") (VStr "Ada Lovelace")
           (VArr [VNum 0.25; VNum 0.5]) VUndefined); try reflexivity.
  by left.
Defined.

(** ** The constraints of the schema as an invariant of the API *)

Lemma unique_student_ids_snoc sts st :
  unique_student_ids sts = true ->
  existsb (fun st' => String.eqb (st_student_id st') (st_student_id st)) sts = false ->
  unique_student_ids (sts ++ [st]) = true.
Proof.
  induction sts as [|st0 sts IH]; simpl; [done|]. intros Hunique Hnew.
  apply andb_prop in Hunique as [Hfirst Hunique]. apply negb_true_iff in Hfirst.
  apply orb_false_elim in Hnew as [Hne Hnew].
  rewrite existsb_app, Hfirst, IH by done; simpl.
  by rewrite String.eqb_sym, Hne.
Qed.

Lemma unique_session_ids_snoc sessions s :
  unique_session_ids sessions = true ->
  existsb (fun s' => s_session_id s' =? s_session_id s) sessions = false ->
  unique_session_ids (sessions ++ [s]) = true.
Proof.
  induction sessions as [|s0 sessions IH]; simpl; [done|]. intros Hunique Hnew.
  apply andb_prop in Hunique as [Hfirst Hunique]. apply negb_true_iff in Hfirst.
  apply orb_false_elim in Hnew as [Hne Hnew].
  rewrite existsb_app, Hfirst, IH by done; simpl.
  by rewrite Z.eqb_sym, Hne.
Qed.

Lemma references_mono {A} (f g : A -> bool) c :
  (forall a, f a = true -> g a = true) ->
  references f c = true -> references g c = true.
Proof. destruct c; simpl; auto. Qed.

Lemma forallb_mono {A} (f g : A -> bool) l :
  (forall a, f a = true -> g a = true) -> forallb f l = true -> forallb g l = true.
Proof. intros Hfg. rewrite !forallb_forall. auto. Qed.

Lemma existsb_snoc_mono {A} (f : A -> bool) l a :
  existsb f l = true -> existsb f (l ++ [a]) = true.
Proof. intros Hl. by rewrite existsb_app, Hl. Qed.

Lemma Forall2_In_r {A B} (P : A -> B -> Prop) l k y :
  Forall2 P l k -> In y k -> exists x, In x l /\ P x y.
Proof.
  induction 1 as [|a b l k Hab _ IH]; simpl; [done|].
  intros [<-|Hin]; [eauto|].
  destruct (IH Hin) as (x & ? & ?). eauto.
Qed.

(** A request that leaves the tables alone and the sequences no lower. *)
Lemma integrity_kept w w' :
  committed w' = committed w ->
  session_id_seq w <= session_id_seq w' ->
  record_id_seq w <= record_id_seq w' ->
  integrity w = true -> integrity w' = true.
Proof.
  unfold integrity, sequences_ahead. intros -> Hs Hr.
  rewrite !andb_true_iff. intros (((((? & ?) & ?) & ?) & ?) & Hsessions & Hrecords).
  repeat split; try done.
  - revert Hsessions. apply forallb_mono. intros s. rewrite !Z.ltb_lt. lia.
  - revert Hrecords. apply forallb_mono. intros ar. rewrite !Z.ltb_lt. lia.
Qed.

Lemma integrity_add_student w w' row :
  has_student (committed w) (st_student_id row) = false ->
  committed w' = add_student row (committed w) ->
  session_id_seq w' = session_id_seq w ->
  record_id_seq w' = record_id_seq w ->
  integrity w = true -> integrity w' = true.
Proof.
  unfold integrity, sequences_ahead, fk_records_sessions, fk_records_students,
    fk_sessions_users.
  intros Hnew -> -> ->.
  rewrite !andb_true_iff. intros (((((? & ?) & ?) & Hfk) & ?) & ? & ?).
  repeat split; try done.
  - by apply unique_student_ids_snoc.
  - revert Hfk. apply forallb_mono. intros ar. apply references_mono. intros id.
    unfold has_student, add_student; simpl. apply existsb_snoc_mono.
Qed.

Section IntegrityOfSave.
Context `{PgDriver}.

Lemma integrity_save today req w res w' :
  save_outcome today req w res w' -> integrity w = true -> integrity w' = true.
Proof.
  intros Houtcome.
  destruct Houtcome as [?|????|sessionData attendanceRecords subject w' _ _ _ _ Hc Hs Hr
                        |sessionData attendanceRecords subject section sessionType
                           values records rows w' _ _ _ _ _ _ Hvalues Hfresh Hteacher _
                           Hstored Hids Hc _ Hs Hr]; try done.
  - by apply integrity_kept.
  - destruct (session_of_fields _ _ _ _ _ _ _ _ (session_id_seq w) Hvalues) as (Hid & _).
    unfold integrity, sequences_ahead, fk_records_sessions, fk_records_students,
      fk_sessions_users.
    rewrite Hc, Hs, Hr.
    rewrite !andb_true_iff.
    intros (((((Hstudents & Hsessions) & Hfk1) & Hfk2) & Hfk3) & Hahead1 & Hahead2).
    unfold add_records, add_session; simpl.
    repeat split; try done.
    + apply unique_session_ids_snoc; [done|]. by rewrite Hid.
    + rewrite forallb_app. apply andb_true_iff. split.
      * revert Hfk1. apply forallb_mono. intros ar. apply references_mono. intros id.
        unfold has_session; simpl. apply existsb_snoc_mono.
      * apply forallb_forall. intros row Hrow.
        pose proof (stored_session_id _ _ _ _ Hstored) as Hsession.
        rewrite Forall_forall in Hsession.
        rewrite (Hsession row) by (by apply list_elem_of_In).
        unfold has_session; simpl. rewrite existsb_app; simpl.
        by rewrite Hid, Z.eqb_refl, orb_true_r.
    + rewrite forallb_app. apply andb_true_iff. split; [done|].
      apply forallb_forall. intros row Hrow.
      destruct (Forall2_In_r _ _ _ _ Hstored Hrow) as (record & _ & (? & _ & _ & _ & Hstudent)).
      exact Hstudent.
    + rewrite forallb_app. apply andb_true_iff. split; [done|]. simpl.
      rewrite andb_true_r. revert Hteacher. apply references_mono.
      intros id Huser. exact Huser.
    + rewrite forallb_app. apply andb_true_iff. split.
      * revert Hahead1. apply forallb_mono. intros s. rewrite !Z.ltb_lt. lia.
      * simpl. rewrite Hid, andb_true_r. apply Z.ltb_lt. lia.
    + rewrite forallb_app. apply andb_true_iff. split.
      * revert Hahead2. apply forallb_mono. intros ar. rewrite !Z.ltb_lt. lia.
      * apply forallb_forall. intros row Hrow. rewrite Forall_forall in Hids.
        apply Z.ltb_lt. rewrite <- Hr. apply Hids. by apply list_elem_of_In.
Qed.

Context `{Crypto}.

Lemma integrity_serve w r : integrity w = true -> integrity (serve w r) = true.
Proof.
  intros Hw. destruct r as [body|authHeader|authHeader body now|authHeader body today
                            |authHeader current_date]; simpl; unfold authenticated;
    try destruct (authenticateToken authHeader) as [code msg|user]; simpl; try done.
  - destruct (auth_login body w) as [res w'] eqn:Hrun.
    destruct (auth_login_cases _ _ _ _ Hrun) as [[plan ->] _]. simpl.
    by apply (integrity_kept w).
  - destruct (students_enrolled w) as [res w'] eqn:Hrun. simpl.
    unfold students_enrolled, or_500, mbind, M_bind in Hrun.
    destruct (pool_query _ w) as [[?|?] w1] eqn:Hquery;
      destruct (pool_query_spec _ _ _ _ Hquery) as (Hc & Hs & Hr & _);
      injection Hrun as <- <-; apply (integrity_kept w); try done; lia.
  - destruct (students_enroll now _ w) as [res w'] eqn:Hrun. simpl.
    destruct (students_enroll_spec _ _ _ _ _ Hrun) as (Hs & Hr & [Hc|(row & Hnew & Hc)]).
    + apply (integrity_kept w); try done; lia.
    + by apply (integrity_add_student w w' row).
  - destruct (attendance_save today _ w) as [res w'] eqn:Hrun. simpl.
    by apply (integrity_save _ _ _ _ _ (attendance_save_outcome _ _ _ _ _ Hrun)).
  - destruct (attendance_analytics current_date w) as [res w'] eqn:Hrun. simpl.
    destruct (attendance_analytics_reads _ _ _ _ Hrun) as (Hc & Hs & Hr).
    apply (integrity_kept w); try done; lia.
Qed.

End IntegrityOfSave.

(** X8.  The API keeps the database as the schema declares it.  Whatever
    requests arrive, with whatever headers and bodies, and whichever
    database calls fail: student ids and session ids stay unique, every
    record keeps pointing at a session and at a student (or at no student),
    every session at a user (or at none), and the two sequences stay ahead
    of every key in use. *)
Theorem serve_all_keeps_integrity `{PgDriver} `{Crypto} w requests :
  integrity w = true -> integrity (serve_all w requests) = true.
Proof.
  unfold serve_all. revert w.
  induction requests as [|r requests IH]; simpl; [done|].
  intros w Hw. by apply IH, integrity_serve.
Qed.

(** The seed database, a login, an enrollment, a save and an analytics
    request without a token, with the second database call failing. *)
Lemma serve_all_keeps_integrity_witness :
  integrity (Sample.world Sample.seed [false; true]) = true /\
  integrity
    (serve_all (Sample.world Sample.seed [false; true])
       [LoginRequest Sample.login_request;
        EnrollRequest (Some "Bearer teacher-token"%string) (Sample.enroll_request "STU006")
          Sample.now;
        SaveRequest (Some "Bearer teacher-token"%string)
          (body (Sample.save_request (VStr "Mathematics") Sample.two_records)) Sample.today;
        AnalyticsRequest None Sample.today]) = true.
Proof.
  split; [vm_compute; reflexivity|].
  apply serve_all_keeps_integrity. vm_compute; reflexivity.
Defined.

(** ** Who writes *)

(** X9.  Login, the student list and the analytics are reads: whatever
    the request carries and whichever database call fails, the tables and
    both sequences are afterwards what they were. *)
Theorem reads_change_nothing `{PgDriver} `{Crypto} w body authHeader current_date w' :
  w' = serve w (LoginRequest body) \/
  w' = serve w (EnrolledRequest authHeader) \/
  w' = serve w (AnalyticsRequest authHeader current_date) ->
  committed w' = committed w /\
  session_id_seq w' = session_id_seq w /\
  record_id_seq w' = record_id_seq w.
Proof.
  intros [->|[->| ->]]; simpl.
  - destruct (auth_login body w) as [res w'] eqn:Hrun.
    by destruct (auth_login_cases _ _ _ _ Hrun) as [[plan ->] _].
  - unfold authenticated.
    destruct (authenticateToken authHeader) as [code msg|user]; simpl; [done|].
    destruct (students_enrolled w) as [res w'] eqn:Hrun. simpl.
    unfold students_enrolled, or_500, mbind, M_bind in Hrun.
    destruct (pool_query _ w) as [[?|?] w1] eqn:Hquery;
      destruct (pool_query_spec _ _ _ _ Hquery) as (Hc & Hs & Hr & _);
      injection Hrun as <- <-; auto.
  - unfold authenticated.
    destruct (authenticateToken authHeader) as [code msg|user]; simpl; [done|].
    destruct (attendance_analytics current_date w) as [res w'] eqn:Hrun. simpl.
    exact (attendance_analytics_reads _ _ _ _ Hrun).
Qed.

(** The analytics request of the teacher on the seed database. *)
Lemma reads_change_nothing_witness :
  committed (serve (Sample.world Sample.seed [false; true])
               (AnalyticsRequest (Some "Bearer teacher-token"%string) Sample.today))
  = Sample.seed.
Proof.
  apply (reads_change_nothing (Sample.world Sample.seed [false; true]) VUndefined
           (Some "Bearer teacher-token"%string) Sample.today).
  right. right. reflexivity.
Defined.

(** X10.  Behind [authenticateToken] nothing happens without a token that
    verifies: the handler is not run, no database call is made (the world,
    the environment's plan included, is untouched), and the answer is 401
    when the header has no second piece or an empty one and 403
    otherwise. *)
Theorem authenticated_guards `{Crypto} {A} authHeader body
    (handler : request -> World -> response A * World) w :
  (forall token, header_token authHeader = Some token -> jwt_verify token = None) ->
  authenticated authHeader body handler w
  = (match header_token authHeader with
     | None | Some EmptyString => Status 401 "Access token required"
     | Some _ => Status 403 "Invalid token"
     end, w).
Proof.
  intros Hverify. unfold authenticated, authenticateToken.
  destruct (header_token authHeader) as [[|c token]|]; [done| |done].
  by rewrite (Hverify _ eq_refl).
Qed.

(** A save with a token that does not verify. *)
Lemma authenticated_guards_witness :
  authenticated (Some "Bearer forged"%string)
    (body (Sample.save_request (VStr "Mathematics") Sample.two_records))
    (attendance_save Sample.today) (Sample.world Sample.seed [])
  = (Status 403 "Invalid token", Sample.world Sample.seed []).
Proof.
  apply (authenticated_guards (Some "Bearer forged"%string)).
  intros token [= <-]. reflexivity.
Defined.

(** ** Saving: what is refused late, and what the session row holds *)

Section SaveProperties.
Context `{PgDriver}.

Lemma session_of_parameters today req sessionData attendanceRecords subject section
    sessionType values id :
  session_of today req sessionData attendanceRecords subject section sessionType
    = Ok values ->
  exists userId,
    get_prop (user req) "userId" = Ok userId /\
    to_integer userId = Ok (s_teacher_id (values id)) /\
    varchar 100 (to_text subject) = Ok (Some (s_subject (values id))) /\
    varchar 10 (to_text section) = Ok (Some (s_section (values id))) /\
    varchar 20 (to_text sessionType) = Ok (s_session_type (values id)).
Proof.
  unfold session_of, session_values.
  destruct (get_prop (user req) "userId") as [userId|?]; simpl; [|discriminate].
  repeat match goal with
         | |- context [mbind _ (get_prop ?v ?k)] =>
             destruct (get_prop v k); simpl; try discriminate
         end.
  destruct (to_integer userId) as [teacher|?] eqn:Hteacher; simpl; [|discriminate].
  destruct (varchar 100 (to_text subject)) as [[?|]|?]; simpl; try discriminate.
  destruct (varchar 10 (to_text section)) as [[?|]|?]; simpl; try discriminate.
  destruct (varchar 20 (to_text sessionType)) as [?|?]; simpl; [|discriminate].
  repeat match goal with
         | |- context [mbind _ ?m] => destruct m; simpl; try discriminate
         end.
  intros [= <-]; simpl. by exists userId.
Qed.

Lemma record_of_object sessionId record values :
  record_of sessionId record = Ok values -> record <> VNull /\ record <> VUndefined.
Proof.
  destruct record; try (intros _; split; discriminate);
    unfold record_of; simpl; discriminate.
Qed.

End SaveProperties.

(** X11.  What passes the guard can still be refused: when
    [attendanceRecords] is neither an array nor a string (an object, a
    number, [true]) or has an element that is [null] or [undefined], the
    request is never answered with a session id and nothing is committed,
    although the session row may already have been inserted inside the
    transaction. *)
Theorem attendance_save_needs_records `{PgDriver} today req w attendanceRecords :
  get_prop (body req) "attendanceRecords" = Ok attendanceRecords ->
  (js_iter attendanceRecords = Err TypeError \/
   exists records record,
     js_iter attendanceRecords = Ok records /\ In record records /\
     (record = VNull \/ record = VUndefined)) ->
  committed (snd (attendance_save today req w)) = committed w /\
  (fst (attendance_save today req w)
   = Status 400 "Session data, attendance records, and subject required" \/
   fst (attendance_save today req w) = Status 500 "Failed to save attendance").
Proof.
  intros HattendanceRecords Hbad.
  destruct (attendance_save today req w) as [res w'] eqn:Hrun. simpl.
  apply attendance_save_outcome in Hrun.
  destruct Hrun as [ | | |sessionData attendanceRecords' subject section sessionType
                            values records rows w' _ H2 _ _ _ _ _ _ _ Hiter Hstored];
    [by auto..|].
  rewrite HattendanceRecords in H2. injection H2 as <-.
  destruct Hbad as [Herr|(records' & record & Hiter' & Hin & Hnull)]; [congruence|].
  rewrite Hiter in Hiter'. injection Hiter' as <-.
  destruct (Forall2_In_l _ _ _ _ Hstored Hin) as (row & _ & (vals & Hof & _)).
  apply record_of_object in Hof. by destruct Hnull, Hof.
Qed.

(** An object where the array of records is expected. *)
Lemma attendance_save_needs_records_witness :
  committed (snd (attendance_save Sample.today
                    (Sample.save_request (VStr "Mathematics")
                       (VObj [("STU001", VStr "present")]%string))
                    (Sample.world Sample.seed [])))
  = Sample.seed /\
  fst (attendance_save Sample.today
         (Sample.save_request (VStr "Mathematics")
            (VObj [("STU001", VStr "present")]%string))
         (Sample.world Sample.seed []))
  = Status 500 "Failed to save attendance".
Proof.
  destruct (attendance_save_needs_records Sample.today
              (Sample.save_request (VStr "Mathematics")
                 (VObj [("STU001", VStr "present")]%string))
              (Sample.world Sample.seed [])
              (VObj [("STU001", VStr "present")]%string) eq_refl (or_introl eq_refl))
    as [Hsame _].
  split; [exact Hsame|]. vm_compute; reflexivity.
Defined.

(** X12.  The session row of a successful save: it is the last row of
    the table and carries the returned id, the server's date of the
    request, and as teacher the [userId] of the token's payload, which is
    a user of the database or [NULL].  A request without [section] is
    stored with section 'S33' and one without [sessionType] with type
    'offline'; a [sessionType] of [null] is stored as [NULL], and a
    [section] of [null] never succeeds. *)
Theorem attendance_save_session_row `{PgDriver} today req w saved w' :
  attendance_save today req w = (Json saved, w') ->
  exists session userId,
    attendance_sessions (committed w') = attendance_sessions (committed w) ++ [session] /\
    s_session_id session = sessionId saved /\
    s_session_date session = today /\
    get_prop (user req) "userId" = Ok userId /\
    to_integer userId = Ok (s_teacher_id session) /\
    references (has_user (committed w)) (s_teacher_id session) = true /\
    (get_prop (body req) "section" = Ok VUndefined -> s_section session = "S33"%string) /\
    get_prop (body req) "section" <> Ok VNull /\
    (get_prop (body req) "sessionType" = Ok VUndefined ->
     s_session_type session = Some "offline"%string) /\
    (get_prop (body req) "sessionType" = Ok VNull -> s_session_type session = None).
Proof.
  intros Hrun. apply attendance_save_outcome in Hrun.
  inversion Hrun as [ | | |sessionData attendanceRecords subject section sessionType
                            values records rows w'' ? ? ? Hsection HsessionType ? Hvalues
                            ? Hteacher ? ? ? Hcommitted]; subst; simpl.
  destruct (session_of_fields _ _ _ _ _ _ _ _ (session_id_seq w) Hvalues)
    as (Hid & Hdate & _).
  destruct (session_of_parameters _ _ _ _ _ _ _ _ (session_id_seq w) Hvalues)
    as (userId & HuserId & Hinteger & _ & Hsec & Htype).
  exists (values (session_id_seq w)), userId.
  rewrite Hcommitted. simpl. repeat split; try done.
  - intros Hmissing. rewrite Hmissing in Hsection. injection Hsection as <-.
    rewrite to_text_string in Hsec. simpl in Hsec. congruence.
  - intros Hnull. rewrite Hnull in Hsection. injection Hsection as <-.
    by rewrite to_text_null in Hsec.
  - intros Hmissing. rewrite Hmissing in HsessionType. injection HsessionType as <-.
    rewrite to_text_string in Htype. simpl in Htype. congruence.
  - intros Hnull. rewrite Hnull in HsessionType. injection HsessionType as <-.
    rewrite to_text_null in Htype. simpl in Htype. congruence.
Qed.

(** The teacher saves two records on the seed database, without a
    [sessionType]: session 2, of type 'offline'. *)
Lemma attendance_save_session_row_witness :
  exists session,
    attendance_sessions
      (committed (snd (attendance_save Sample.today
                         (Sample.save_request (VStr "Mathematics") Sample.two_records)
                         (Sample.world Sample.seed []))))
    = attendance_sessions Sample.seed ++ [session] /\
    s_session_id session = 2 /\
    s_session_date session = Sample.today /\
    s_teacher_id session = Some 1 /\
    s_session_type session = Some "offline"%string.
Proof.
  assert (attendance_save Sample.today
            (Sample.save_request (VStr "Mathematics") Sample.two_records)
            (Sample.world Sample.seed [])
          = (Json {| message := "Attendance saved successfully"; sessionId := 2 |},
             snd (attendance_save Sample.today
                    (Sample.save_request (VStr "Mathematics") Sample.two_records)
                    (Sample.world Sample.seed [])))) as Hrun
    by (vm_compute; reflexivity).
  destruct (attendance_save_session_row _ _ _ _ _ Hrun)
    as (session & userId & Hlast & Hid & Hdate & HuserId & Hteacher & _ & _ & _
        & Htype & _).
  exists session. repeat split; try done.
  - injection HuserId as <-.
    change (Ok (Some 1) = Ok (s_teacher_id session)) in Hteacher. congruence.
  - apply Htype. reflexivity.
Defined.

(** ** The analytics stay in range *)

Lemma count_bounds {R A} (expr : R -> option A) (group : list R) :
  0 <= count expr group <= count_star group.
Proof.
  unfold count, count_star.
  pose proof (List.filter_length_le (fun row => bool_decide (is_Some (expr row))) group).
  lia.
Qed.

Lemma rate_points_bounds rows : 0 <= rate_points rows <= 100 * Z.of_nat (length rows).
Proof.
  unfold rate_points, sum, present_times_100.
  induction rows as [|[s ar] rows IH]; simpl length; simpl fold_right; [lia|].
  destruct (holds (status_is_present ar)); simpl default; lia.
Qed.

Lemma traverse_In {A B} (f : A -> result B) (l : list A) bs b :
  traverse f l = Ok bs -> In b bs -> exists a, In a l /\ f a = Ok b.
Proof.
  revert bs. induction l as [|a l IH]; simpl; intros bs.
  - by intros [= <-].
  - destruct (f a) as [b'|?] eqn:Hfa; simpl; [|discriminate].
    destruct (traverse f l) as [bs'|?]; simpl; [|discriminate].
    intros [= <-] [<-|Hin]; [by eauto|].
    destruct (IH bs' eq_refl Hin) as (a' & ? & ?). eauto.
Qed.

Lemma attendance_analytics_json current_date w b w' :
  attendance_analytics current_date w = (Json b, w') ->
  trends b = trends_query current_date (committed w) /\
  engagement b = engagement_query current_date (committed w) /\
  risk_students_query current_date (committed w) = Ok (riskStudents b).
Proof.
  unfold attendance_analytics, or_500, mbind, M_bind.
  destruct (pool_query _ w) as [[r1|?] w1] eqn:Hq1; simpl; [|discriminate].
  destruct (pool_query _ w1) as [[r2|?] w2] eqn:Hq2; simpl; [|discriminate].
  destruct (pool_query _ w2) as [[r3|?] w3] eqn:Hq3; simpl; [|discriminate].
  destruct (pool_query_spec _ _ _ _ Hq1) as (Hc1 & _ & _ & [|H1]); [done|].
  destruct (pool_query_spec _ _ _ _ Hq2) as (Hc2 & _ & _ & [|H2]); [done|].
  destruct (pool_query_spec _ _ _ _ Hq3) as (Hc3 & _ & _ & [|H3]); [done|].
  intros [= <- <-]; simpl. rewrite Hc2, Hc1 in H3. rewrite Hc1 in H2.
  repeat split; congruence.
Qed.

Lemma Zpos_of_nat n : n <> 0%nat -> Z.pos (Pos.of_nat n) = Z.of_nat n.
Proof. intros Hn. by rewrite <- positive_nat_Z, Nat2Pos.id. Qed.

(** X13.  Every figure of an analytics response is in range.  A trend
    row is for a date of the last 30 days, counts at least one joined row
    and has a rate, between 0 and 100.  An engagement row counts at least
    one record and no more present records than records.  A risk row
    counts at least one record and no more attended than total, and its
    percentage is [attended * 100 / total], at least 0 and below 75. *)
Theorem analytics_in_range current_date w b w' :
  attendance_analytics current_date w = (Json b, w') ->
  Forall (fun row =>
            current_date - 30 <= t_session_date row /\
            1 <= t_total_sessions row /\
            exists rate, t_attendance_rate row = Some rate /\ (0 <= rate <= 100)%Q)
         (trends b) /\
  Forall (fun row =>
            0 <= e_present_count row <= e_total_count row /\ 1 <= e_total_count row)
         (engagement b) /\
  Forall (fun row =>
            0 <= r_attended_sessions row <= r_total_sessions row /\
            1 <= r_total_sessions row /\
            r_attendance_percentage row
            = (r_attended_sessions row * 100 # Z.to_pos (r_total_sessions row)) /\
            (0 <= r_attendance_percentage row < 75)%Q)
         (riskStudents b).
Proof.
  intros Hrun.
  destruct (attendance_analytics_json _ _ _ _ Hrun) as (-> & -> & Hrisk).
  split; [|split]; apply Forall_forall; intros row Hin; apply list_elem_of_In in Hin.
  - apply trends_query_rows in Hin as (date & Hsome & ->). simpl.
    set (rows := joined_on current_date date (committed w)) in *.
    assert (length rows <> 0%nat) as Hlength by (by destruct rows).
    pose proof (rate_points_bounds rows) as Hpoints.
    split; [|split; [lia|]].
    + destruct rows as [|[s ar] rows'] eqn:Hrows; [done|].
      assert (In (s, ar) (joined_on current_date date (committed w))) as Hrow
        by (fold rows; rewrite Hrows; by left).
      apply filter_In in Hrow as [Hrow Hdate]. apply Z.eqb_eq in Hdate as <-.
      apply filter_In in Hrow as [_ Hwindow]. simpl in Hwindow.
      destruct (current_date - 30 <=? s_session_date s) eqn:Hle; [|done].
      by apply Z.leb_le.
    + eexists. split; [reflexivity|].
      unfold Qle; simpl. rewrite (Zpos_of_nat _ Hlength). lia.
  - unfold engagement_query in Hin.
    apply in_map_iff in Hin as ([section group] & <- & Hin). simpl.
    apply (group_by_nonempty _ string_eqb_eq) in Hin.
    pose proof (count_bounds (fun '(_, ar) => present_or_null (Some ar)) group).
    split; [done|]. unfold count_star. destruct group; [done|]. simpl length. lia.
  - unfold risk_students_query in Hrisk.
    destruct (traverse risk_group _) as [lists|?] eqn:Htraverse; [|discriminate].
    injection Hrisk as Hrisk. rewrite <- Hrisk in Hin. unfold order_by_Q in Hin.
    apply list_elem_of_In in Hin. rewrite merge_sort_Permutation in Hin.
    apply list_elem_of_In, in_concat in Hin as (rows & Hrows & Hin).
    destruct (traverse_In _ _ _ _ Htraverse Hrows) as ([[id name] group] & Hgroup & Hrow).
    apply (group_by_nonempty _ pair_eqb_eq) in Hgroup.
    pose proof (count_bounds (fun '(_, ar, _) => present_or_null ar) group) as Hcount.
    assert (1 <= count_star group) as Hone.
    { unfold count_star. destruct group; [done|]. simpl length. lia. }
    unfold risk_group, attendance_percentage, numeric_div in Hrow.
    rewrite (proj2 (Z.eqb_neq _ 0)) in Hrow by lia. simpl in Hrow.
    destruct (Qlt_bool _ 75) eqn:Hbelow; injection Hrow as <-; [|done].
    destruct Hin as [<-|[]]. simpl. apply Qlt_bool_iff in Hbelow.
    repeat split; try done; try lia.
    unfold Qle; simpl. lia.
Qed.

(** The analytics of the seed database. *)
Lemma analytics_in_range_witness :
  Forall (fun row => 1 <= t_total_sessions row)
    (trends_query Sample.today Sample.seed).
Proof.
  destruct (analytics_in_range Sample.today (Sample.world Sample.seed [])
              {| trends := trends_query Sample.today Sample.seed;
                 engagement := engagement_query Sample.today Sample.seed;
                 riskStudents :=
                   match risk_students_query Sample.today Sample.seed with
                   | Ok rows => rows
                   | Err _ => []
                   end |}
              (Sample.world Sample.seed []) ltac:(vm_compute; reflexivity))
    as (Htrends & _).
  simpl in Htrends. eapply Forall_impl; [exact Htrends|].
  intros row (_ & Hone & _). exact Hone.
Defined.

(** ** Session ids over time *)

Section Sequences.
Context `{PgDriver} `{Crypto}.

Lemma serve_session_id_seq w r : session_id_seq w <= session_id_seq (serve w r).
Proof.
  destruct r as [body|authHeader|authHeader body now|authHeader body today
                 |authHeader current_date]; simpl; unfold authenticated;
    try (destruct (authenticateToken authHeader) as [code msg|user]; simpl; [lia|]).
  - destruct (auth_login body w) as [res w'] eqn:Hrun.
    destruct (auth_login_cases _ _ _ _ Hrun) as [[plan ->] _]. simpl. lia.
  - destruct (students_enrolled w) as [res w'] eqn:Hrun. simpl.
    unfold students_enrolled, or_500, mbind, M_bind in Hrun.
    destruct (pool_query _ w) as [[?|?] w1] eqn:Hquery;
      destruct (pool_query_spec _ _ _ _ Hquery) as (_ & Hs & _);
      injection Hrun as <- <-; lia.
  - destruct (students_enroll now _ w) as [res w'] eqn:Hrun. simpl.
    destruct (students_enroll_spec _ _ _ _ _ Hrun) as (Hs & _). lia.
  - destruct (attendance_save today _ w) as [res w'] eqn:Hrun. simpl.
    apply attendance_save_outcome in Hrun.
    destruct Hrun as [ | |? ? ? ? _ _ _ _ _ Hs _
                      |? ? ? ? ? ? ? ? ? _ _ _ _ _ _ _ _ _ _ _ _ _ _ Hs _]; lia.
  - destruct (attendance_analytics current_date w) as [res w'] eqn:Hrun. simpl.
    destruct (attendance_analytics_reads _ _ _ _ Hrun) as (_ & Hs & _). lia.
Qed.

Lemma serve_all_session_id_seq requests :
  forall w, session_id_seq w <= session_id_seq (serve_all w requests).
Proof.
  unfold serve_all. induction requests as [|r requests IH]; intros w; simpl; [lia|].
  pose proof (serve_session_id_seq w r). pose proof (IH (serve w r)). lia.
Qed.

End Sequences.

(** X14.  Session ids are handed out in increasing order: of two saves
    that succeed, the later one returns the greater id, whatever requests
    were served in between (failed saves included, which may use up ids). *)
Theorem session_ids_increase `{PgDriver} `{Crypto} today1 req1 w saved1 w1 requests
    today2 req2 saved2 w2 :
  attendance_save today1 req1 w = (Json saved1, w1) ->
  attendance_save today2 req2 (serve_all w1 requests) = (Json saved2, w2) ->
  sessionId saved1 < sessionId saved2.
Proof.
  intros Hrun1 Hrun2.
  apply attendance_save_outcome in Hrun1, Hrun2.
  pose proof (serve_all_session_id_seq requests w1) as Hbetween.
  inversion Hrun1 as [ | | |? ? ? ? ? ? ? ? ? ? ? ? ? ? ? ? ? ? ? ? ? ? ? Hs1]; subst.
  inversion Hrun2; subst. simpl. lia.
Qed.

(** Two saves on the seed database, with a save that fails at its second
    record between them: ids 2 and 4. *)
Lemma session_ids_increase_witness :
  2 < sessionId {| message := "Attendance saved successfully"; sessionId := 4 |}.
Proof.
  apply (session_ids_increase Sample.today
           (Sample.save_request (VStr "Mathematics") Sample.two_records)
           (Sample.world Sample.seed [])
           {| message := "Attendance saved successfully"; sessionId := 2 |}
           (snd (attendance_save Sample.today
                   (Sample.save_request (VStr "Mathematics") Sample.two_records)
                   (Sample.world Sample.seed [])))
           [SaveRequest (Some "Bearer teacher-token"%string)
              (body (Sample.save_request (VStr "Physics")
                       (VArr [Sample.attendance_record "STU001" "present" 0.5;
                              Sample.attendance_record "STU999" "present" 0.5])))
              Sample.today]
           Sample.today
           (Sample.save_request (VStr "Chemistry") Sample.two_records)
           {| message := "Attendance saved successfully"; sessionId := 4 |}
           (snd (attendance_save Sample.today
                   (Sample.save_request (VStr "Chemistry") Sample.two_records)
                   (serve_all
                      (snd (attendance_save Sample.today
                              (Sample.save_request (VStr "Mathematics") Sample.two_records)
                              (Sample.world Sample.seed [])))
                      [SaveRequest (Some "Bearer teacher-token"%string)
                         (body (Sample.save_request (VStr "Physics")
                                  (VArr [Sample.attendance_record "STU001" "present" 0.5;
                                         Sample.attendance_record "STU999" "present"
                                           0.5])))
                         Sample.today]))));
    vm_compute; reflexivity.
Defined.
